(** * smallsh: a shallow embedding of the command execution core

    The development follows [smallsh.c].  C strings live in byte buffers
    and are addressed by offsets; [strtok] keeps its saved position and
    writes terminators into the buffer it scans, so the buffer and the
    saved position are threaded explicitly through every function that
    tokenizes.  The functions of the C library that the program calls
    ([strlen], [strstr], [strncpy], [strcat], [strtok], [snprintf], [fgets])
    are written out as the C standard describes them, the status word of
    [wait] as Linux encodes it, and the operating system ([open], [fork],
    [execvp]) is an explicit oracle. *)

From Stdlib Require Import ZArith Ascii.
From stdpp Require Import gmap list strings.

Open Scope Z_scope.

(** ** C strings inside byte buffers *)

Definition NUL : ascii := "000"%char.
Definition SP : ascii := " "%char.

Abbreviation buffer := (list ascii).

Definition chars (s : string) : list ascii := String.list_ascii_of_string s.

(** Reading a byte; what lies behind the written part of an array that was
    cleared beforehand is zero. *)
Definition rd (b : buffer) (p : nat) : ascii := default NUL (b !! p).

Definition wr (b : buffer) (p : nat) (c : ascii) : buffer := <[p := c]> b.

(** Length of the longest prefix whose bytes all satisfy [f]. *)
Fixpoint span_len (f : ascii -> bool) (s : list ascii) : nat :=
  match s with
  | [] => 0%nat
  | c :: s' => if f c then S (span_len f s') else 0%nat
  end.

Definition nonnul (c : ascii) : bool := negb (Ascii.eqb c NUL).

Definition strlen (b : buffer) (p : nat) : nat := span_len nonnul (drop p b).

(** The C string that starts at offset [p]. *)
Definition cstr (b : buffer) (p : nat) : list ascii :=
  take (strlen b p) (drop p b).

Definition streq (a b : list ascii) : bool := bool_decide (a = b).

(** [strcmp(a, b) == 0] *)
Definition strcmp0 (a : list ascii) (b : string) : bool := streq a (chars b).

Fixpoint is_prefix (n h : list ascii) : bool :=
  match n, h with
  | [], _ => true
  | c :: n', d :: h' => Ascii.eqb c d && is_prefix n' h'
  | _ :: _, [] => false
  end.

(** [strstr]: offset of the first occurrence of the needle. *)
Fixpoint strstr (hay needle : list ascii) : option nat :=
  if is_prefix needle hay then Some 0%nat
  else match hay with
       | [] => None
       | _ :: hay' => S <$> strstr hay' needle
       end.

Definition ContainsString (stringToSearch : list ascii) (stringToSearchFor : string) : Z :=
  match strstr stringToSearch (chars stringToSearchFor) with
  | None => 0
  | Some _ => 1
  end.

(** [strncpy(dest, src, n)]: copies at most [n] bytes and pads with zeros
    up to [n]; no terminator is written when [src] has [n] bytes or more. *)
Definition strncpy (dest : buffer) (src : list ascii) (n : nat) : buffer :=
  take n (src ++ replicate n NUL) ++ drop n dest.

(** [strcat(dest, src)] within an array of fixed size: the bytes of [src]
    and a terminator are written after the string held in [dest]. *)
Definition strcat (dest : buffer) (src : list ascii) : buffer :=
  let l := strlen dest 0 in
  take (length dest) (take l dest ++ src ++ [NUL] ++ drop (l + length src + 1) dest).

(** ** strtok

    The tokens it returns are offsets into the buffer; each call writes a
    terminator over the delimiter that ends the token and remembers where
    to go on. *)

Record tok_state := TokState { mem : buffer; save : nat }.

Definition in_delim (delim : list ascii) (c : ascii) : bool :=
  existsb (Ascii.eqb c) delim.

Definition strspn (b : buffer) (p : nat) (accept : list ascii) : nat :=
  span_len (fun c => nonnul c && in_delim accept c) (drop p b).

Definition strcspn (b : buffer) (p : nat) (reject : list ascii) : nat :=
  span_len (fun c => nonnul c && negb (in_delim reject c)) (drop p b).

(** [strtok(s, delim)] of the C library: [s = None] is the call with a null
    first argument, which continues from the saved position. *)
Definition strtok (s : option nat) (delim : list ascii) (st : tok_state)
  : option nat * tok_state :=
  let s0 := match s with Some p => p | None => save st end in
  let b := mem st in
  if Ascii.eqb (rd b s0) NUL then (None, TokState b s0)
  else
    let s1 := (s0 + strspn b s0 delim)%nat in
    if Ascii.eqb (rd b s1) NUL then (None, TokState b s1)
    else
      let e := (s1 + strcspn b s1 delim)%nat in
      if Ascii.eqb (rd b e) NUL then (Some s1, TokState b e)
      else (Some s1, TokState (wr b e NUL) (S e)).

(** ** The argument array *)

Definition MAX_ARGS : nat := 513.
Definition MAX_COMMAND_LENGTH : nat := 2048.
Definition MAX_ERR_MSG_LENGTH : nat := 80.

(** A [char *] slot: [None] is the null pointer. *)
Abbreviation args_array := (list (option nat)).

Definition InitializeArgsArray (argv : args_array) : args_array :=
  foldl (fun a i => <[i := None]> a) argv (seq 0 MAX_ARGS).

(** The strings of a null-terminated array of pointers into [b]. *)
Fixpoint argv_strings (b : buffer) (argv : args_array) : list (list ascii) :=
  match argv with
  | Some p :: rest => cstr b p :: argv_strings b rest
  | _ => []
  end.

(** ** ParseUserInputToArgs *)

Fixpoint Parse_loop (fuel : nat) (HasOutputRedirect HasInputRedirect : Z)
    (st : tok_state) (currentToken : option nat) (currentTokenNumber : nat)
    (returnArr : args_array) : option (tok_state * nat * args_array) :=
  match currentToken with
  | None => Some (st, currentTokenNumber, returnArr)
  | Some t =>
      if (HasOutputRedirect =? 1) && strcmp0 (cstr (mem st) t) ">"
      then Some (st, currentTokenNumber, returnArr)
      else if (HasInputRedirect =? 1) && strcmp0 (cstr (mem st) t) "<"
      then Some (st, currentTokenNumber, returnArr)
      else if strcmp0 (cstr (mem st) t) "&"
      then Some (st, currentTokenNumber, returnArr)
      else
        let returnArr := <[currentTokenNumber := Some t]> returnArr in
        let '(currentToken, st) := strtok None [SP] st in
        let currentTokenNumber := S currentTokenNumber in
        if (currentTokenNumber =? MAX_ARGS - 1)%nat
        then Some (st, currentTokenNumber, <[(MAX_ARGS - 1)%nat := None]> returnArr)
        else match fuel with
             | O => None
             | S fuel' =>
                 Parse_loop fuel' HasOutputRedirect HasInputRedirect st
                   currentToken currentTokenNumber returnArr
             end
  end.

(** [None] would mean that the loop was cut short by the model; it never
    is, see [ParseUserInputToArgs_total]. *)
Definition ParseUserInputToArgs (st : tok_state) (userCommand : nat)
    (returnArr : args_array) : option (tok_state * args_array) :=
  let HasOutputRedirect := ContainsString (cstr (mem st) userCommand) ">" in
  let HasInputRedirect := ContainsString (cstr (mem st) userCommand) "<" in
  let '(currentToken, st) := strtok (Some userCommand) [SP] st in
  match Parse_loop MAX_ARGS HasOutputRedirect HasInputRedirect st currentToken 0 returnArr with
  | Some (st, currentTokenNumber, returnArr) =>
      Some (st, <[currentTokenNumber := None]> returnArr)
  | None => None
  end.

(** ** GetFileName *)

Fixpoint GetFileName_loop (fuel : nat) (st : tok_state) (currentToken : option nat)
    (currentTokenNumber redirSymPosition : nat) (tempArray : args_array)
  : option (tok_state * nat * args_array) :=
  match currentToken with
  | None => Some (st, redirSymPosition, tempArray)
  | Some t =>
      let redirSymPosition :=
        if strcmp0 (cstr (mem st) t) "<" || strcmp0 (cstr (mem st) t) ">"
        then currentTokenNumber else redirSymPosition in
      let tempArray := <[currentTokenNumber := Some t]> tempArray in
      let '(currentToken, st) := strtok None [SP] st in
      let currentTokenNumber := S currentTokenNumber in
      if (currentTokenNumber =? MAX_ARGS - 1)%nat
      then Some (st, redirSymPosition, <[(MAX_ARGS - 1)%nat := None]> tempArray)
      else match fuel with
           | O => None
           | S fuel' =>
               GetFileName_loop fuel' st currentToken currentTokenNumber
                 redirSymPosition tempArray
           end
  end.

(** The tokenizing part of [GetFileName]: the state it leaves, the marker
    position it found and its local array; [None] in the outer option is
    the model's fuel, in the inner one the early return. *)
Definition GetFileName_scan (st : tok_state) (userCommand : nat)
  : option (option (tok_state * nat * args_array)) :=
  if (ContainsString (cstr (mem st) userCommand) "<" =? 0)
     && (ContainsString (cstr (mem st) userCommand) ">" =? 0)
  then Some None
  else
    let tempArray := InitializeArgsArray (replicate MAX_ARGS None) in
    let '(currentToken, st) := strtok (Some userCommand) [SP] st in
    match GetFileName_loop MAX_ARGS st currentToken 0 0 tempArray with
    | Some r => Some (Some r)
    | None => None
    end.

(** [returnValue] is the caller's array; the result is the tokenizer state
    and that array. *)
Definition GetFileName (st : tok_state) (userCommand : nat) (returnValue : buffer)
  : option (tok_state * buffer) :=
  match GetFileName_scan st userCommand with
  | None => None
  | Some None => Some (st, returnValue)
  | Some (Some (st', redirSymPosition, tempArray)) =>
      match tempArray !! (redirSymPosition + 1)%nat with
      | Some (Some p) =>
          Some (st', strncpy returnValue (cstr (mem st') p) MAX_COMMAND_LENGTH)
      | _ => Some (st', returnValue)
      end
  end.

(** ** What the specification calls the space-split of a line *)

Definition is_sp (c : ascii) : bool := Ascii.eqb c SP.
Definition notsp (c : ascii) : bool := negb (is_sp c).

Fixpoint drop_while (f : ascii -> bool) (s : list ascii) : list ascii :=
  match s with
  | [] => []
  | c :: s' => if f c then drop_while f s' else s
  end.

(** The non-empty maximal runs of bytes other than a space, in order. *)
Fixpoint split_fuel (fuel : nat) (s : list ascii) : list (list ascii) :=
  match fuel with
  | O => []
  | S fuel' =>
      match drop_while is_sp s with
      | [] => []
      | s1 =>
          take (span_len notsp s1) s1
            :: split_fuel fuel' (drop (span_len notsp s1) s1)
      end
  end.

Definition space_split (s : list ascii) : list (list ascii) :=
  split_fuel (S (length s)) s.

Definition is_marker (t : list ascii) : bool :=
  strcmp0 t ">" || strcmp0 t "<" || strcmp0 t "&".

Fixpoint take_until (f : list ascii -> bool) (ts : list (list ascii)) : list (list ascii) :=
  match ts with
  | [] => []
  | t :: ts' => if f t then [] else t :: take_until f ts'
  end.

(** The tokenizer as the specification words it. *)
Definition tokenizer_spec (line : list ascii) : list (list ascii) :=
  take (MAX_ARGS - 1) (take_until is_marker (space_split line)).


(** ** The redirection marker the scan of [GetFileName] settles on *)

Definition is_redir (t : list ascii) : bool := strcmp0 t "<" || strcmp0 t ">".

(** The position variable of the scan, token by token. *)
Fixpoint redir_pos (ts : list (list ascii)) (n pos : nat) : nat :=
  match ts with
  | [] => pos
  | t :: ts' => redir_pos ts' (S n) (if is_redir t then n else pos)
  end.

(** Index of the last token that is a redirection marker, counting the
    first token of the list as [n]. *)
Fixpoint last_redir_from (ts : list (list ascii)) (n : nat) : option nat :=
  match ts with
  | [] => None
  | t :: ts' =>
      match last_redir_from ts' (S n) with
      | Some i => Some i
      | None => if is_redir t then Some n else None
      end
  end.

Definition last_redir (ts : list (list ascii)) : option nat := last_redir_from ts 0.

(** ** Invariants of the tokenizing loops *)

(** A slot points at a finished token that ends before [sv]. *)
Definition slot_holds (b : buffer) (sv : nat) (o : option nat) (t : list ascii) : Prop :=
  exists p, o = Some p /\ cstr b p = t /\ (p + length t <= sv)%nat.

Definition slots_hold (b : buffer) (sv : nat) (arr : args_array)
    (done : list (list ascii)) : Prop :=
  Forall2 (slot_holds b sv) (take (length done) arr) done.

(** The token just returned by [strtok] and those still to come. *)
Definition pending (st : tok_state) (cur : option nat) (ts : list (list ascii)) : Prop :=
  match cur with
  | None => ts = []
  | Some q =>
      ts = cstr (mem st) q :: space_split (cstr (mem st) (save st))
      /\ (q + strlen (mem st) q <= save st)%nat
  end.

(** The array [userInput] holding a line that was read. *)
Definition line_buffer (line : string) : tok_state :=
  TokState (chars line ++ replicate (MAX_COMMAND_LENGTH - length (chars line)) NUL) 0.

(** ** Formatted output *)

Definition digit (d : Z) : ascii := ascii_of_nat (48 + Z.to_nat d).

(** Decimal digits of a number that is not negative, last digit first
    onto [acc]. *)
Fixpoint digits (fuel : nat) (n : Z) (acc : list ascii) : list ascii :=
  let acc := digit (n mod 10) :: acc in
  if n <? 10 then acc
  else match fuel with
       | O => acc
       | S fuel' => digits fuel' (n / 10) acc
       end.

(** What the conversion [%d] prints. *)
Definition decimal (n : Z) : list ascii :=
  if n <? 0 then "-"%char :: digits (Z.to_nat (Z.log2 (- n))) (- n) []
  else digits (Z.to_nat (Z.log2 n)) n [].

(** The number a string of digits denotes. *)
Definition digits_value (ds : list ascii) : Z :=
  foldl (fun v c => 10 * v + (Z.of_nat (nat_of_ascii c) - 48)) 0 ds.

(** [snprintf(str, size, "%d", n)]: the string left in [str]. *)
Definition snprintf_d (size : nat) (n : Z) : list ascii :=
  take (size - 1) (decimal n).

Definition NL : ascii := "010"%char.

(** ** Termination of a child and the status word of [wait]

    The low seven bits of the word hold the signal that killed the child
    (zero when it exited), bit 7 the core flag, the next eight bits the
    exit code; the macros are those of [<sys/wait.h>]. *)

Inductive termination :=
| Exited (code : Z)
| Signaled (sig : Z) (core : bool).

(** The status word the kernel hands to [waitpid]. *)
Definition wait_status (t : termination) : Z :=
  match t with
  | Exited code => Z.shiftl (Z.land code 255) 8
  | Signaled sig core => Z.lor (Z.land sig 127) (if core then 128 else 0)
  end.

Definition WEXITSTATUS (status : Z) : Z := Z.shiftr (Z.land status 65280) 8.
Definition WTERMSIG (status : Z) : Z := Z.land status 127.

Definition signed_char (x : Z) : Z :=
  let y := x mod 256 in if y <? 128 then y else y - 256.

Definition WIFSIGNALED (status : Z) : bool :=
  Z.shiftr (signed_char (Z.land status 127 + 1)) 1 >? 0.

(** ** File descriptors *)

Inductive open_flags := O_RDONLY | O_WRONLY_TRUNC_CREAT.

Inductive open_file :=
| Inherited (n : Z)
| OpenFile (path : list ascii) (flags : open_flags).

Abbreviation fd_table := (gmap Z open_file).

(** The descriptors a shell starts with. *)
Definition std_fds : fd_table :=
  <[0 := Inherited 0]> (<[1 := Inherited 1]> (<[2 := Inherited 2]> ∅)).

Fixpoint find_free (fuel : nat) (n : Z) (t : fd_table) : Z :=
  match fuel with
  | O => n
  | S fuel' => match t !! n with
               | None => n
               | Some _ => find_free fuel' (n + 1) t
               end
  end.

(** What [waitpid(spawnPid, &status, 0)] does in the foreground launcher.
    [main] installs [sigchld_handler] for the child signal, and the handler
    reaps every terminated child it finds, the foreground child among them
    when it runs before the launcher's call. *)
Inductive wait_result :=
| (** it returns [spawnPid], and [status] holds the status word of the
      child *)
  WaitReaped
| (** it returns -1 and leaves [status] alone.  [reaped_by_handler]: the
      handler has reaped the child before and has written its notice for
      it; otherwise the call was interrupted, or the child cannot be waited
      for, and no notice for it was written *)
  WaitFailed (reaped_by_handler : bool).

(** The operating system as the shell meets it during one command. *)
Record os := OS {
  (** whether [open] of a path with these flags succeeds *)
  os_can_open : list ascii -> open_flags -> bool;
  (** the process id [fork] returns in the parent; [None]: it fails *)
  os_fork : option Z;
  (** [execvp] of a file with an argument list, on the descriptors it
      inherits: how the program ends, or [None] when [execvp] returns *)
  os_execvp : option (list ascii) -> list (list ascii) -> fd_table -> option termination;
  (** the blocking [waitpid] of the foreground launcher *)
  os_waitpid : wait_result
}.

(** [open]: the lowest free descriptor, or -1. *)
Definition sys_open (w : os) (t : fd_table) (path : list ascii) (flags : open_flags)
  : Z * fd_table :=
  if os_can_open w path flags
  then let fd := find_free (size t) 0 t in (fd, <[fd := OpenFile path flags]> t)
  else (-1, t).

Definition dup2 (t : fd_table) (oldfd newfd : Z) : Z * fd_table :=
  match t !! oldfd with
  | Some f => (newfd, <[newfd := f]> t)
  | None => (-1, t)
  end.

Definition close (t : fd_table) (fd : Z) : fd_table := delete fd t.

(** ** The spawned child *)

(** What became of a child: what it printed itself, the program image
    that replaced it when [execvp] succeeded (arguments and descriptors),
    and how it ended. *)
Record child_run := ChildRun {
  ch_output : list ascii;
  ch_image : option (list (list ascii) * fd_table);
  ch_end : termination
}.

Definition child_exit (out : list ascii) (code : Z) : child_run :=
  ChildRun out None (Exited code).

(** [execvp(argv[0], argv)] and the two statements behind it. *)
Definition child_exec (w : os) (argv : list (list ascii)) (fds : fd_table) : child_run :=
  match os_execvp w (head argv) argv fds with
  | Some t => ChildRun [] (Some (argv, fds)) t
  | None =>
      child_exit (default (chars "(null)") (head argv)
                  ++ chars ": no such file or directory" ++ [NL]) 1
  end.

(** The [case 0] branch of [RunForeGroundCommand].  The two calls of
    [sigaction] change the disposition of the interrupt signal only, which
    nothing modelled here reads. *)
Definition foreground_child (w : os) (hasOutputRedirect hasInputRedirect fd : Z)
    (fileName : buffer) (argv : list (list ascii)) (fds : fd_table) : child_run :=
  let '(r1, fds) := if hasOutputRedirect =? 0 then (0, fds) else dup2 fds fd 1 in
  if negb (hasOutputRedirect =? 0) && (r1 <? 0) then child_exit [] 1
  else
    let '(r2, fds) := if hasInputRedirect =? 0 then (0, fds) else dup2 fds fd 0 in
    if negb (hasInputRedirect =? 0) && (r2 <? 0)
    then child_exit (chars "smallsh: cannot open " ++ cstr fileName 0
                     ++ chars " for input" ++ [NL]) 1
    else child_exec w argv (close fds fd).

(** The [case 0] branch of [RunBackGroundCommand]. *)
Definition background_child (w : os) (hasOutputRedirect fd : Z)
    (fileName : buffer) (argv : list (list ascii)) (fds : fd_table) : child_run :=
  let '(r1, fds) := if hasOutputRedirect =? 0 then (0, fds) else dup2 fds fd 1 in
  if negb (hasOutputRedirect =? 0) && (r1 <? 0) then child_exit [] 1
  else
    let '(r2, fds) := dup2 fds fd 0 in
    if r2 <? 0
    then child_exit (chars "smallsh: cannot open " ++ cstr fileName 0
                     ++ chars " for input" ++ [NL]) 1
    else child_exec w argv (close fds fd).

(** ** RunForeGroundCommand and RunBackGroundCommand *)

(** What a launcher leaves behind, next to its return value: what the
    shell has written to standard output by the time it returns (the
    notice of the handler for the foreground child when the handler reaped
    it, then what the launcher printed), the line buffer with the position
    [strtok] saved, the descriptors of the shell, its local [fileName] and
    the child. *)
Record launch_result := Launched {
  l_output : list ascii;
  l_tok : tok_state;
  l_fds : fd_table;
  l_fileName : buffer;
  l_child : child_run
}.

Inductive outcome (A : Type) :=
| Exit (code : Z)
| Return (r : A).
Arguments Exit {A} code.
Arguments Return {A} r.

Definition terminated_by_signal (signalNumber : Z) : buffer :=
  let signalNumberStr := snprintf_d 10 signalNumber in
  let terminateMsg :=
    strncpy (replicate MAX_ERR_MSG_LENGTH NUL) (chars "terminated by signal ")
      MAX_ERR_MSG_LENGTH in
  strcat terminateMsg signalNumberStr.

(** The array [childTerminateMsg] when it is written out. *)
Definition childTerminateMsg (childPid status : Z) : buffer :=
  let pidNumberStr := snprintf_d 10 childPid in
  let msg := strncpy (replicate MAX_ERR_MSG_LENGTH NUL)
               (NL :: chars "background pid ") MAX_ERR_MSG_LENGTH in
  let msg := strcat msg pidNumberStr in
  let msg := strcat msg (chars " is done: ") in
  if WIFSIGNALED status
  then
    let signalNumberStr := snprintf_d 10 (WTERMSIG status) in
    let msg := strcat msg (chars "terminated by signal ") in
    let msg := strcat msg signalNumberStr in
    strcat msg [NL]
  else
    let msg := strcat msg (chars "exit value ") in
    let statusNumberStr := snprintf_d 5 (WEXITSTATUS status) in
    let msg := strcat msg statusNumberStr in
    strcat msg [NL].

(** The variable [status] of the foreground launcher behind its call of
    [waitpid]: the launcher does not look at what the call returns. *)
Definition waited_status (r : wait_result) (status : Z) (e : termination) : Z :=
  match r with
  | WaitReaped => wait_status e
  | WaitFailed _ => status
  end.

(** What the handler has written to standard output for the foreground
    child by the time the launcher's [waitpid] returns. *)
Definition handler_notice (r : wait_result) (spawnPid : Z) (e : termination)
  : list ascii :=
  match r with
  | WaitFailed true => childTerminateMsg spawnPid (wait_status e)
  | _ => []
  end.

(** The redirect part that both launchers start with: one call of
    [GetFileName] and one [open]. *)
Definition open_redirect (w : os) (st : tok_state) (userCommand : nat)
    (fileName : buffer) (fds : fd_table) (flags : open_flags)
  : option (tok_state * buffer * Z * fd_table) :=
  '(st, fileName) ← GetFileName st userCommand fileName;
  let '(fd, fds) := sys_open w fds (cstr fileName 0) flags in
  Some (st, fileName, fd, fds).

Definition RunForeGroundCommand (w : os) (st : tok_state) (userCommand : nat)
    (errMsg : buffer) (fds : fd_table)
  : option (outcome (Z * buffer * launch_result)) :=
  let status := 0 in
  let fd := -1 in
  let fileName := replicate MAX_COMMAND_LENGTH NUL in
  let hasOutputRedirect := ContainsString (cstr (mem st) userCommand) ">" in
  let hasInputRedirect := ContainsString (cstr (mem st) userCommand) "<" in
  let argv := InitializeArgsArray (replicate MAX_ARGS None) in
  '(st, fileName, fd, fds) ←
    (if hasOutputRedirect =? 1
     then open_redirect w st userCommand fileName fds O_WRONLY_TRUNC_CREAT
     else Some (st, fileName, fd, fds));
  '(st, fileName, fd, fds) ←
    (if hasInputRedirect =? 1
     then open_redirect w st userCommand fileName fds O_RDONLY
     else Some (st, fileName, fd, fds));
  '(st, argv) ← ParseUserInputToArgs st userCommand argv;
  match os_fork w with
  | None => Some (Exit 1)
  | Some spawnPid =>
      let child :=
        foreground_child w hasOutputRedirect hasInputRedirect fd fileName
          (argv_strings (mem st) argv) fds in
      let fds := close fds fd in
      let written := handler_notice (os_waitpid w) spawnPid (ch_end child) in
      let status := waited_status (os_waitpid w) status (ch_end child) in
      let returnStatus := WEXITSTATUS status in
      if WIFSIGNALED status
      then
        let terminateMsg := terminated_by_signal (WTERMSIG status) in
        Some (Return (returnStatus,
                      strncpy errMsg (cstr terminateMsg 0) MAX_ERR_MSG_LENGTH,
                      Launched (written ++ cstr terminateMsg 0 ++ [NL]) st fds fileName
                        child))
      else
        Some (Return (returnStatus, errMsg, Launched written st fds fileName child))
  end.

(** The [default] branch of [RunForeGroundCommand] on its own, once the
    child is known. *)
Definition foreground_parent (r : wait_result) (spawnPid : Z) (errMsg : buffer)
    (st : tok_state) (fileName : buffer) (fd : Z) (fds : fd_table) (child : child_run)
  : outcome (Z * buffer * launch_result) :=
  let written := handler_notice r spawnPid (ch_end child) in
  let status := waited_status r 0 (ch_end child) in
  if WIFSIGNALED status
  then Return (WEXITSTATUS status,
               strncpy errMsg (cstr (terminated_by_signal (WTERMSIG status)) 0)
                 MAX_ERR_MSG_LENGTH,
               Launched (written ++ cstr (terminated_by_signal (WTERMSIG status)) 0 ++ [NL])
                 st (close fds fd) fileName child)
  else Return (WEXITSTATUS status, errMsg,
               Launched written st (close fds fd) fileName child).

Definition RunBackGroundCommand (w : os) (st : tok_state) (userCommand : nat)
    (fds : fd_table) : option (outcome (Z * launch_result)) :=
  let returnStatus := 0 in
  let fd := -1 in
  let fileName := replicate MAX_COMMAND_LENGTH NUL in
  let hasOutputRedirect := ContainsString (cstr (mem st) userCommand) ">" in
  let hasInputRedirect := ContainsString (cstr (mem st) userCommand) "<" in
  let argv := InitializeArgsArray (replicate MAX_ARGS None) in
  '(st, fileName, fd, fds) ←
    (if hasOutputRedirect =? 1
     then open_redirect w st userCommand fileName fds O_WRONLY_TRUNC_CREAT
     else Some (st, fileName, fd, fds));
  '(st, fileName, fd, fds) ←
    (if hasInputRedirect =? 1
     then open_redirect w st userCommand fileName fds O_RDONLY
     else let '(fd, fds) := sys_open w fds (chars "/dev/null") O_RDONLY in
          Some (st, fileName, fd, fds));
  '(st, argv) ← ParseUserInputToArgs st userCommand argv;
  match os_fork w with
  | None => Some (Exit 1)
  | Some spawnPid =>
      let child :=
        background_child w hasOutputRedirect fd fileName
          (argv_strings (mem st) argv) fds in
      let fds := close fds fd in
      let pidNumberStr := snprintf_d 10 spawnPid in
      Some (Return (returnStatus,
                    Launched (chars "background pid is " ++ pidNumberStr ++ [NL])
                      st fds fileName child))
  end.

(** ** The termination handler *)

(** The children of the shell that the kernel knows: those that ended and
    were not waited for yet, in the order [waitpid] hands them out, and
    those still running. *)
Record proc_table := ProcTable {
  zombies : list (Z * termination);
  running : list Z
}.

(** [waitpid(-1, &status, WNOHANG)]: the return value, the status word
    when a child was reaped, and the table afterwards. *)
Definition waitpid_nohang (t : proc_table) : Z * option Z * proc_table :=
  match zombies t with
  | (pid, e) :: zs => (pid, Some (wait_status e), ProcTable zs (running t))
  | [] => (match running t with [] => -1 | _ => 0 end, None, t)
  end.

(** The loop of the handler; [out] collects the bytes given to [write],
    which are all [sizeof(childTerminateMsg)] bytes of the array. *)
Fixpoint sigchld_loop (fuel : nat) (t : proc_table) (out : list ascii)
  : option (proc_table * list ascii) :=
  let '(childPid, status, t) := waitpid_nohang t in
  if childPid >? 0
  then match fuel with
       | O => None
       | S fuel' =>
           sigchld_loop fuel' t (out ++ childTerminateMsg childPid (default 0 status))
       end
  else Some (t, out).

Definition sigchld_handler (t : proc_table) : option (proc_table * list ascii) :=
  sigchld_loop (length (zombies t)) t [].

(** The notice for one child as the specification words it. *)
Definition notice_text (pid : Z) (e : termination) : list ascii :=
  chars "background pid " ++ decimal pid ++ chars " is done: "
  ++ match e with
     | Exited code => chars "exit value " ++ decimal code
     | Signaled sig _ => chars "terminated by signal " ++ decimal sig
     end.

(** ** Reading a line *)

Record stdin_state := Stdin {
  unread : list ascii;
  eof_flag : bool
}.

(** At most [k] bytes up to and with the first newline; the flag tells
    that the input ended before that. *)
Fixpoint take_line (k : nat) (l : list ascii) : list ascii * list ascii * bool :=
  match k with
  | O => ([], l, false)
  | S k' =>
      match l with
      | [] => ([], [], true)
      | c :: l' =>
          if Ascii.eqb c NL then ([c], l', false)
          else let '(g, r, e) := take_line k' l' in (c :: g, r, e)
      end
  end.

(** [fgets(s, size, stdin)]: at end of file with nothing read, [s] is left
    as it was. *)
Definition fgets (s : buffer) (size : nat) (inp : stdin_state) : buffer * stdin_state :=
  match unread inp with
  | [] => (s, Stdin [] true)
  | _ =>
      let '(got, rest, hit) := take_line (size - 1) (unread inp) in
      (got ++ [NUL] ++ drop (length got + 1) s, Stdin rest (eof_flag inp || hit))
  end.

Definition SIZE_MAX : Z := 2 ^ 64 - 1.

(** [size_t] subtraction. *)
Definition size_t_sub (a b : Z) : Z := (a - b) mod (SIZE_MAX + 1).

(** Access to an element of an array of [length b] bytes; [None] when the
    index lies outside the array. *)
Definition array_get (b : buffer) (i : Z) : option ascii :=
  if (0 <=? i) && (i <? Z.of_nat (length b)) then b !! Z.to_nat i else None.

(** [None]: the function reads outside the array it was given. *)
Definition RemoveNewLineAndAddNullTerm (stringValue : buffer) : option buffer :=
  let ln := size_t_sub (Z.of_nat (strlen stringValue 0)) 1 in
  match array_get stringValue ln with
  | None => None
  | Some c =>
      if Ascii.eqb c NL then Some (wr stringValue (Z.to_nat ln) NUL)
      else Some stringValue
  end.

Inductive read_result :=
| ReadUndefined
| ReadExit (code : Z)
| ReadLine (userInput : buffer) (inp : stdin_state).

(** The first half of the body of the loop in [RunShellLoop], up to the
    test of [feof].  [tcflush] discards terminal input that was typed
    ahead; the model reads from a stream without such input. *)
Definition read_command (userInput : buffer) (inp : stdin_state) : read_result :=
  let userInput := strncpy userInput [] (MAX_COMMAND_LENGTH - 1) in
  let '(userInput, inp) := fgets userInput 79 inp in
  match RemoveNewLineAndAddNullTerm userInput with
  | None => ReadUndefined
  | Some userInput => if eof_flag inp then ReadExit 0 else ReadLine userInput inp
  end.

(** ** The shell loop *)

(** The variables of [RunShellLoop] that live across turns of the loop,
    the saved position of [strtok] next to the array it points into, and
    the descriptors of the process. *)
Record shell := Shell {
  statusNumber : Z;
  errMsg : buffer;
  sh_tok : tok_state;
  sh_fds : fd_table
}.

Definition userInput (sh : shell) : buffer := mem (sh_tok sh).

Definition initial_shell : shell :=
  Shell 0 (replicate MAX_ERR_MSG_LENGTH NUL)
    (TokState (replicate MAX_COMMAND_LENGTH NUL) 0) std_fds.

Inductive effect :=
| Printed (text : list ascii)
| Chdir (path : option (list ascii))
| Spawned (background : bool) (child : child_run).

(** [status]: what is printed. *)
Definition render_status (sh : shell) : list ascii :=
  if strcmp0 (cstr (errMsg sh) 0) ""
  then chars "exit value " ++ decimal (statusNumber sh) ++ [NL]
  else cstr (errMsg sh) 0 ++ [NL].

Definition clear_status (sh : shell) : shell :=
  Shell 0 (strncpy (errMsg sh) [] MAX_ERR_MSG_LENGTH) (sh_tok sh) (sh_fds sh).

(** The second half of the body of the loop, from the test for an empty
    line on.  [home] is what [getenv("HOME")] returns. *)
Definition process_line (w : os) (home : option (list ascii)) (sh : shell)
  : option (outcome (shell * list effect)) :=
  let line := cstr (userInput sh) 0 in
  if strcmp0 line "" then Some (Return (sh, []))
  else if Ascii.eqb (rd (userInput sh) 0) "#" then Some (Return (sh, []))
  else if strcmp0 line "exit" then Some (Exit 0)
  else if strcmp0 line "cd" then Some (Return (sh, [Chdir home]))
  else if Ascii.eqb (rd (userInput sh) 0) "c" && Ascii.eqb (rd (userInput sh) 1) "d"
          && Ascii.eqb (rd (userInput sh) 2) " "
  then
    '(st, argArr) ← ParseUserInputToArgs (sh_tok sh) 0
                      (InitializeArgsArray (replicate MAX_ARGS None));
    Some (Return (Shell (statusNumber sh) (errMsg sh) st (sh_fds sh),
                  [Chdir (cstr (mem st) <$> default None (argArr !! 1%nat))]))
  else if strcmp0 line "status"
  then Some (Return (clear_status sh, [Printed (render_status sh)]))
  else
    let sh := clear_status sh in
    if negb (ContainsString line "&" =? 0)
    then
      r ← RunBackGroundCommand w (sh_tok sh) 0 (sh_fds sh);
      match r with
      | Exit code => Some (Exit code)
      | Return (_, l) =>
          Some (Return (Shell (statusNumber sh) (errMsg sh) (l_tok l) (l_fds l),
                        [Spawned true (l_child l); Printed (l_output l)]))
      end
    else
      r ← RunForeGroundCommand w (sh_tok sh) 0 (errMsg sh) (sh_fds sh);
      match r with
      | Exit code => Some (Exit code)
      | Return (returnStatus, errMsg', l) =>
          Some (Return (Shell returnStatus errMsg' (l_tok l) (l_fds l),
                        [Spawned false (l_child l); Printed (l_output l)]))
      end.

(** The first half followed by the second. *)
Inductive turn_result :=
| TurnUndefined
| TurnExit (code : Z)
| TurnNext (sh : shell) (inp : stdin_state) (effects : list effect).

Definition shell_turn (w : os) (home : option (list ascii)) (sh : shell)
    (inp : stdin_state) : option turn_result :=
  match read_command (userInput sh) inp with
  | ReadUndefined => Some TurnUndefined
  | ReadExit code => Some (TurnExit code)
  | ReadLine line inp =>
      let sh := Shell (statusNumber sh) (errMsg sh)
                  (TokState line (save (sh_tok sh))) (sh_fds sh) in
      r ← process_line w home sh;
      match r with
      | Exit code => Some (TurnExit code)
      | Return (sh, eff) => Some (TurnNext sh inp eff)
      end
  end.

Inductive loop_result :=
| LoopUndefined
| LoopExit (code : Z) (effects : list effect)
| LoopRunning (sh : shell) (inp : stdin_state) (effects : list effect).

(** [RunShellLoop], one element of [ws] per turn of the loop: what the
    operating system does for the command of that turn.  When [ws] runs out
    the loop is still running. *)
Fixpoint RunShellLoop (ws : list os) (home : option (list ascii)) (sh : shell)
    (inp : stdin_state) (effects : list effect) : option loop_result :=
  match ws with
  | [] => Some (LoopRunning sh inp effects)
  | w :: ws' =>
      let effects := effects ++ [Printed (chars ": ")] in
      r ← shell_turn w home sh inp;
      match r with
      | TurnUndefined => Some LoopUndefined
      | TurnExit code => Some (LoopExit code effects)
      | TurnNext sh inp eff => RunShellLoop ws' home sh inp (effects ++ eff)
      end
  end.

(** Everything a run printed on the shell's own output. *)
Definition printed (effects : list effect) : list ascii :=
  concat (map (fun e => match e with Printed t => t | _ => [] end) effects).

(** A line of [n] tokens [a] followed by the tokens [> f]. *)
Definition long_line (n : nat) : list ascii :=
  concat (replicate n (chars "a ")) ++ chars "> f".

(** ** Operating systems for the examples *)

(** Every file opens, [fork] returns [pid], every program ends as [e]. *)
Definition os_runs (pid : Z) (e : termination) : os :=
  OS (fun _ _ => true) (Some pid) (fun _ _ _ => Some e) WaitReaped.

(** No program is found. *)
Definition os_no_program (pid : Z) : os :=
  OS (fun _ _ => true) (Some pid) (fun _ _ _ => None) WaitReaped.

(** [fork] fails. *)
Definition os_no_fork : os :=
  OS (fun _ _ => true) None (fun _ _ _ => None) WaitReaped.

(** As [os_runs] and [os_no_program], with the handler of [main] reaping
    the foreground child before the launcher waits for it. *)
Definition os_runs_handler_first (pid : Z) (e : termination) : os :=
  OS (fun _ _ => true) (Some pid) (fun _ _ _ => Some e) (WaitFailed true).


(** An array of [n] bytes that holds the string [s] and zeros behind it. *)
Definition padded (n : nat) (s : list ascii) : buffer :=
  s ++ replicate (n - length s) NUL.

(** The bytes one turn of the handler's loop hands to [write]: a newline,
    the notice, a newline, and the rest of the array. *)
Definition written_notice (pid : Z) (e : termination) : list ascii :=
  padded MAX_ERR_MSG_LENGTH (NL :: notice_text pid e ++ [NL]).

(** A child the kernel can report: a process id that [%d] prints in at
    most nine digits, an exit code of one byte, a signal number. *)
Definition reportable (z : Z * termination) : Prop :=
  0 < z.1 < 10 ^ 9 /\
  match z.2 with
  | Exited code => 0 <= code <= 255
  | Signaled sig _ => 1 <= sig <= 126
  end.

(** ** The forms of a line *)

Inductive line_kind :=
| Blank | Comment | ExitCmd | CdHome | CdPath | StatusQuery
| BackgroundCmd | ForegroundCmd.

(** The form of the line in [userInput], by the tests of [RunShellLoop] in
    their order. *)
Definition classify (userInput : buffer) : line_kind :=
  let line := cstr userInput 0 in
  if strcmp0 line "" then Blank
  else if Ascii.eqb (rd userInput 0) "#" then Comment
  else if strcmp0 line "exit" then ExitCmd
  else if strcmp0 line "cd" then CdHome
  else if Ascii.eqb (rd userInput 0) "c" && Ascii.eqb (rd userInput 1) "d"
          && Ascii.eqb (rd userInput 2) " " then CdPath
  else if strcmp0 line "status" then StatusQuery
  else if negb (ContainsString line "&" =? 0) then BackgroundCmd
  else ForegroundCmd.

(** The status is in its initial state. *)
Definition status_clear (sh : shell) : Prop :=
  statusNumber sh = 0 /\ cstr (errMsg sh) 0 = [].

(** The shell about to process [line]. *)
Definition shell_at (sh : shell) (line : string) : shell :=
  Shell (statusNumber sh) (errMsg sh)
    (TokState (mem (line_buffer line)) (save (sh_tok sh))) (sh_fds sh).

(** Input typed line by line. *)
Definition typed (lines : list string) : list ascii :=
  concat (map (fun l => chars l ++ [NL]) lines).

(** ** Proof steps for strings built piece by piece *)

Create HintDb nonnul.

(** Lengths of appended pieces against the size of the message arrays. *)
Ltac length_lia :=
  repeat (rewrite length_replicate || rewrite length_app || rewrite length_cons);
  unfold MAX_ERR_MSG_LENGTH;
  cbn [length chars String.list_ascii_of_string];
  lia.

(** No byte of an appended string is zero; the pieces are closed by the
    hints of [nonnul]. *)
Ltac nonnul_string :=
  repeat first
    [ apply Forall_app; split
    | solve [auto with nonnul]
    | apply Forall_cons; split; [discriminate|]
    | apply Forall_nil_2 ].

(** ** Further notions used to state what the code does *)

(** Tokens written on one line with one space between them. *)
Fixpoint unwords (ts : list (list ascii)) : list ascii :=
  match ts with
  | [] => []
  | [t] => t
  | t :: ts' => t ++ SP :: unwords ts'
  end.

(** A word as [strtok] can return it: not empty, without a space and
    without a zero byte. *)
Definition is_word (t : list ascii) : Prop :=
  t <> [] /\ Forall (fun c => c <> SP /\ c <> NUL) t.

(** A byte of a line of input: neither the newline that ends the line nor
    a zero byte. *)
Definition line_byte (c : ascii) : Prop := c <> NUL /\ c <> NL.

(** The file name [GetFileName] settles on for a line: the token behind
    the last redirection marker among the first 512 tokens, or behind the
    first token when none of them is a marker; empty when there is no such
    token. *)
Definition redirect_name (line : list ascii) : list ascii :=
  let seen := take (MAX_ARGS - 1) (space_split line) in
  default [] (seen !! (default 0%nat (last_redir seen) + 1)%nat).

(** Splits an equation between two pairs whose right side holds
    variables, without computing inside the components. *)
Ltac unpair H :=
  match type of H with
  | Some (?a, ?b) = Some (?c, ?d) =>
      assert (c = a) as -> by congruence; assert (d = b) as -> by congruence; clear H
  | (?a, ?b) = (?c, ?d) =>
      assert (c = a) as -> by congruence; assert (d = b) as -> by congruence; clear H
  end.

(** Input given as lines of bytes, a newline behind each. *)
Definition typed_bytes (lines : list (list ascii)) : list ascii :=
  concat (map (fun l => l ++ [NL]) lines).

(** A line the first two tests of the loop send back to the prompt: an
    empty one, or one whose first byte is [#]. *)
Definition skipped_line (l : list ascii) : Prop :=
  l = [] \/ head l = Some "#"%char.

(** * Proofs *)

(** ** Spans and C strings *)

Section Spans.
Implicit Types (f g : ascii -> bool) (s : list ascii).

Lemma span_len_le f s : (span_len f s <= length s)%nat.
Proof. induction s as [|c s IH]; simpl; [lia|]. destruct (f c); simpl; lia. Qed.

Lemma span_len_ext f g s :
  (forall c, f c = g c) -> span_len f s = span_len g s.
Proof. intros E. induction s as [|c s IH]; simpl; [done|]. by rewrite E, IH. Qed.

Lemma span_len_all f s k :
  (k <= span_len f s)%nat -> Forall (fun c => f c = true) (take k s).
Proof.
  revert k. induction s as [|c s IH]; intros k Hk; simpl in *.
  - by rewrite take_nil.
  - destruct k as [|k]; [constructor|]. simpl.
    destruct (f c) eqn:E; [|lia]. constructor; [done|]. apply IH. lia.
Qed.

Lemma span_len_stop f s :
  (span_len f s < length s)%nat -> f (rd s (span_len f s)) = false.
Proof.
  induction s as [|c s IH]; simpl; [lia|].
  destruct (f c) eqn:E; simpl; [|done]. intros. apply IH. lia.
Qed.

Lemma span_len_take f s k :
  (k <= span_len f s)%nat -> span_len f (take k s) = k.
Proof.
  revert k. induction s as [|c s IH]; intros k Hk; simpl in *.
  - by replace k with 0%nat by lia.
  - destruct k as [|k]; [done|]. simpl.
    destruct (f c); [|lia]. f_equal. apply IH. lia.
Qed.

Lemma span_len_app_stop f s1 c s2 :
  Forall (fun c => f c = true) s1 -> f c = false ->
  span_len f (s1 ++ c :: s2) = length s1.
Proof.
  intros H Hc. induction H as [|d s1 Hd _ IH]; simpl.
  - by rewrite Hc.
  - by rewrite Hd, IH.
Qed.

Lemma span_len_Forall f s :
  Forall (fun c => f c = true) s -> span_len f s = length s.
Proof. induction 1 as [|d s1 Hd _ IH]; simpl; [done|]. by rewrite Hd, IH. Qed.
End Spans.

(** The C string held by a list of bytes from its first byte on. *)
Lemma cstr_drop b p : cstr b p = cstr (drop p b) 0.
Proof. unfold cstr, strlen. by rewrite !drop_0. Qed.

Lemma cstr_length b p : length (cstr b p) = strlen b p.
Proof.
  unfold cstr. rewrite length_take. pose proof (span_len_le nonnul (drop p b)).
  unfold strlen. lia.
Qed.

Lemma rd_drop b p k : rd (drop p b) k = rd b (p + k).
Proof. unfold rd. by rewrite lookup_drop. Qed.

Lemma rd_0 b : rd b 0 = match b with [] => NUL | c :: _ => c end.
Proof. by destruct b. Qed.

Lemma nonnul_false c : nonnul c = false <-> c = NUL.
Proof. unfold nonnul. rewrite negb_false_iff. apply Ascii.eqb_eq. Qed.

Lemma nonnul_true c : nonnul c = true <-> c <> NUL.
Proof. unfold nonnul. rewrite negb_true_iff. apply Ascii.eqb_neq. Qed.

Lemma cstr_nonnul b p : Forall (fun c => c <> NUL) (cstr b p).
Proof.
  unfold cstr, strlen. eapply Forall_impl.
  - apply (span_len_all nonnul). lia.
  - intros c. apply nonnul_true.
Qed.

Lemma cstr_nil_iff b p : cstr b p = [] <-> rd b p = NUL.
Proof.
  rewrite cstr_drop. rewrite <- (Nat.add_0_r p) at 2. rewrite <- rd_drop.
  generalize (drop p b). intros s. unfold cstr, strlen. rewrite drop_0, rd_0.
  destruct s as [|c s]; simpl; [done|].
  destruct (nonnul c) eqn:E; simpl.
  - apply nonnul_true in E. split; [done | congruence].
  - apply nonnul_false in E. done.
Qed.

Lemma cstr0_cons c s :
  cstr (c :: s) 0 = if nonnul c then c :: cstr s 0 else [].
Proof.
  unfold cstr, strlen. rewrite !drop_0. simpl. by destruct (nonnul c).
Qed.

Lemma cstr0_nil : cstr [] 0 = [].
Proof. done. Qed.

Lemma in_delim_SP c : in_delim [SP] c = is_sp c.
Proof. unfold in_delim, is_sp. simpl. by rewrite orb_false_r. Qed.

Lemma strspn_cstr s :
  drop_while is_sp (cstr s 0) = cstr (drop (strspn s 0 [SP]) s) 0.
Proof.
  unfold strspn. rewrite drop_0.
  induction s as [|c s IH]; [done|].
  rewrite cstr0_cons. cbn [span_len]. rewrite in_delim_SP.
  destruct (nonnul c) eqn:Hn; cbn [andb drop_while].
  - destruct (is_sp c) eqn:Hs; cbn [skipn]; [done|]. by rewrite cstr0_cons, Hn.
  - cbn [skipn]. by rewrite cstr0_cons, Hn.
Qed.

Lemma strcspn_cstr s :
  span_len notsp (cstr s 0) = strcspn s 0 [SP].
Proof.
  unfold strcspn. rewrite drop_0.
  induction s as [|c s IH]; [done|].
  rewrite cstr0_cons. cbn [span_len]. rewrite in_delim_SP.
  destruct (nonnul c) eqn:Hn; cbn [andb span_len]; [|done].
  unfold notsp at 1. destruct (is_sp c); cbn [negb]; [done|]. by rewrite IH.
Qed.

Lemma strcspn_le_strlen s : (strcspn s 0 [SP] <= strlen s 0)%nat.
Proof.
  unfold strcspn, strlen. rewrite drop_0.
  induction s as [|c s IH]; cbn [span_len]; [lia|].
  destruct (nonnul c); cbn [andb]; [|lia]. destruct (negb _); lia.
Qed.

Lemma cstr_take_le s k :
  (k <= strlen s 0)%nat -> take k (cstr s 0) = take k s.
Proof.
  unfold cstr. rewrite drop_0. intros. rewrite take_take. f_equal. lia.
Qed.

Lemma cstr_drop_le s k :
  (k <= strlen s 0)%nat -> drop k (cstr s 0) = cstr (drop k s) 0.
Proof.
  unfold cstr, strlen. rewrite !drop_0. revert k.
  induction s as [|c s IH]; intros k Hk; simpl in *.
  - by rewrite !drop_nil.
  - destruct k as [|k]; simpl.
    + by destruct (nonnul c).
    + destruct (nonnul c); [|lia]. simpl. apply IH. lia.
Qed.

(** Writing a terminator at or behind the end of a string leaves the
    string as it is. *)
Lemma cstr0_insert_NUL s k :
  (strlen s 0 <= k)%nat -> cstr (<[k := NUL]> s) 0 = cstr s 0.
Proof.
  unfold strlen. rewrite drop_0. revert k.
  induction s as [|c s IH]; intros k Hk; [done|].
  destruct k as [|k]; simpl in *.
  - rewrite !cstr0_cons. destruct (nonnul c); [lia|]. done.
  - rewrite !cstr0_cons. destruct (nonnul c); [|done].
    f_equal. apply IH. lia.
Qed.

Lemma cstr_wr_NUL b p e :
  (p + strlen b p <= e)%nat -> cstr (wr b e NUL) p = cstr b p.
Proof.
  intros H. rewrite (cstr_drop b), (cstr_drop (wr _ _ _)). unfold wr.
  rewrite drop_insert_ge by lia. apply cstr0_insert_NUL.
  unfold strlen in *. rewrite drop_0. lia.
Qed.

(** Cutting a string at [k] by a terminator. *)
Lemma cstr0_insert_cut s k :
  (k <= strlen s 0)%nat -> (k < length s)%nat ->
  cstr (<[k := NUL]> s) 0 = take k s.
Proof.
  unfold strlen. rewrite drop_0. revert k.
  induction s as [|c s IH]; intros k Hk Hl; simpl in *; [lia|].
  destruct k as [|k]; simpl.
  - by rewrite cstr0_cons.
  - rewrite cstr0_cons. destruct (nonnul c); [|lia]. f_equal. apply IH; lia.
Qed.

Lemma cstr0_stop s k :
  (k <= strlen s 0)%nat -> rd s k = NUL -> cstr s 0 = take k s.
Proof.
  unfold strlen. rewrite drop_0. revert k.
  induction s as [|c s IH]; intros k Hk Hr; simpl in *.
  - by rewrite take_nil.
  - destruct k as [|k]; simpl.
    + rewrite cstr0_cons. unfold rd in Hr. simpl in Hr. subst c. done.
    + rewrite cstr0_cons. destruct (nonnul c); [|lia]. f_equal.
      apply IH; [lia|]. done.
Qed.

(** ** The space-split *)

Lemma drop_while_length f s : (length (drop_while f s) <= length s)%nat.
Proof. induction s as [|c s IH]; simpl; [lia|]. destruct (f c); simpl; lia. Qed.

Lemma drop_while_head f s c r : drop_while f s = c :: r -> f c = false.
Proof.
  induction s as [|d s IH]; simpl; [done|].
  destruct (f d) eqn:E; [done|]. intros [= -> _]. done.
Qed.

Lemma split_fuel_enough n m s :
  (length s < n)%nat -> (length s < m)%nat -> split_fuel n s = split_fuel m s.
Proof.
  revert m s. induction n as [|n IH]; intros m s Hn Hm; [lia|].
  destruct m as [|m]; [lia|]. simpl.
  destruct (drop_while is_sp s) as [|c r] eqn:E; [done|].
  f_equal. pose proof (drop_while_length is_sp s) as Hl. rewrite E in Hl.
  pose proof (drop_while_head _ _ _ _ E) as Hc.
  assert (1 <= span_len notsp (c :: r))%nat.
  { simpl. unfold notsp at 1. rewrite Hc. simpl. lia. }
  apply IH; rewrite length_drop; simpl in *; lia.
Qed.

Lemma space_split_unfold s :
  space_split s =
    match drop_while is_sp s with
    | [] => []
    | s1 => take (span_len notsp s1) s1 :: space_split (drop (span_len notsp s1) s1)
    end.
Proof.
  unfold space_split at 1. simpl.
  destruct (drop_while is_sp s) as [|c r] eqn:E; [done|].
  f_equal. pose proof (drop_while_length is_sp s) as Hl. rewrite E in Hl.
  pose proof (drop_while_head _ _ _ _ E) as Hc.
  assert (1 <= span_len notsp (c :: r))%nat.
  { simpl. unfold notsp at 1. rewrite Hc. simpl. lia. }
  unfold space_split. apply split_fuel_enough; rewrite ?length_drop; simpl in *; lia.
Qed.

Lemma space_split_sp s : space_split (SP :: s) = space_split s.
Proof. rewrite (space_split_unfold (SP :: s)), (space_split_unfold s). done. Qed.

Lemma space_split_nil : space_split [] = [].
Proof. done. Qed.

(** ** strtok *)

Lemma rd_lookup b e : rd b e <> NUL -> b !! e = Some (rd b e).
Proof. unfold rd. destruct (b !! e); simpl; [done|congruence]. Qed.

Lemma strspn_drop b p d : strspn b p d = strspn (drop p b) 0 d.
Proof. unfold strspn. by rewrite drop_0. Qed.

Lemma strcspn_drop b p d : strcspn b p d = strcspn (drop p b) 0 d.
Proof. unfold strcspn. by rewrite drop_0. Qed.

Lemma strcspn_stop s :
  rd s (strcspn s 0 [SP]) <> NUL -> rd s (strcspn s 0 [SP]) = SP.
Proof.
  intros Hn. pose proof (rd_lookup _ _ Hn) as Hl.
  apply lookup_lt_Some in Hl. unfold strcspn in *. rewrite drop_0 in *.
  apply span_len_stop in Hl. rewrite in_delim_SP in Hl.
  apply andb_false_iff in Hl as [Hl|Hl].
  - by apply nonnul_false in Hl.
  - apply negb_false_iff in Hl. by apply Ascii.eqb_eq in Hl.
Qed.

Lemma strtok_spec s st r st' :
  let s0 := match s with Some p => p | None => save st end in
  strtok s [SP] st = (r, st') ->
  (s0 <= save st')%nat /\
  (forall p, (p + strlen (mem st) p <= s0)%nat ->
             cstr (mem st') p = cstr (mem st) p) /\
  match r with
  | None => space_split (cstr (mem st) s0) = []
  | Some q =>
      space_split (cstr (mem st) s0)
      = cstr (mem st') q :: space_split (cstr (mem st') (save st'))
      /\ (q + strlen (mem st') q <= save st')%nat
  end.
Proof.
  intros s0. unfold strtok. fold s0. set (b := mem st).
  destruct (Ascii.eqb (rd b s0) NUL) eqn:E0.
  { intros [= <- <-]. simpl. split; [lia|]. split; [done|].
    apply Ascii.eqb_eq, cstr_nil_iff in E0. by rewrite E0. }
  set (s1 := (s0 + strspn b s0 [SP])%nat).
  assert (Hsplit : drop_while is_sp (cstr b s0) = cstr b s1).
  { rewrite (cstr_drop b s0), strspn_cstr, (cstr_drop b s1).
    unfold s1. rewrite drop_drop, <- strspn_drop. done. }
  destruct (Ascii.eqb (rd b s1) NUL) eqn:E1.
  { intros [= <- <-]. simpl. split; [lia|]. split; [done|].
    apply Ascii.eqb_eq, cstr_nil_iff in E1.
    rewrite space_split_unfold, Hsplit, E1. done. }
  set (sfx := drop s1 b).
  set (k := strcspn b s1 [SP]).
  assert (Hk : k = strcspn sfx 0 [SP]) by apply strcspn_drop.
  assert (Hkl : (k <= strlen sfx 0)%nat) by (rewrite Hk; apply strcspn_le_strlen).
  assert (Hne : cstr b s1 <> []).
  { rewrite cstr_nil_iff. by apply Ascii.eqb_neq in E1. }
  assert (Hsp : space_split (cstr b s0)
                = take k sfx :: space_split (cstr b (s1 + k))).
  { rewrite space_split_unfold, Hsplit.
    destruct (cstr b s1) as [|c l] eqn:Ec; [done|]. rewrite <- Ec.
    rewrite (cstr_drop b s1). fold sfx. cbv zeta. rewrite strcspn_cstr, <- Hk.
    rewrite cstr_take_le, cstr_drop_le by done.
    unfold sfx. rewrite drop_drop, <- cstr_drop. done. }
  assert (Hlen : (k <= length sfx)%nat).
  { pose proof (span_len_le nonnul sfx). unfold strlen in Hkl.
    rewrite drop_0 in Hkl. lia. }
  destruct (Ascii.eqb (rd b (s1 + k)) NUL) eqn:E2.
  - intros [= <- <-]. simpl. fold b. split; [lia|]. split; [done|].
    apply Ascii.eqb_eq in E2.
    assert (Ht : cstr b s1 = take k sfx).
    { rewrite (cstr_drop b s1). fold sfx. apply cstr0_stop; [done|].
      unfold sfx. by rewrite rd_drop. }
    split.
    + by rewrite Ht.
    + rewrite <- cstr_length, Ht, length_take. lia.
  - intros [= <- <-]. simpl. fold b.
    apply Ascii.eqb_neq in E2.
    pose proof (rd_lookup _ _ E2) as Hl.
    assert (Hin : (s1 + k < length b)%nat) by by apply lookup_lt_Some in Hl.
    assert (Hsfx : (k < length sfx)%nat) by (unfold sfx; rewrite length_drop; lia).
    assert (Hsep : rd b (s1 + k) = SP).
    { rewrite <- rd_drop. fold sfx. rewrite Hk. apply strcspn_stop.
      rewrite <- Hk. unfold sfx. by rewrite rd_drop. }
    assert (Ht : cstr (wr b (s1 + k) NUL) s1 = take k sfx).
    { rewrite cstr_drop. unfold wr. rewrite drop_insert_ge by lia.
      replace (s1 + k - s1)%nat with k by lia. fold sfx.
      by apply cstr0_insert_cut. }
    assert (Hrest : cstr (wr b (s1 + k) NUL) (S (s1 + k)) = cstr b (S (s1 + k))).
    { rewrite cstr_drop, (cstr_drop b). unfold wr.
      by rewrite drop_insert_lt by lia. }
    split; [lia|]. split; [|split].
    + intros p Hp. apply cstr_wr_NUL. lia.
    + rewrite Ht, Hrest, Hsp. f_equal.
      rewrite (cstr_drop b (s1 + k)). rewrite (drop_S _ _ _ Hl), Hsep.
      rewrite cstr0_cons. simpl. rewrite space_split_sp.
      by rewrite <- cstr_drop.
    + rewrite <- cstr_length, Ht, length_take. lia.
Qed.

(** ** Pointer arrays *)

Lemma slots_hold_mono b sv b' sv' arr done :
  slots_hold b sv arr done ->
  (forall p, (p + strlen b p <= sv)%nat -> cstr b' p = cstr b p) ->
  (sv <= sv')%nat ->
  slots_hold b' sv' arr done.
Proof.
  unfold slots_hold. intros H Hp Hs. eapply Forall2_impl; [exact H|].
  intros o t (p & -> & Hc & Hl). exists p. split; [done|].
  rewrite Hp; [split; [done|lia]|]. rewrite <- cstr_length, Hc. done.
Qed.

Lemma slots_hold_snoc b sv arr done p t :
  slots_hold b sv arr done -> (length done < length arr)%nat ->
  cstr b p = t -> (p + length t <= sv)%nat ->
  slots_hold b sv (<[length done := Some p]> arr) (done ++ [t]).
Proof.
  unfold slots_hold. intros H Hl Hc Hp.
  rewrite length_app. simpl. rewrite Nat.add_1_r.
  rewrite (take_S_r _ _ (Some p)) by by apply list_lookup_insert_eq.
  rewrite take_insert_ge by lia.
  apply Forall2_app; [done|]. repeat constructor. by exists p.
Qed.

Lemma slots_hold_insert_ge b sv arr done k x :
  (length done <= k)%nat -> slots_hold b sv arr done ->
  slots_hold b sv (<[k := x]> arr) done.
Proof. unfold slots_hold. intros. by rewrite take_insert_ge. Qed.

Lemma slots_hold_lookup b sv arr done i t :
  slots_hold b sv arr done -> done !! i = Some t ->
  exists p, arr !! i = Some (Some p) /\ cstr b p = t.
Proof.
  unfold slots_hold. intros H Ht.
  destruct (Forall2_lookup_r _ _ _ _ _ H Ht) as (o & Ho & p & -> & Hc & _).
  exists p. split; [|done]. apply lookup_take_Some in Ho. tauto.
Qed.

Lemma argv_strings_slots b sv done : forall arr,
  slots_hold b sv arr done -> arr !! length done = Some None ->
  argv_strings b arr = done.
Proof.
  unfold slots_hold. induction done as [|t done IH]; intros arr H Hn.
  - destruct arr as [|[q|] arr]; simpl in *; congruence.
  - destruct arr as [|o arr]; [done|]. simpl in H.
    apply Forall2_cons in H as [(p & -> & Hc & _) H]. simpl.
    rewrite Hc. f_equal. by apply IH.
Qed.

Lemma InitializeArgsArray_zero :
  InitializeArgsArray (replicate MAX_ARGS None) = replicate MAX_ARGS None.
Proof. vm_compute. reflexivity. Qed.

(** ** The loop of ParseUserInputToArgs *)

Lemma is_marker_cases t :
  is_marker t = true <-> t = chars ">" \/ t = chars "<" \/ t = chars "&".
Proof.
  unfold is_marker, strcmp0, streq. rewrite !orb_true_iff, !bool_decide_eq_true.
  tauto.
Qed.

Lemma Parse_loop_spec HO HI fuel : forall st cur n arr done ts,
  length arr = MAX_ARGS -> n = length done ->
  (n < MAX_ARGS - 1)%nat -> (MAX_ARGS - 1 <= n + fuel)%nat ->
  slots_hold (mem st) (save st) arr done ->
  pending st cur ts ->
  (forall t, t ∈ ts -> t = chars ">" -> HO = 1) ->
  (forall t, t ∈ ts -> t = chars "<" -> HI = 1) ->
  let out := done ++ take (MAX_ARGS - 1 - n) (take_until is_marker ts) in
  exists st' arr',
    Parse_loop fuel HO HI st cur n arr = Some (st', length out, arr')
    /\ length arr' = MAX_ARGS
    /\ slots_hold (mem st') (save st') arr' out.
Proof.
  induction fuel as [|fuel IH]; intros st cur n arr done ts Harr Hn Hlt Hfuel Hs Hp HOut HIn out;
    [unfold MAX_ARGS in *; lia|].
  destruct cur as [t|]; simpl in Hp.
  2:{ subst ts. exists st, arr. subst out. simpl. rewrite take_nil, app_nil_r.
      split; [by rewrite Hn|done]. }
  destruct Hp as [-> Ht].
  set (tk := cstr (mem st) t) in *.
  assert (Hstop : is_marker tk = true ->
    exists st' arr', Some (st, n, arr) = Some (st', length out, arr')
       /\ length arr' = MAX_ARGS /\ slots_hold (mem st') (save st') arr' out).
  { intros Hm. exists st, arr. subst out. simpl. rewrite Hm, take_nil, app_nil_r.
    split; [by rewrite Hn|done]. }
  cbn [Parse_loop]. fold tk.
  destruct ((HO =? 1) && strcmp0 tk ">") eqn:E1.
  { apply Hstop. apply andb_true_iff in E1 as [_ E1]. unfold is_marker. by rewrite E1. }
  destruct ((HI =? 1) && strcmp0 tk "<") eqn:E2.
  { apply Hstop. apply andb_true_iff in E2 as [_ E2]. unfold is_marker. rewrite E2.
    by rewrite orb_true_r. }
  destruct (strcmp0 tk "&") eqn:E3.
  { apply Hstop. unfold is_marker. rewrite E3. by rewrite orb_true_r. }
  assert (Hnm : is_marker tk = false).
  { apply not_true_is_false. rewrite is_marker_cases. intros [H|[H|H]].
    - rewrite (HOut tk) in E1 by (done || left). simpl in E1.
      unfold strcmp0, streq in E1. by rewrite bool_decide_eq_false in E1.
    - rewrite (HIn tk) in E2 by (done || left). simpl in E2.
      unfold strcmp0, streq in E2. by rewrite bool_decide_eq_false in E2.
    - unfold strcmp0, streq in E3. by rewrite bool_decide_eq_false in E3. }
  destruct (strtok None [SP] st) as [cur' st1] eqn:Etok.
  pose proof (strtok_spec None st cur' st1 Etok) as (Hsv & Hpres & Hnext).
  simpl in Hsv.
  assert (Hs1 : slots_hold (mem st1) (save st1) (<[n := Some t]> arr) (done ++ [tk])).
  { subst n. apply slots_hold_snoc.
    - eapply slots_hold_mono; eauto.
    - unfold MAX_ARGS in *. lia.
    - by apply Hpres.
    - unfold tk. rewrite cstr_length. lia. }
  assert (Hout : out = (done ++ [tk])
                   ++ take (MAX_ARGS - 1 - S n) (take_until is_marker (space_split (cstr (mem st) (save st))))).
  { subst out. cbn [take_until]. rewrite Hnm.
    replace (MAX_ARGS - 1 - n)%nat with (S (MAX_ARGS - 1 - S n)) by lia.
    rewrite firstn_cons. by rewrite <- app_assoc. }
  destruct (S n =? MAX_ARGS - 1)%nat eqn:Ecap.
  - apply Nat.eqb_eq in Ecap. eexists st1, _. rewrite Hout.
    replace (MAX_ARGS - 1 - S n)%nat with 0%nat by lia.
    rewrite take_0, app_nil_r. rewrite length_app. cbn [length].
    split; [do 3 f_equal; lia|]. split.
    + by rewrite !length_insert.
    + apply slots_hold_insert_ge; [|done]. rewrite length_app. cbn [length]. lia.
  - apply Nat.eqb_neq in Ecap. rewrite Hout.
    apply IH.
    + by rewrite length_insert.
    + rewrite length_app. cbn [length]. lia.
    + lia.
    + lia.
    + done.
    + destruct cur' as [q|]; simpl.
      * destruct Hnext as [Hn1 Hn2]. simpl in Hn1. done.
      * done.
    + intros t' Ht'. apply HOut. by right.
    + intros t' Ht'. apply HIn. by right.
Qed.

(** ** Tokens are pieces of the line *)

Lemma drop_while_sublist f s : drop_while f s `sublist_of` s.
Proof.
  induction s as [|c s IH]; simpl; [done|].
  destruct (f c); [by apply sublist_cons | done].
Qed.

Lemma split_fuel_sublist n : forall s t, t ∈ split_fuel n s -> t `sublist_of` s.
Proof.
  induction n as [|n IH]; intros s t; simpl; [by intros ?%elem_of_nil|].
  pose proof (drop_while_sublist is_sp s) as Hd.
  destruct (drop_while is_sp s) as [|c r]; [by intros ?%elem_of_nil|].
  intros [->|Hin]%elem_of_cons.
  - etrans; [apply sublist_take|done].
  - etrans; [by apply IH|]. etrans; [apply sublist_drop|done].
Qed.

Lemma space_split_sublist s t : t ∈ space_split s -> t `sublist_of` s.
Proof. apply split_fuel_sublist. Qed.

Lemma strstr_char s c : c ∈ s -> strstr s [c] <> None.
Proof.
  induction s as [|d s IH]; [by intros ?%elem_of_nil|].
  intros [->|Hin]%elem_of_cons; simpl.
  - by rewrite Ascii.eqb_refl.
  - destruct (Ascii.eqb c d && true); [done|].
    specialize (IH Hin). by destruct (strstr s [c]).
Qed.

Lemma strstr_char_None s c : c ∉ s -> strstr s [c] = None.
Proof.
  induction s as [|d s IH]; intros Hn; simpl; [done|].
  apply not_elem_of_cons in Hn as [Hd Hn].
  apply Ascii.eqb_neq in Hd. rewrite Hd. simpl. by rewrite IH.
Qed.

Lemma ContainsString_token s t c :
  t ∈ space_split s -> t = [c] -> ContainsString s (String c EmptyString) = 1.
Proof.
  intros Hin ->. unfold ContainsString. simpl.
  assert (c ∈ s) as Hc.
  { eapply elem_of_sublist; [|by apply space_split_sublist]. by left. }
  apply strstr_char in Hc. by destruct (strstr s [c]).
Qed.

Lemma take_until_Forall f ts : Forall (fun t => f t = false) (take_until f ts).
Proof.
  induction ts as [|t ts IH]; simpl; [done|].
  destruct (f t) eqn:E; [done|]. by constructor.
Qed.

Lemma take_until_none f ts :
  Forall (fun t => f t = false) ts -> take_until f ts = ts.
Proof. induction 1 as [|t ts Ht _ IH]; simpl; [done|]. by rewrite Ht, IH. Qed.

Lemma pending_first st userCommand cur st1 :
  strtok (Some userCommand) [SP] st = (cur, st1) ->
  pending st1 cur (space_split (cstr (mem st) userCommand)).
Proof.
  intros E. pose proof (strtok_spec _ _ _ _ E) as (_ & _ & H).
  destruct cur; simpl in *; done.
Qed.

Lemma slots_hold_nil b sv arr : slots_hold b sv arr [].
Proof. unfold slots_hold. simpl. rewrite take_0. constructor. Qed.

(** The function returns, and its array holds the tokens the
    specification names, as strings of the buffer it leaves. *)
Lemma ParseUserInputToArgs_spec st userCommand returnArr :
  length returnArr = MAX_ARGS ->
  exists st' argv,
    ParseUserInputToArgs st userCommand returnArr = Some (st', argv)
    /\ argv_strings (mem st') argv = tokenizer_spec (cstr (mem st) userCommand).
Proof.
  intros Hlen. unfold ParseUserInputToArgs.
  destruct (strtok (Some userCommand) [SP] st) as [cur st1] eqn:Etok.
  set (line := cstr (mem st) userCommand).
  destruct (Parse_loop_spec (ContainsString line ">") (ContainsString line "<")
              MAX_ARGS st1 cur 0 returnArr [] (space_split line))
    as (st' & arr' & -> & Hl & Hs).
  - done.
  - done.
  - unfold MAX_ARGS. lia.
  - lia.
  - apply slots_hold_nil.
  - by apply pending_first.
  - intros t Ht ->. by eapply ContainsString_token.
  - intros t Ht ->. by eapply ContainsString_token.
  - rewrite app_nil_l, Nat.sub_0_r in *.
    eexists _, _. split; [done|]. fold (tokenizer_spec line) in *.
    assert (length (tokenizer_spec line) <= MAX_ARGS - 1)%nat.
    { unfold tokenizer_spec. rewrite length_take. lia. }
    eapply argv_strings_slots.
    + apply slots_hold_insert_ge; [lia|done].
    + apply list_lookup_insert_eq. unfold MAX_ARGS in *. lia.
Qed.

Lemma ParseUserInputToArgs_total st userCommand returnArr :
  length returnArr = MAX_ARGS ->
  is_Some (ParseUserInputToArgs st userCommand returnArr).
Proof.
  intros H. destruct (ParseUserInputToArgs_spec st userCommand returnArr H)
    as (? & ? & -> & _). done.
Qed.

(** C2: for every line held in the buffer, [ParseUserInputToArgs] returns
    the space-delimited tokens of the line in order, up to and without the
    first token that is [>], [<] or [&]; it keeps at most 512 of them; an
    empty line gives no token; and a line without such a marker token gives
    its space-split cut at 512 entries. *)
Theorem tokenizer_contract st userCommand returnArr :
  length returnArr = MAX_ARGS ->
  let line := cstr (mem st) userCommand in
  exists st' argv,
    ParseUserInputToArgs st userCommand returnArr = Some (st', argv)
    /\ argv_strings (mem st') argv
       = take 512 (take_until is_marker (space_split line))
    /\ (length (argv_strings (mem st') argv) <= 512)%nat
    /\ (line = [] -> argv_strings (mem st') argv = [])
    /\ (Forall (fun t => is_marker t = false) (space_split line) ->
        argv_strings (mem st') argv = take 512 (space_split line)).
Proof.
  intros Hlen line.
  destruct (ParseUserInputToArgs_spec st userCommand returnArr Hlen)
    as (st' & argv & E & Hout).
  exists st', argv. fold line in Hout. unfold tokenizer_spec in Hout.
  change (MAX_ARGS - 1)%nat with 512%nat in Hout.
  split; [done|]. split; [done|]. rewrite Hout. split; [|split].
  - rewrite length_take. lia.
  - intros ->. done.
  - intros H. by rewrite take_until_none.
Qed.

Lemma tokenizer_contract_witness :
  exists st' argv,
    ParseUserInputToArgs (line_buffer "ls -la  junk > out &") 0 (replicate MAX_ARGS None)
      = Some (st', argv)
    /\ argv_strings (mem st') argv = [chars "ls"; chars "-la"; chars "junk"].
Proof.
  destruct (tokenizer_contract (line_buffer "ls -la  junk > out &") 0
              (replicate MAX_ARGS None) eq_refl)
    as (st' & argv & E & Hout & _).
  exists st', argv. split; [exact E|]. rewrite Hout. vm_compute. reflexivity.
Defined.

(** C6: [ParseUserInputToArgs] returns, and no entry of the argument
    array it has filled is the literal token [<], [>] or [&]. *)
Theorem argv_has_no_marker st userCommand returnArr :
  length returnArr = MAX_ARGS ->
  exists st' argv,
    ParseUserInputToArgs st userCommand returnArr = Some (st', argv)
    /\ forall i t,
        argv_strings (mem st') argv !! i = Some t ->
        t <> chars "<" /\ t <> chars ">" /\ t <> chars "&".
Proof.
  intros Hlen.
  destruct (ParseUserInputToArgs_spec st userCommand returnArr Hlen)
    as (st' & argv & E & Hout).
  exists st', argv. split; [exact E|]. intros i t Hi.
  rewrite Hout in Hi. unfold tokenizer_spec in Hi.
  apply lookup_take_Some in Hi as [Hi _].
  pose proof (take_until_Forall is_marker
                (space_split (cstr (mem st) userCommand))) as HF.
  rewrite Forall_lookup in HF. specialize (HF _ _ Hi).
  assert (~ (t = chars ">" \/ t = chars "<" \/ t = chars "&")) as Hn.
  { rewrite <- is_marker_cases. by rewrite HF. }
  tauto.
Qed.

(** ** The loop of GetFileName *)

Lemma redir_pos_last ts : forall n pos,
  redir_pos ts n pos = default pos (last_redir_from ts n).
Proof.
  induction ts as [|t ts IH]; intros n pos; simpl; [done|].
  rewrite IH. destruct (last_redir_from ts (S n)); simpl; [done|].
  by destruct (is_redir t).
Qed.

Lemma last_redir_from_Some ts : forall n i,
  last_redir_from ts n = Some i ->
  (n <= i)%nat /\ exists t, ts !! (i - n)%nat = Some t /\ is_redir t = true.
Proof.
  induction ts as [|t ts IH]; intros n i; simpl; [done|].
  destruct (last_redir_from ts (S n)) as [j|] eqn:E.
  - intros [= ->]. apply IH in E as (Hle & t' & Ht' & Hr).
    split; [lia|]. exists t'. split; [|done].
    replace (i - n)%nat with (S (i - S n)) by lia. done.
  - destruct (is_redir t) eqn:Hr; [|done]. intros [= ->].
    split; [lia|]. exists t. by rewrite Nat.sub_diag.
Qed.

Lemma last_redir_from_None ts n :
  last_redir_from ts n = None <-> Forall (fun t => is_redir t = false) ts.
Proof.
  revert n. induction ts as [|t ts IH]; intros n; simpl; [done|].
  rewrite Forall_cons. rewrite <- (IH (S n)).
  destruct (last_redir_from ts (S n)); [intuition congruence|].
  destruct (is_redir t); intuition congruence.
Qed.

Lemma GetFileName_loop_spec fuel : forall st cur n pos arr done ts,
  length arr = MAX_ARGS -> n = length done ->
  (n < MAX_ARGS - 1)%nat -> (MAX_ARGS - 1 <= n + fuel)%nat ->
  slots_hold (mem st) (save st) arr done ->
  (forall i, (n <= i)%nat -> (i < MAX_ARGS)%nat -> arr !! i = Some None) ->
  pending st cur ts ->
  let seen := take (MAX_ARGS - 1 - n) ts in
  exists st' arr',
    GetFileName_loop fuel st cur n pos arr
      = Some (st', redir_pos seen n pos, arr')
    /\ length arr' = MAX_ARGS
    /\ slots_hold (mem st') (save st') arr' (done ++ seen)
    /\ (forall i, (length (done ++ seen) <= i)%nat -> (i < MAX_ARGS)%nat ->
                  arr' !! i = Some None).
Proof.
  induction fuel as [|fuel IH];
    intros st cur n pos arr done ts Harr Hn Hlt Hfuel Hs Hz Hp seen;
    [unfold MAX_ARGS in *; lia|].
  destruct cur as [t|]; simpl in Hp.
  { destruct Hp as [-> Ht].
    set (tk := cstr (mem st) t) in *.
    cbn [GetFileName_loop]. fold tk. fold (is_redir tk).
    destruct (strtok None [SP] st) as [cur' st1] eqn:Etok.
    pose proof (strtok_spec None st cur' st1 Etok) as (Hsv & Hpres & Hnext).
    simpl in Hsv.
    assert (Hs1 : slots_hold (mem st1) (save st1) (<[n := Some t]> arr) (done ++ [tk])).
    { subst n. apply slots_hold_snoc.
      - eapply slots_hold_mono; eauto.
      - unfold MAX_ARGS in *. lia.
      - by apply Hpres.
      - unfold tk. rewrite cstr_length. lia. }
    assert (Hseen : seen = tk :: take (MAX_ARGS - 1 - S n)
                                   (space_split (cstr (mem st) (save st)))).
    { subst seen.
      replace (MAX_ARGS - 1 - n)%nat with (S (MAX_ARGS - 1 - S n)) by lia.
      by rewrite firstn_cons. }
    rewrite Hseen. cbn [redir_pos].
    replace (done ++ tk :: take (MAX_ARGS - 1 - S n)
                             (space_split (cstr (mem st) (save st))))
      with ((done ++ [tk]) ++ take (MAX_ARGS - 1 - S n)
                                (space_split (cstr (mem st) (save st))))
      by by rewrite <- app_assoc.
    destruct (S n =? MAX_ARGS - 1)%nat eqn:Ecap.
    - apply Nat.eqb_eq in Ecap.
      replace (MAX_ARGS - 1 - S n)%nat with 0%nat by lia.
      rewrite take_0, app_nil_r. cbn [redir_pos].
      eexists st1, _. split; [done|]. split; [by rewrite !length_insert|].
      split.
      + apply slots_hold_insert_ge; [|done]. rewrite length_app. cbn [length]. lia.
      + intros i Hi Hi2. rewrite length_app in Hi. cbn [length] in Hi.
        destruct (decide (i = MAX_ARGS - 1)%nat) as [->|Hne].
        * apply list_lookup_insert_eq. rewrite length_insert. lia.
        * rewrite !list_lookup_insert_ne by lia. apply Hz; lia.
    - apply Nat.eqb_neq in Ecap.
      apply IH.
      + by rewrite length_insert.
      + rewrite length_app. cbn [length]. lia.
      + lia.
      + lia.
      + done.
      + intros i Hi Hi2. rewrite list_lookup_insert_ne by lia. apply Hz; lia.
      + destruct cur' as [q|]; simpl; done. }
  subst ts. subst seen. rewrite take_nil, app_nil_r. cbn [redir_pos].
  exists st, arr. split; [done|]. split; [done|]. split; [done|].
  intros i Hi Hi2. apply Hz; lia.
Qed.

Lemma ContainsString_01 s n : ContainsString s n = 0 \/ ContainsString s n = 1.
Proof. unfold ContainsString. destruct (strstr _ _); auto. Qed.

(** What the scan of a line that holds a redirection character yields:
    the first 512 tokens in the local array and the position of the last
    marker among them, or 0. *)
Lemma GetFileName_scan_spec st userCommand :
  let line := cstr (mem st) userCommand in
  let seen := take (MAX_ARGS - 1) (space_split line) in
  ContainsString line "<" = 1 \/ ContainsString line ">" = 1 ->
  exists st' arr,
    GetFileName_scan st userCommand
      = Some (Some (st', default 0%nat (last_redir seen), arr))
    /\ slots_hold (mem st') (save st') arr seen
    /\ (forall i, (length seen <= i)%nat -> (i < MAX_ARGS)%nat -> arr !! i = Some None).
Proof.
  intros line seen Hc. unfold GetFileName_scan. fold line.
  assert ((ContainsString line "<" =? 0) && (ContainsString line ">" =? 0) = false) as ->.
  { destruct Hc as [-> | ->]; [done|]. by rewrite andb_false_r. }
  rewrite InitializeArgsArray_zero.
  destruct (strtok (Some userCommand) [SP] st) as [cur st1] eqn:Etok.
  destruct (GetFileName_loop_spec MAX_ARGS st1 cur 0 0 (replicate MAX_ARGS None) []
              (space_split line)) as (st' & arr' & -> & Hl & Hs & Hz).
  - by rewrite length_replicate.
  - done.
  - unfold MAX_ARGS. lia.
  - lia.
  - apply slots_hold_nil.
  - intros i _ Hi. by apply lookup_replicate_2.
  - by apply pending_first.
  - rewrite app_nil_l, Nat.sub_0_r in *. fold seen in Hs, Hz |- *.
    exists st', arr'. rewrite redir_pos_last. done.
Qed.

Lemma GetFileName_scan_none st userCommand :
  let line := cstr (mem st) userCommand in
  ContainsString line "<" = 0 -> ContainsString line ">" = 0 ->
  GetFileName_scan st userCommand = Some None.
Proof. intros line H1 H2. unfold GetFileName_scan. fold line. by rewrite H1, H2. Qed.

Lemma GetFileName_spec st userCommand returnValue :
  let line := cstr (mem st) userCommand in
  let seen := take (MAX_ARGS - 1) (space_split line) in
  let pos := default 0%nat (last_redir seen) in
  ContainsString line "<" = 1 \/ ContainsString line ">" = 1 ->
  exists st',
    GetFileName st userCommand returnValue
    = Some (st', match seen !! (pos + 1)%nat with
                 | Some f => strncpy returnValue f MAX_COMMAND_LENGTH
                 | None => returnValue
                 end).
Proof.
  intros line seen pos Hc.
  destruct (GetFileName_scan_spec st userCommand Hc) as (st' & arr & E & Hs & Hz).
  fold line in E, Hs, Hz. fold seen in E, Hs, Hz. fold pos in E.
  unfold GetFileName. rewrite E. exists st'.
  destruct (seen !! (pos + 1)%nat) as [f|] eqn:Ef.
  - destruct (slots_hold_lookup _ _ _ _ _ _ Hs Ef) as (p & -> & <-). done.
  - apply lookup_ge_None in Ef.
    assert (pos < MAX_ARGS - 1)%nat.
    { unfold pos, last_redir. destruct (last_redir_from seen 0) as [i|] eqn:El; simpl.
      - apply last_redir_from_Some in El as (_ & t & Ht & _).
        apply lookup_lt_Some in Ht. unfold seen in Ht. rewrite length_take in Ht.
        unfold MAX_ARGS in *. lia.
      - unfold MAX_ARGS. lia. }
    rewrite Hz; [done|lia|unfold MAX_ARGS in *; lia].
Qed.

(** ** strncpy and strcat on arrays that are zero behind their string *)

Lemma cstr0_app_NUL s r :
  Forall (fun c => c <> NUL) s -> cstr (s ++ NUL :: r) 0 = s.
Proof.
  induction 1 as [|c s Hc _ IH]; simpl.
  - by rewrite cstr0_cons.
  - rewrite cstr0_cons. apply nonnul_true in Hc. by rewrite Hc, IH.
Qed.

Lemma take_app_replicate_NUL (s : list ascii) n :
  (length s < n)%nat ->
  take n (s ++ replicate n NUL) = s ++ NUL :: replicate (n - length s - 1) NUL.
Proof.
  intros H. rewrite take_app, take_ge by lia. f_equal.
  rewrite take_replicate.
  replace (Init.Nat.min (n - length s) n) with (S (n - length s - 1)) by lia. done.
Qed.

Lemma cstr_strncpy dest src n :
  (length src < n)%nat -> Forall (fun c => c <> NUL) src ->
  cstr (strncpy dest src n) 0 = src.
Proof.
  intros Hl Hn. unfold strncpy. rewrite take_app_replicate_NUL by done.
  rewrite <- app_assoc. simpl. by apply cstr0_app_NUL.
Qed.

Lemma token_fits line t :
  t ∈ space_split line -> Forall (fun c => c <> NUL) line ->
  (length t <= length line)%nat /\ Forall (fun c => c <> NUL) t.
Proof.
  intros Ht Hn. apply space_split_sublist in Ht. split.
  - by apply sublist_length.
  - rewrite Forall_forall in *. intros c Hc. apply Hn.
    by eapply elem_of_sublist.
Qed.

Lemma GetFileName_total st userCommand returnValue :
  is_Some (GetFileName st userCommand returnValue).
Proof.
  set (line := cstr (mem st) userCommand).
  destruct (ContainsString_01 line "<") as [H1|H1];
    destruct (ContainsString_01 line ">") as [H2|H2].
  - unfold GetFileName. fold line in H1, H2.
    rewrite (GetFileName_scan_none st userCommand H1 H2). done.
  - destruct (GetFileName_spec st userCommand returnValue (or_intror H2)) as (? & ->). done.
  - destruct (GetFileName_spec st userCommand returnValue (or_introl H1)) as (? & ->). done.
  - destruct (GetFileName_spec st userCommand returnValue (or_introl H1)) as (? & ->). done.
Qed.

Lemma last_redir_contains line i :
  last_redir (space_split line) = Some i ->
  ContainsString line "<" = 1 \/ ContainsString line ">" = 1.
Proof.
  intros H. apply last_redir_from_Some in H as (_ & t & Ht & Hr).
  apply list_elem_of_lookup_2 in Ht.
  unfold is_redir, strcmp0, streq in Hr.
  apply orb_true_iff in Hr as [Hr|Hr]; apply bool_decide_eq_true in Hr.
  - left. by eapply ContainsString_token.
  - right. by eapply ContainsString_token.
Qed.

(** ** The redirection resolver *)

(** C3, as amended: an invocation of [GetFileName] on a line of at most
    512 tokens that has a redirection marker as a token of its own finds
    the last such marker and copies the token that follows it into the
    caller's array; when no token follows, the array is left as it was.
    The line is the string the invocation is given. *)
Theorem GetFileName_last_marker st userCommand returnValue i :
  let line := cstr (mem st) userCommand in
  let ts := space_split line in
  (length ts <= MAX_ARGS - 1)%nat ->
  last_redir ts = Some i ->
  (length line < MAX_COMMAND_LENGTH)%nat ->
  exists st' tempArray returnValue',
    GetFileName_scan st userCommand = Some (Some (st', i, tempArray))
    /\ GetFileName st userCommand returnValue = Some (st', returnValue')
    /\ match ts !! (i + 1)%nat with
       | Some f => cstr returnValue' 0 = f
       | None => returnValue' = returnValue
       end.
Proof.
  intros line ts Hcap Hi Hlen.
  pose proof (last_redir_contains line i Hi) as Hc.
  destruct (GetFileName_scan_spec st userCommand Hc) as (st' & arr & Es & _).
  destruct (GetFileName_spec st userCommand returnValue Hc) as (st2 & E).
  fold line in E, Es. fold ts in E, Es. rewrite (take_ge ts) in E, Es by done.
  rewrite Hi in E, Es. cbn [default from_option id] in E, Es.
  assert (st2 = st') as ->.
  { unfold GetFileName in E. rewrite Es in E.
    destruct (arr !! (i + 1)%nat) as [[p|]|]; by injection E as <- _. }
  eexists st', arr, _. split; [exact Es|]. split; [exact E|].
  destruct (ts !! (i + 1)%nat) as [f|] eqn:Ef; [|done].
  apply list_elem_of_lookup_2 in Ef.
  destruct (token_fits line f Ef (cstr_nonnul _ _)) as [Hl Hn].
  apply cstr_strncpy; [lia|done].
Qed.

Lemma GetFileName_last_marker_witness :
  exists st' returnValue',
    GetFileName (line_buffer "wc < junk > junk2") 0 (replicate MAX_COMMAND_LENGTH NUL)
      = Some (st', returnValue')
    /\ cstr returnValue' 0 = chars "junk2".
Proof.
  destruct (GetFileName_last_marker (line_buffer "wc < junk > junk2") 0
              (replicate MAX_COMMAND_LENGTH NUL) 3)
    as (st' & arr & r & _ & E & H).
  - vm_compute. lia.
  - vm_compute. reflexivity.
  - vm_compute. lia.
  - exists st', r. split; [exact E|]. exact H.
Defined.

(** C3, as stated, fails.  After the first invocation the buffer holds
    terminators where the line had spaces, so the second invocation is
    given the first token only and returns before it scans anything; and
    an invocation never looks behind the 512th token. *)
Lemma GetFileName_does_not_rescan :
  (exists st1 f1,
      GetFileName (line_buffer "wc < junk > junk2") 0 (replicate MAX_COMMAND_LENGTH NUL)
        = Some (st1, f1)
      /\ cstr f1 0 = chars "junk2"
      /\ cstr (mem st1) 0 = chars "wc"
      /\ GetFileName_scan st1 0 = Some None
      /\ GetFileName st1 0 (replicate MAX_COMMAND_LENGTH NUL)
         = Some (st1, replicate MAX_COMMAND_LENGTH NUL))
  /\ (exists st1 f1,
         GetFileName (TokState (long_line 512 ++ [NUL]) 0) 0 (replicate MAX_COMMAND_LENGTH NUL)
           = Some (st1, f1)
         /\ last_redir (space_split (long_line 512)) = Some 512%nat
         /\ space_split (long_line 512) !! 513%nat = Some (chars "f")
         /\ cstr f1 0 = chars "a").
Proof.
  split.
  - eexists _, _. split; [vm_compute; reflexivity|].
    repeat split; vm_compute; reflexivity.
  - eexists _, _. split; [vm_compute; reflexivity|].
    repeat split; vm_compute; reflexivity.
Qed.

(** C9: when the line holds [<] or [>] only inside longer tokens, the scan
    of [GetFileName] leaves its marker position at 0 and the function
    copies the second token of the line, if there is one, into the
    caller's array. *)
Theorem embedded_marker_takes_second_token st userCommand returnValue :
  let line := cstr (mem st) userCommand in
  let ts := space_split line in
  ContainsString line "<" = 1 \/ ContainsString line ">" = 1 ->
  Forall (fun t => is_redir t = false) ts ->
  (length line < MAX_COMMAND_LENGTH)%nat ->
  exists st' tempArray returnValue',
    GetFileName_scan st userCommand = Some (Some (st', 0%nat, tempArray))
    /\ GetFileName st userCommand returnValue = Some (st', returnValue')
    /\ match ts !! 1%nat with
       | Some f => cstr returnValue' 0 = f
       | None => returnValue' = returnValue
       end.
Proof.
  intros line ts Hc Hno Hlen.
  assert (Hlast : last_redir (take (MAX_ARGS - 1) ts) = None).
  { apply last_redir_from_None. by apply Forall_take. }
  destruct (GetFileName_scan_spec st userCommand Hc) as (st' & arr & Es & _).
  destruct (GetFileName_spec st userCommand returnValue Hc) as (st2 & E).
  fold line in E, Es. fold ts in E, Es. rewrite Hlast in E, Es. simpl in E, Es.
  assert (st2 = st') as ->.
  { unfold GetFileName in E. rewrite Es in E.
    change (0 + 1)%nat with 1%nat in E.
    destruct (arr !! 1%nat) as [[p|]|]; by injection E as <- _. }
  eexists st', arr, _. split; [exact Es|]. split; [exact E|].
  rewrite lookup_take_lt by lia.
  destruct (ts !! 1%nat) as [f|] eqn:Ef; [|done].
  apply list_elem_of_lookup_2 in Ef.
  destruct (token_fits line f Ef (cstr_nonnul _ _)) as [Hl Hn].
  apply cstr_strncpy; [lia|done].
Qed.

Lemma embedded_marker_witness :
  exists st' tempArray returnValue',
    GetFileName_scan (line_buffer "echo a>b") 0 = Some (Some (st', 0%nat, tempArray))
    /\ GetFileName (line_buffer "echo a>b") 0 (replicate MAX_COMMAND_LENGTH NUL)
       = Some (st', returnValue')
    /\ cstr returnValue' 0 = chars "a>b".
Proof.
  destruct (embedded_marker_takes_second_token (line_buffer "echo a>b") 0
              (replicate MAX_COMMAND_LENGTH NUL))
    as (st' & arr & r & Es & E & H).
  - right. vm_compute. reflexivity.
  - vm_compute. repeat constructor.
  - vm_compute. lia.
  - exists st', arr, r. split; [exact Es|]. split; [exact E|]. exact H.
Defined.

(** ** Reading a line *)

Lemma strlen_le b p : (strlen b p <= length b - p)%nat.
Proof.
  unfold strlen. pose proof (span_len_le nonnul (drop p b)) as H.
  rewrite length_drop in H. done.
Qed.

Lemma strlen_cleared b n : (0 < n)%nat -> strlen (strncpy b [] n) 0 = 0%nat.
Proof.
  intros Hn. unfold strncpy, strlen. rewrite drop_0, app_nil_l.
  destruct n as [|n]; [lia|]. done.
Qed.

Lemma RemoveNewLine_empty b :
  Z.of_nat (length b) <= SIZE_MAX -> strlen b 0 = 0%nat ->
  RemoveNewLineAndAddNullTerm b = None.
Proof.
  intros Hb He. unfold RemoveNewLineAndAddNullTerm. rewrite He.
  change (size_t_sub (Z.of_nat 0) 1) with SIZE_MAX.
  unfold array_get.
  destruct (Z.ltb_spec SIZE_MAX (Z.of_nat (length b))); [lia|].
  by rewrite andb_false_r.
Qed.

Lemma RemoveNewLine_nonempty b :
  Z.of_nat (length b) <= SIZE_MAX -> (0 < strlen b 0)%nat ->
  is_Some (RemoveNewLineAndAddNullTerm b).
Proof.
  intros Hb Hne. unfold RemoveNewLineAndAddNullTerm.
  pose proof (strlen_le b 0) as Hle.
  assert (size_t_sub (Z.of_nat (strlen b 0)) 1 = Z.of_nat (strlen b 0 - 1)) as ->.
  { unfold size_t_sub. rewrite Z.mod_small; unfold SIZE_MAX in *; lia. }
  unfold array_get.
  destruct (Z.leb_spec 0 (Z.of_nat (strlen b 0 - 1))); [|lia].
  destruct (Z.ltb_spec (Z.of_nat (strlen b 0 - 1)) (Z.of_nat (length b))); [|lia].
  simpl. rewrite Nat2Z.id.
  destruct (lookup_lt_is_Some_2 b (strlen b 0 - 1)%nat) as [c ->]; [lia|].
  by destruct (Ascii.eqb c NL).
Qed.

(** C10: [RemoveNewLineAndAddNullTerm] reads its argument at index
    [strlen - 1], computed in [size_t], before any test of the length: on a
    string that is not empty the access lies inside the array, on the empty
    string the index wraps to [SIZE_MAX] and the access lies outside it.
    The loop reaches the call with the empty string: at end of input
    [fgets] leaves the cleared array as it is, and [feof] is tested only
    after the call. *)
Theorem RemoveNewLine_requires_nonempty (b : buffer) (e : bool) :
  length b = MAX_COMMAND_LENGTH ->
  ((0 < strlen b 0)%nat -> is_Some (RemoveNewLineAndAddNullTerm b))
  /\ (strlen b 0 = 0%nat ->
      size_t_sub (Z.of_nat (strlen b 0)) 1 = SIZE_MAX
      /\ array_get b (size_t_sub (Z.of_nat (strlen b 0)) 1) = None
      /\ RemoveNewLineAndAddNullTerm b = None)
  /\ (let cleared := strncpy b [] (MAX_COMMAND_LENGTH - 1) in
      fgets cleared 79 (Stdin [] e) = (cleared, Stdin [] true)
      /\ strlen cleared 0 = 0%nat
      /\ read_command b (Stdin [] e) = ReadUndefined).
Proof.
  intros Hlen.
  assert (Hb : Z.of_nat (length b) <= SIZE_MAX).
  { rewrite Hlen. vm_compute. discriminate. }
  split; [by apply RemoveNewLine_nonempty|]. split.
  - intros He. rewrite He. split; [done|].
    pose proof (RemoveNewLine_empty b Hb He) as Hr.
    unfold RemoveNewLineAndAddNullTerm in Hr. rewrite He in Hr.
    split; [|by apply RemoveNewLine_empty].
    destruct (array_get b (size_t_sub (Z.of_nat 0) 1)) as [c|]; [|done].
    by destruct (Ascii.eqb c NL).
  - intros cleared.
    assert (Hc : strlen cleared 0 = 0%nat).
    { apply strlen_cleared. unfold MAX_COMMAND_LENGTH. lia. }
    split; [reflexivity|]. split; [exact Hc|].
    unfold read_command. fold cleared. cbn [fgets unread].
    rewrite RemoveNewLine_empty; [done| |done].
    unfold cleared, strncpy. rewrite length_app, length_take, length_drop.
    rewrite app_nil_l, length_replicate, Hlen. vm_compute. discriminate.
Qed.

Lemma RemoveNewLine_requires_nonempty_witness :
  RemoveNewLineAndAddNullTerm (replicate MAX_COMMAND_LENGTH NUL) = None
  /\ read_command (replicate MAX_COMMAND_LENGTH NUL) (Stdin [] false) = ReadUndefined.
Proof.
  destruct (RemoveNewLine_requires_nonempty (replicate MAX_COMMAND_LENGTH NUL) false)
    as (_ & H2 & _ & _ & H3).
  - vm_compute. reflexivity.
  - split; [|exact H3]. apply H2. vm_compute. reflexivity.
Defined.

(** ** The status word *)

Lemma exited_status_table :
  forallb (fun n => let c := Z.of_nat n in
                    negb (WIFSIGNALED (wait_status (Exited c)))
                    && (WEXITSTATUS (wait_status (Exited c)) =? c))
          (seq 0 256) = true.
Proof. vm_compute. reflexivity. Qed.

Lemma wait_status_exited code :
  0 <= code <= 255 ->
  WIFSIGNALED (wait_status (Exited code)) = false
  /\ WEXITSTATUS (wait_status (Exited code)) = code.
Proof.
  intros H. pose proof exited_status_table as T.
  rewrite forallb_forall in T. specialize (T (Z.to_nat code)).
  rewrite Z2Nat.id in T by lia. cbv zeta in T.
  apply andb_true_iff in T as [T1 T2].
  - apply negb_true_iff in T1. apply Z.eqb_eq in T2. done.
  - apply in_seq. lia.
Qed.

Lemma signaled_status_table :
  forallb (fun n => let s := Z.of_nat n in
             forallb (fun core =>
                        WIFSIGNALED (wait_status (Signaled s core))
                        && (WTERMSIG (wait_status (Signaled s core)) =? s)
                        && (WEXITSTATUS (wait_status (Signaled s core)) =? 0)
                        && streq (cstr (terminated_by_signal s) 0)
                             (chars "terminated by signal " ++ decimal s)
                        && (length (decimal s) <? 10)%nat)
                     [true; false])
          (seq 1 126) = true.
Proof. vm_compute. reflexivity. Qed.

Lemma wait_status_signaled sig core :
  1 <= sig <= 126 ->
  WIFSIGNALED (wait_status (Signaled sig core)) = true
  /\ WTERMSIG (wait_status (Signaled sig core)) = sig
  /\ WEXITSTATUS (wait_status (Signaled sig core)) = 0
  /\ cstr (terminated_by_signal sig) 0 = chars "terminated by signal " ++ decimal sig
  /\ (length (decimal sig) < 10)%nat.
Proof.
  intros H. pose proof signaled_status_table as T.
  rewrite forallb_forall in T. specialize (T (Z.to_nat sig)).
  rewrite Z2Nat.id in T by lia. cbv zeta in T.
  assert (In (Z.to_nat sig) (seq 1 126)) as Hin by (apply in_seq; lia).
  specialize (T Hin). rewrite forallb_forall in T.
  specialize (T core). rewrite !andb_true_iff in T.
  destruct T as [[[[T1 T2] T3] T4] T5]; [destruct core; simpl; tauto|].
  apply Z.eqb_eq in T2, T3. unfold streq in T4.
  apply bool_decide_eq_true in T4. apply Nat.ltb_lt in T5. done.
Qed.

(** ** The launchers *)

Lemma sys_open_ext w w' t path flags :
  os_can_open w' = os_can_open w -> sys_open w' t path flags = sys_open w t path flags.
Proof. intros H. unfold sys_open. by rewrite H. Qed.

Lemma open_redirect_ext w w' st userCommand fileName fds flags :
  os_can_open w' = os_can_open w ->
  open_redirect w' st userCommand fileName fds flags
  = open_redirect w st userCommand fileName fds flags.
Proof.
  intros H. unfold open_redirect.
  destruct (GetFileName st userCommand fileName) as [[st' f]|]; simpl; [|done].
  by rewrite (sys_open_ext w w').
Qed.

Lemma open_redirect_total w st userCommand fileName fds flags :
  is_Some (open_redirect w st userCommand fileName fds flags).
Proof.
  unfold open_redirect.
  destruct (GetFileName_total st userCommand fileName) as [[st' f] ->]. simpl.
  by destruct (sys_open w fds (cstr f 0) flags).
Qed.

Lemma args_array_length :
  length (InitializeArgsArray (replicate MAX_ARGS None)) = MAX_ARGS.
Proof. by rewrite InitializeArgsArray_zero, length_replicate. Qed.

(** The part of [RunForeGroundCommand] before [fork] always comes to an
    end, and what it computes depends on the operating system through
    [open] only. *)
Lemma RunForeGroundCommand_shape w st userCommand errMsg fds :
  exists st' fileName fd fds' argv,
  forall w', os_can_open w' = os_can_open w ->
    RunForeGroundCommand w' st userCommand errMsg fds
    = match os_fork w' with
      | None => Some (Exit 1)
      | Some spawnPid =>
          Some (foreground_parent (os_waitpid w') spawnPid errMsg st' fileName fd fds'
                  (foreground_child w'
                     (ContainsString (cstr (mem st) userCommand) ">")
                     (ContainsString (cstr (mem st) userCommand) "<")
                     fd fileName argv fds'))
      end.
Proof.
  set (hasOut := ContainsString (cstr (mem st) userCommand) ">").
  set (hasIn := ContainsString (cstr (mem st) userCommand) "<").
  set (fn0 := replicate MAX_COMMAND_LENGTH NUL).
  assert (exists r, (if hasOut =? 1
                     then open_redirect w st userCommand fn0 fds O_WRONLY_TRUNC_CREAT
                     else Some (st, fn0, -1, fds)) = Some r) as [[[[st1 fn1] fd1] fds1] E1].
  { destruct (hasOut =? 1); [apply open_redirect_total | by eexists]. }
  assert (exists r, (if hasIn =? 1
                     then open_redirect w st1 userCommand fn1 fds1 O_RDONLY
                     else Some (st1, fn1, fd1, fds1)) = Some r) as [[[[st2 fn2] fd2] fds2] E2].
  { destruct (hasIn =? 1); [apply open_redirect_total | by eexists]. }
  destruct (ParseUserInputToArgs_total st2 userCommand
              (InitializeArgsArray (replicate MAX_ARGS None)) args_array_length)
    as [[st3 argv] E3].
  exists st3, fn2, fd2, fds2, (argv_strings (mem st3) argv).
  intros w' Hw. unfold RunForeGroundCommand. fold hasOut hasIn fn0.
  rewrite !(open_redirect_ext w w') by done.
  rewrite E1. cbn [mbind option_bind]. rewrite (open_redirect_ext w w') by done.
  rewrite E2. cbn [mbind option_bind]. rewrite E3. cbn [mbind option_bind].
  destruct (os_fork w'); [|done].
  unfold foreground_parent.
  by destruct (WIFSIGNALED _).
Qed.

Lemma RunBackGroundCommand_shape w st userCommand fds :
  exists st' fileName fd fds' argv,
  forall w', os_can_open w' = os_can_open w ->
    RunBackGroundCommand w' st userCommand fds
    = match os_fork w' with
      | None => Some (Exit 1)
      | Some spawnPid =>
          Some (Return (0,
                  Launched (chars "background pid is " ++ snprintf_d 10 spawnPid ++ [NL])
                    st' (close fds' fd) fileName
                    (background_child w'
                       (ContainsString (cstr (mem st) userCommand) ">")
                       fd fileName argv fds')))
      end.
Proof.
  set (hasOut := ContainsString (cstr (mem st) userCommand) ">").
  set (hasIn := ContainsString (cstr (mem st) userCommand) "<").
  set (fn0 := replicate MAX_COMMAND_LENGTH NUL).
  assert (exists r, (if hasOut =? 1
                     then open_redirect w st userCommand fn0 fds O_WRONLY_TRUNC_CREAT
                     else Some (st, fn0, -1, fds)) = Some r) as [[[[st1 fn1] fd1] fds1] E1].
  { destruct (hasOut =? 1); [apply open_redirect_total | by eexists]. }
  assert (exists r, (if hasIn =? 1
                     then open_redirect w st1 userCommand fn1 fds1 O_RDONLY
                     else let '(fd, fds) := sys_open w fds1 (chars "/dev/null") O_RDONLY in
                          Some (st1, fn1, fd, fds)) = Some r) as [[[[st2 fn2] fd2] fds2] E2].
  { destruct (hasIn =? 1); [apply open_redirect_total|].
    destruct (sys_open w fds1 (chars "/dev/null") O_RDONLY). by eexists. }
  destruct (ParseUserInputToArgs_total st2 userCommand
              (InitializeArgsArray (replicate MAX_ARGS None)) args_array_length)
    as [[st3 argv] E3].
  exists st3, fn2, fd2, fds2, (argv_strings (mem st3) argv).
  intros w' Hw. unfold RunBackGroundCommand. fold hasOut hasIn fn0.
  rewrite !(open_redirect_ext w w') by done.
  rewrite E1. cbn [mbind option_bind].
  rewrite (open_redirect_ext w w'), (sys_open_ext w w') by done.
  rewrite E2. cbn [mbind option_bind]. rewrite E3. cbn [mbind option_bind].
  by destruct (os_fork w').
Qed.

Lemma child_exec_fail w argv fds :
  os_execvp w (head argv) argv fds = None ->
  child_exec w argv fds
  = ChildRun (default (chars "(null)") (head argv)
              ++ chars ": no such file or directory" ++ [NL]) None (Exited 1).
Proof. intros H. unfold child_exec. by rewrite H. Qed.

Lemma child_exec_image w argv fds a t :
  ch_image (child_exec w argv fds) = Some (a, t) ->
  os_execvp w (head a) a t = Some (ch_end (child_exec w argv fds)).
Proof.
  unfold child_exec. destruct (os_execvp w (head argv) argv fds) eqn:E; simpl.
  - by intros [= <- <-].
  - done.
Qed.

Lemma foreground_child_image w ho hi fd fn argv fds a t :
  ch_image (foreground_child w ho hi fd fn argv fds) = Some (a, t) ->
  os_execvp w (head a) a t = Some (ch_end (foreground_child w ho hi fd fn argv fds)).
Proof.
  unfold foreground_child.
  destruct (if ho =? 0 then _ else _) as [r1 fds1].
  destruct (negb (ho =? 0) && (r1 <? 0)); [done|].
  destruct (if hi =? 0 then _ else _) as [r2 fds2].
  destruct (negb (hi =? 0) && (r2 <? 0)); [done|].
  apply child_exec_image.
Qed.

Lemma foreground_parent_exited pid errMsg st fn fd fds child code :
  ch_end child = Exited code -> 0 <= code <= 255 ->
  foreground_parent WaitReaped pid errMsg st fn fd fds child
  = Return (code, errMsg, Launched [] st (close fds fd) fn child).
Proof.
  intros E H. unfold foreground_parent. cbn [waited_status handler_notice]. rewrite E.
  destruct (wait_status_exited code H) as [-> ->]. done.
Qed.

(** When [waitpid] fails, [status] is still 0: the launcher returns 0,
    prints nothing and leaves [errMsg] alone, however the child ended. *)
Lemma foreground_parent_failed b pid errMsg st fn fd fds child :
  foreground_parent (WaitFailed b) pid errMsg st fn fd fds child
  = Return (0, errMsg,
            Launched (handler_notice (WaitFailed b) pid (ch_end child))
              st (close fds fd) fn child).
Proof. reflexivity. Qed.

(** What the foreground launcher makes of the end of its child.  When
    [waitpid] reaps the child, an exit with a code between 0 and 255 gives
    that code as the return value, with nothing printed and [errMsg] left
    alone, and a death by signal [N] makes the shell print
    [terminated by signal N] and store that text in [errMsg].  When
    [waitpid] fails, the return value is 0 and [errMsg] is left alone, and
    standard output holds the notice of the handler if the handler reaped
    the child.  When the child became the program, its end is the end of
    the program; a line without redirection starts the program on its
    tokens and on the descriptors of the shell. *)
Lemma foreground_decode w st userCommand errMsg (fds : fd_table) spawnPid :
  let line := cstr (mem st) userCommand in
  let argv := tokenizer_spec line in
  os_fork w = Some spawnPid ->
  exists returnStatus errMsg' l,
    RunForeGroundCommand w st userCommand errMsg fds
      = Some (Return (returnStatus, errMsg', l))
    /\ (forall a t, ch_image (l_child l) = Some (a, t) ->
          os_execvp w (head a) a t = Some (ch_end (l_child l)))
    /\ match os_waitpid w with
       | WaitReaped =>
           match ch_end (l_child l) with
           | Exited code =>
               0 <= code <= 255 ->
               returnStatus = code /\ errMsg' = errMsg /\ l_output l = []
           | Signaled sig core =>
               1 <= sig <= 126 ->
               l_output l = chars "terminated by signal " ++ decimal sig ++ [NL]
               /\ cstr errMsg' 0 = chars "terminated by signal " ++ decimal sig
           end
       | WaitFailed b =>
           returnStatus = 0 /\ errMsg' = errMsg
           /\ l_output l = handler_notice (WaitFailed b) spawnPid (ch_end (l_child l))
       end.
Proof.
  intros line argv0 Hfork.
  destruct (RunForeGroundCommand_shape w st userCommand errMsg fds)
    as (st' & fn & fd & fds' & argv & Hshape).
  rewrite (Hshape w eq_refl), Hfork.
  set (child := foreground_child w _ _ fd fn argv fds').
  assert (Himg : forall a t, ch_image child = Some (a, t) ->
                   os_execvp w (head a) a t = Some (ch_end child))
    by (intros a t; apply foreground_child_image).
  destruct (os_waitpid w) as [|b].
  2:{ rewrite foreground_parent_failed. eexists _, _, _. split; [done|].
      cbn [l_child l_output]. done. }
  assert (Hany : forall P : Prop, ~ P ->
    exists returnStatus errMsg' l,
      Some (foreground_parent WaitReaped spawnPid errMsg st' fn fd fds' child)
        = Some (Return (returnStatus, errMsg', l))
      /\ l_child l = child /\ (P -> False)).
  { intros P HP. unfold foreground_parent.
    destruct (WIFSIGNALED _); eexists _, _, _; done. }
  destruct (ch_end child) as [code|sig core] eqn:Eend.
  - destruct (decide (0 <= code <= 255)) as [Hc|Hn].
    + rewrite (foreground_parent_exited _ _ _ _ _ _ _ code Eend Hc).
      eexists _, _, _. split; [done|]. cbn [l_child l_output].
      split; [by rewrite Eend|]. by rewrite Eend.
    + destruct (Hany _ Hn) as (rs & em & l & -> & Hl & Hf).
      exists rs, em, l. split; [done|]. rewrite Hl, Eend.
      split; [exact Himg|]. intros H. by destruct (Hf H).
  - destruct (decide (1 <= sig <= 126)) as [Hs|Hn].
    + unfold foreground_parent. cbn [waited_status handler_notice]. rewrite Eend.
      destruct (wait_status_signaled sig core Hs) as (-> & -> & -> & Hmsg & Hlen).
      eexists _, _, _. split; [done|]. cbn [l_child l_output].
      split; [by rewrite Eend|]. rewrite Eend. intros _.
      rewrite Hmsg. split; [by rewrite app_nil_l, <- app_assoc|].
      apply cstr_strncpy.
      * rewrite length_app. unfold MAX_ERR_MSG_LENGTH. simpl. lia.
      * rewrite <- Hmsg. apply cstr_nonnul.
    + destruct (Hany _ Hn) as (rs & em & l & -> & Hl & Hf).
      exists rs, em, l. split; [done|]. rewrite Hl, Eend.
      split; [exact Himg|]. intros H. by destruct (Hf H).
Qed.

(** C1 at the command [prog], a program that exits with 42.  When the
    launcher's [waitpid] reaps the child, the launcher returns 42.  When
    the handler that [main] installs runs first, it reaps the child and
    writes [background pid 4923 is done: exit value 42]; the launcher's
    [waitpid] then fails, its result is not looked at, [status] is still 0
    and the launcher returns 0, so that a status query behind the command
    prints [exit value 0].  In the same way a program killed by signal 15 is
    recorded as exit value 0, with no message printed by the launcher or
    stored in [errMsg]. *)
Theorem foreground_status_lost :
  let errMsg0 := replicate MAX_ERR_MSG_LENGTH NUL in
  let prog := line_buffer "prog" in
  let notice code :=
    padded MAX_ERR_MSG_LENGTH
      (NL :: chars "background pid 4923 is done: " ++ code ++ [NL]) in
  RunForeGroundCommand (os_runs 4923 (Exited 42)) prog 0 errMsg0 std_fds
    = Some (Return (42, errMsg0,
              Launched [] (TokState (mem prog) 4) std_fds
                (replicate MAX_COMMAND_LENGTH NUL)
                (ChildRun [] (Some ([chars "prog"], std_fds)) (Exited 42))))
  /\ RunForeGroundCommand (os_runs_handler_first 4923 (Exited 42)) prog 0 errMsg0 std_fds
     = Some (Return (0, errMsg0,
               Launched (notice (chars "exit value 42")) (TokState (mem prog) 4) std_fds
                 (replicate MAX_COMMAND_LENGTH NUL)
                 (ChildRun [] (Some ([chars "prog"], std_fds)) (Exited 42))))
  /\ RunForeGroundCommand (os_runs_handler_first 4923 (Signaled 15 false)) prog 0
       errMsg0 std_fds
     = Some (Return (0, errMsg0,
               Launched (notice (chars "terminated by signal 15"))
                 (TokState (mem prog) 4) std_fds
                 (replicate MAX_COMMAND_LENGTH NUL)
                 (ChildRun [] (Some ([chars "prog"], std_fds)) (Signaled 15 false))))
  /\ (exists sh inp effects,
        RunShellLoop (replicate 2 (os_runs_handler_first 4923 (Exited 42))) None
          initial_shell (Stdin (typed ["prog"; "status"]) false) []
        = Some (LoopRunning sh inp effects)
        /\ printed effects
           = chars ": " ++ notice (chars "exit value 42")
             ++ chars ": " ++ chars "exit value 0" ++ [NL]).
Proof.
  repeat split; try (vm_compute; reflexivity).
  eexists _, _, _. split; vm_compute; reflexivity.
Qed.



(** The diagnostic of a child whose [execvp] returned. *)
Lemma exec_failure_foreground w st userCommand errMsg (fds : fd_table) spawnPid name args :
  let line := cstr (mem st) userCommand in
  ContainsString line ">" = 0 ->
  ContainsString line "<" = 0 ->
  fds !! (-1) = None ->
  tokenizer_spec line = name :: args ->
  os_fork w = Some spawnPid ->
  os_execvp w (Some name) (name :: args) fds = None ->
  exists l,
    RunForeGroundCommand w st userCommand errMsg fds
      = Some (Return (match os_waitpid w with WaitReaped => 1 | WaitFailed _ => 0 end,
                      errMsg, l))
    /\ l_child l
       = ChildRun (name ++ chars ": no such file or directory" ++ [NL]) None (Exited 1)
    /\ l_output l = handler_notice (os_waitpid w) spawnPid (Exited 1)
    /\ l_fds l = fds.
Proof.
  intros line Ho Hi Hneg Hargv Hfork Hexec.
  unfold RunForeGroundCommand. fold line. rewrite Ho, Hi. cbn [Z.eqb Pos.eqb].
  cbn [mbind option_bind].
  destruct (ParseUserInputToArgs_spec st userCommand
              (InitializeArgsArray (replicate MAX_ARGS None)) args_array_length)
    as (st3 & argv & -> & Hs).
  cbn [mbind option_bind]. rewrite Hfork. fold line in Hs. rewrite Hs, Hargv.
  unfold foreground_child. cbn [Z.eqb negb andb]. unfold close.
  rewrite delete_id by done.
  unfold child_exec. cbn [head]. rewrite Hexec. cbn [child_exit ch_end].
  destruct (os_waitpid w) as [|b]; cbn [waited_status handler_notice].
  - destruct (wait_status_exited 1 ltac:(lia)) as [-> ->].
    eexists. split; [done|]. done.
  - eexists. split; [reflexivity|]. done.
Qed.


Lemma argv_has_no_marker_witness :
  exists st' argv,
    ParseUserInputToArgs (line_buffer "ls -la > out &") 0 (replicate MAX_ARGS None)
      = Some (st', argv)
    /\ forall i t,
        argv_strings (mem st') argv !! i = Some t ->
        t <> chars "<" /\ t <> chars ">" /\ t <> chars "&".
Proof.
  apply (argv_has_no_marker (line_buffer "ls -la > out &") 0 (replicate MAX_ARGS None)).
  reflexivity.
Defined.

(** ** Redirection in the background launcher *)

(** In the child of a background command that asked for output
    redirection, standard output and standard input both end up on
    whatever descriptor [fd] names when the child starts. *)
Lemma background_child_streams w ho fd fn argv (fds : fd_table) d a t :
  ho <> 0 -> fds !! fd = Some d -> fd <> 0 -> fd <> 1 ->
  ch_image (background_child w ho fd fn argv fds) = Some (a, t) ->
  t !! 1 = Some d /\ t !! 0 = Some d.
Proof.
  intros Hho Hfd H0 H1. unfold background_child.
  apply Z.eqb_neq in Hho. rewrite Hho. unfold dup2 at 1. rewrite Hfd.
  cbn [negb andb]. change (1 <? 0) with false. cbv iota.
  unfold dup2. rewrite lookup_insert_ne by done. rewrite Hfd.
  change (0 <? 0) with false. cbv iota.
  unfold child_exec. destruct (os_execvp _ _ _ _); [|done].
  cbn [ch_image]. intros [= <- <-]. unfold close.
  rewrite !lookup_delete_ne by done.
  rewrite lookup_insert_ne by done. rewrite !lookup_insert_eq. done.
Qed.

(** C4 at the command [ls > out.txt &]: the launcher opens [out.txt] for
    writing, then opens the null device for reading into the same variable;
    the program that runs as the child has the null device, opened for
    reading, as standard output and as standard input, and [out.txt] on
    descriptor 3 only. *)
Theorem background_output_redirect_lost :
  exists l argv t,
    RunBackGroundCommand (os_runs 4923 (Exited 0)) (line_buffer "ls > out.txt &") 0 std_fds
      = Some (Return (0, l))
    /\ cstr (l_fileName l) 0 = chars "out.txt"
    /\ ch_image (l_child l) = Some (argv, t)
    /\ argv = [chars "ls"]
    /\ t !! 1 = Some (OpenFile (chars "/dev/null") O_RDONLY)
    /\ t !! 0 = Some (OpenFile (chars "/dev/null") O_RDONLY)
    /\ t = list_to_map
             [(0, OpenFile (chars "/dev/null") O_RDONLY);
              (1, OpenFile (chars "/dev/null") O_RDONLY);
              (2, Inherited 2);
              (3, OpenFile (chars "out.txt") O_WRONLY_TRUNC_CREAT)].
Proof.
  eexists _, _, _. split; [vm_compute; reflexivity|].
  cbn [l_fileName l_child ch_image].
  split; [vm_compute; reflexivity|]. split; [reflexivity|]. split; [reflexivity|].
  split; [vm_compute; reflexivity|]. split; [vm_compute; reflexivity|].
  vm_compute. reflexivity.
Qed.

(** ** Decimal output *)

Lemma digit_cases d :
  0 <= d < 10 ->
  digit d <> NUL /\ Z.of_nat (nat_of_ascii (digit d)) - 48 = d.
Proof.
  intros H.
  assert (d = 0 \/ d = 1 \/ d = 2 \/ d = 3 \/ d = 4 \/ d = 5 \/ d = 6
          \/ d = 7 \/ d = 8 \/ d = 9) as Hd by lia.
  repeat (destruct Hd as [-> | Hd]; [by split|]). subst d. by split.
Qed.

Lemma digits_app fuel : forall n acc, digits fuel n acc = digits fuel n [] ++ acc.
Proof.
  induction fuel as [|fuel IH]; intros n acc; simpl.
  - by destruct (n <? 10).
  - destruct (n <? 10); [done|].
    rewrite (IH _ (_ :: acc)), (IH _ [_]). by rewrite <- app_assoc.
Qed.

Lemma digits_nonnul fuel : forall n,
  Forall (fun c => c <> NUL) (digits fuel n []).
Proof.
  induction fuel as [|fuel IH]; intros n; simpl.
  - destruct (n <? 10); repeat constructor; apply digit_cases, Z.mod_pos_bound; lia.
  - destruct (n <? 10).
    + repeat constructor; apply digit_cases, Z.mod_pos_bound; lia.
    + rewrite digits_app. apply Forall_app. split; [apply IH|].
      repeat constructor; apply digit_cases, Z.mod_pos_bound; lia.
Qed.

Lemma digits_length fuel : forall k n,
  0 <= n < 10 ^ Z.of_nat (S k) -> (length (digits fuel n []) <= S k)%nat.
Proof.
  induction fuel as [|fuel IH]; intros k n Hn; simpl.
  - destruct (n <? 10); simpl; lia.
  - destruct (Z.ltb_spec n 10); [simpl; lia|].
    rewrite digits_app, length_app. simpl.
    destruct k as [|k]; [simpl in Hn; lia|].
    specialize (IH k (n / 10)).
    assert (0 <= n / 10 < 10 ^ Z.of_nat (S k)); [|lia].
    split; [apply Z.div_pos; lia|].
    apply Z.div_lt_upper_bound; [lia|].
    rewrite (Nat2Z.inj_succ (S k)), Z.pow_succ_r in Hn by lia. lia.
Qed.

Lemma digits_value_app l d :
  digits_value (l ++ [d]) = 10 * digits_value l + (Z.of_nat (nat_of_ascii d) - 48).
Proof. unfold digits_value. by rewrite foldl_app. Qed.

Lemma digits_value_digits fuel : forall n,
  0 <= n < 10 ^ Z.of_nat (S fuel) -> digits_value (digits fuel n []) = n.
Proof.
  induction fuel as [|fuel IH]; intros n Hn.
  - simpl in *. assert (n < 10) as Hlt by lia.
    apply Z.ltb_lt in Hlt. rewrite Hlt.
    rewrite Z.mod_small by lia. unfold digits_value. simpl.
    destruct (digit_cases n) as [_ ->]; lia.
  - cbn [digits]. destruct (Z.ltb_spec n 10).
    + rewrite Z.mod_small by lia. unfold digits_value. simpl.
      destruct (digit_cases n) as [_ ->]; lia.
    + rewrite digits_app, digits_value_app.
      destruct (digit_cases (n mod 10)) as [_ ->]; [apply Z.mod_pos_bound; lia|].
      rewrite IH; [pose proof (Z.div_mod n 10); lia|].
      split; [apply Z.div_pos; lia|].
      apply Z.div_lt_upper_bound; [lia|].
      rewrite (Nat2Z.inj_succ (S fuel)), Z.pow_succ_r in Hn by lia. lia.
Qed.

(** The digits [%d] prints denote the number printed. *)
Lemma decimal_value n : 0 <= n -> digits_value (decimal n) = n.
Proof.
  intros Hn. unfold decimal.
  destruct (Z.ltb_spec n 0); [lia|].
  apply digits_value_digits. split; [done|].
  destruct (decide (n = 0)) as [->|Hne]; [done|].
  pose proof (Z.log2_spec n) as [_ Hlog]; [lia|].
  pose proof (Z.log2_nonneg n).
  rewrite Nat2Z.inj_succ, Z2Nat.id by lia.
  eapply Z.lt_le_trans; [exact Hlog|].
  apply Z.pow_le_mono_l. lia.
Qed.

Lemma decimal_nonnul n : 0 <= n -> Forall (fun c => c <> NUL) (decimal n).
Proof.
  intros Hn. unfold decimal. destruct (Z.ltb_spec n 0); [lia|].
  apply digits_nonnul.
Qed.

Lemma decimal_length n k :
  0 <= n < 10 ^ Z.of_nat (S k) -> (length (decimal n) <= S k)%nat.
Proof.
  intros Hn. unfold decimal. destruct (Z.ltb_spec n 0); [lia|].
  by apply digits_length.
Qed.

Lemma snprintf_d_fits size n k :
  0 <= n < 10 ^ Z.of_nat (S k) -> (S k < size)%nat -> snprintf_d size n = decimal n.
Proof.
  intros Hn Hs. unfold snprintf_d. apply take_ge.
  pose proof (decimal_length n k Hn). lia.
Qed.

(** ** Strings built in a zeroed array *)

Lemma padded_length n s : (length s <= n)%nat -> length (padded n s) = n.
Proof. intros H. unfold padded. rewrite length_app, length_replicate. lia. Qed.

Lemma padded_cstr n s :
  Forall (fun c => c <> NUL) s -> (length s < n)%nat -> cstr (padded n s) 0 = s.
Proof.
  intros Hs Hl. unfold padded.
  replace (n - length s)%nat with (S (n - length s - 1)) by lia.
  by apply cstr0_app_NUL.
Qed.

Lemma strncpy_padded dest src n :
  length dest = n -> (length src < n)%nat -> strncpy dest src n = padded n src.
Proof.
  intros Hd Hl. unfold strncpy, padded.
  rewrite drop_ge, app_nil_r by lia.
  rewrite take_app, take_ge by lia. f_equal.
  rewrite take_replicate. f_equal. lia.
Qed.

Lemma strcat_padded n s src :
  Forall (fun c => c <> NUL) s -> (length s + length src < n)%nat ->
  strcat (padded n s) src = padded n (s ++ src).
Proof.
  intros Hs Hl. unfold strcat.
  rewrite <- cstr_length, padded_cstr by (done || lia).
  rewrite padded_length by lia. unfold padded.
  rewrite take_app_length. rewrite drop_app_ge by lia.
  rewrite drop_replicate.
  replace (n - length (s ++ src))%nat
    with (S (n - length s - (length s + length src + 1 - length s))).
  2:{ rewrite length_app. lia. }
  rewrite <- app_assoc. simpl.
  apply take_ge. rewrite !length_app, length_cons, length_replicate. lia.
Qed.

Lemma decimal_small n :
  0 <= n < 1000 ->
  (length (decimal n) <= 3)%nat
  /\ snprintf_d 5 n = decimal n /\ snprintf_d 10 n = decimal n.
Proof.
  intros H.
  assert (0 <= n < 10 ^ Z.of_nat 3) as H3 by (change (10 ^ Z.of_nat 3) with 1000; lia).
  split; [by apply decimal_length|].
  split; by apply (snprintf_d_fits _ n 2); [|lia].
Qed.

Lemma decimal_pid n :
  0 < n < 10 ^ 9 ->
  (length (decimal n) <= 9)%nat /\ snprintf_d 10 n = decimal n.
Proof.
  intros H.
  assert (0 <= n < 10 ^ Z.of_nat 9) as H9 by (change (Z.of_nat 9) with 9; lia).
  split; [by apply decimal_length|]. by apply (snprintf_d_fits _ n 8); [|lia].
Qed.

Lemma nonnul_check l : forallb nonnul l = true -> Forall (fun c => c <> NUL) l.
Proof.
  intros H. apply Forall_forall. intros c Hc.
  rewrite forallb_forall in H. apply nonnul_true, H. by apply list_elem_of_In.
Qed.

#[local] Hint Extern 1 (Forall _ (decimal _)) => apply decimal_nonnul; lia : nonnul.
#[local] Hint Extern 1 (Forall _ (chars _)) => apply nonnul_check; reflexivity : nonnul.

Lemma childTerminateMsg_spec pid e :
  reportable (pid, e) ->
  childTerminateMsg pid (wait_status e) = written_notice pid e.
Proof.
  intros [Hpid He]. simpl in Hpid, He.
  destruct (decimal_pid pid Hpid) as [Hpl Hp].
  unfold childTerminateMsg, written_notice, notice_text. rewrite Hp.
  rewrite strncpy_padded by length_lia.
  rewrite strcat_padded by (nonnul_string || length_lia).
  rewrite strcat_padded by (nonnul_string || length_lia).
  destruct e as [code|sig core].
  - destruct (wait_status_exited code He) as [-> ->].
    destruct (decimal_small code) as (Hcl & -> & _); [lia|].
    rewrite strcat_padded by (nonnul_string || length_lia).
    rewrite strcat_padded by (nonnul_string || length_lia).
    rewrite strcat_padded by (nonnul_string || length_lia).
    f_equal. simpl. by rewrite <- !app_assoc.
  - destruct (wait_status_signaled sig core He) as (-> & -> & _ & _ & Hsl).
    destruct (decimal_small sig) as (Hcl & _ & ->); [lia|].
    rewrite strcat_padded by (nonnul_string || length_lia).
    rewrite strcat_padded by (nonnul_string || length_lia).
    rewrite strcat_padded by (nonnul_string || length_lia).
    f_equal. simpl. by rewrite <- !app_assoc.
Qed.

Lemma notice_text_fits pid e :
  reportable (pid, e) ->
  (length (NL :: notice_text pid e ++ [NL]) < MAX_ERR_MSG_LENGTH)%nat
  /\ Forall (fun c => c <> NUL) (NL :: notice_text pid e ++ [NL]).
Proof.
  intros [Hpid He]. simpl in Hpid, He.
  destruct (decimal_pid pid Hpid) as [Hpl _].
  unfold notice_text, MAX_ERR_MSG_LENGTH. destruct e as [code|sig core].
  - destruct (decimal_small code) as (Hcl & _); [lia|].
    split; [length_lia|]. nonnul_string.
  - destruct (decimal_small sig) as (Hcl & _); [lia|].
    split; [length_lia|]. nonnul_string.
Qed.

Lemma sigchld_loop_spec run : forall zs fuel out,
  (length zs <= fuel)%nat -> Forall reportable zs ->
  sigchld_loop fuel (ProcTable zs run) out
  = Some (ProcTable [] run, out ++ concat (map (fun z => written_notice z.1 z.2) zs)).
Proof.
  induction zs as [|[pid e] zs IH]; intros fuel out Hf Hz.
  - destruct fuel; simpl; destruct run; by rewrite app_nil_r.
  - apply Forall_cons in Hz as [Hr Hz].
    destruct fuel as [|fuel]; [simpl in Hf; lia|].
    cbn [sigchld_loop waitpid_nohang zombies running].
    pose proof Hr as [Hpid He]. simpl in Hpid.
    destruct (Z.gtb_spec pid 0); [|lia].
    change (default 0 (Some (wait_status e))) with (wait_status e).
    rewrite childTerminateMsg_spec by done.
    rewrite IH by (done || simpl in Hf; lia).
    cbn [map concat fst snd]. by rewrite <- app_assoc.
Qed.

(** C5: on an invocation with the terminated children [zombies t], each
    of them reportable, the handler comes to an end, reaps every one of
    them and has written, for each in turn and once, the 80 bytes of its
    array: a newline, the notice [background pid P is done: exit value C]
    or [background pid P is done: terminated by signal N] with the numbers
    of that child, a newline, and zeros; after the loop [waitpid] finds no
    terminated child. *)
Theorem reaper_notices t :
  Forall reportable (zombies t) ->
  sigchld_handler t
    = Some (ProcTable [] (running t),
            concat (map (fun z => written_notice z.1 z.2) (zombies t)))
  /\ Forall (fun z =>
               length (written_notice z.1 z.2) = MAX_ERR_MSG_LENGTH
               /\ cstr (written_notice z.1 z.2) 0 = NL :: notice_text z.1 z.2 ++ [NL])
            (zombies t)
  /\ (waitpid_nohang (ProcTable [] (running t))).1.1 <= 0.
Proof.
  intros Hz. split; [|split].
  - unfold sigchld_handler. destruct t as [zs run]. simpl.
    by rewrite sigchld_loop_spec.
  - eapply Forall_impl; [exact Hz|]. intros [pid e] Hr. cbn [fst snd].
    destruct (notice_text_fits pid e Hr) as [Hl Hn]. unfold written_notice. split.
    + apply padded_length. lia.
    + by apply padded_cstr.
  - simpl. destruct (running t); lia.
Qed.

Lemma reaper_notices_witness :
  sigchld_handler (ProcTable [(4923, Exited 0); (4924, Signaled 15 false)] [4925])
  = Some (ProcTable [] [4925],
          written_notice 4923 (Exited 0) ++ written_notice 4924 (Signaled 15 false))
  /\ cstr (written_notice 4923 (Exited 0)) 0
     = NL :: chars "background pid 4923 is done: exit value 0" ++ [NL].
Proof.
  destruct (reaper_notices
              (ProcTable [(4923, Exited 0); (4924, Signaled 15 false)] [4925]))
    as (E & Ht & _).
  - repeat constructor; simpl; lia.
  - split.
    + rewrite E. cbn [map concat zombies fst snd]. by rewrite app_nil_r.
    + apply Forall_cons in Ht as [[_ Ht] _]. exact Ht.
Defined.

(** ** The status across lines *)

Lemma cstr_strncpy_empty dest : cstr (strncpy dest [] MAX_ERR_MSG_LENGTH) 0 = [].
Proof. apply cstr_strncpy; [unfold MAX_ERR_MSG_LENGTH; simpl; lia | constructor]. Qed.

Lemma clear_status_clear sh : status_clear (clear_status sh).
Proof. split; [done|]. apply cstr_strncpy_empty. Qed.

Lemma process_line_total w home sh : is_Some (process_line w home sh).
Proof.
  unfold process_line.
  destruct (strcmp0 (cstr (userInput sh) 0) ""); [done|].
  destruct (Ascii.eqb (rd (userInput sh) 0) "#"); [done|].
  destruct (strcmp0 (cstr (userInput sh) 0) "exit"); [done|].
  destruct (strcmp0 (cstr (userInput sh) 0) "cd"); [done|].
  destruct (Ascii.eqb (rd (userInput sh) 0) "c" && Ascii.eqb (rd (userInput sh) 1) "d"
            && Ascii.eqb (rd (userInput sh) 2) " ").
  { destruct (ParseUserInputToArgs_total (sh_tok sh) 0
                (InitializeArgsArray (replicate MAX_ARGS None)) args_array_length)
      as [[st argArr] ->]. done. }
  destruct (strcmp0 (cstr (userInput sh) 0) "status"); [done|].
  destruct (negb (ContainsString (cstr (userInput sh) 0) "&" =? 0)).
  - destruct (RunBackGroundCommand_shape w (sh_tok (clear_status sh)) 0
                (sh_fds (clear_status sh))) as (st' & fn & fd & fds' & argv & Hs).
    rewrite (Hs w eq_refl). by destruct (os_fork w).
  - destruct (RunForeGroundCommand_shape w (sh_tok (clear_status sh)) 0
                (errMsg (clear_status sh)) (sh_fds (clear_status sh)))
      as (st' & fn & fd & fds' & argv & Hs).
    rewrite (Hs w eq_refl). destruct (os_fork w); [|done].
    cbn [mbind option_bind].
    by destruct (foreground_parent _ _ _ _ _ _ _ _) as [c|[[rs em] l]].
Qed.

(** C7, as amended: the status is reset at the start of every line that
    is run as a command, before the launcher is called, and after a status
    query has printed it; blank lines, comments and [cd] leave it as it
    was.  After a line it differs from the reset state only through the
    return value and message of a foreground launch or because an ignored
    line kept it.  A status query in the initial state prints
    [exit value 0]. *)
Theorem status_lifecycle w home sh :
  is_Some (process_line w home sh)
  /\ (forall sh' eff,
        process_line w home sh = Some (Return (sh', eff)) ->
        match classify (userInput sh) with
        | Blank | Comment | CdHome | CdPath =>
            statusNumber sh' = statusNumber sh /\ errMsg sh' = errMsg sh
        | StatusQuery =>
            eff = [Printed (render_status sh)] /\ status_clear sh'
        | BackgroundCmd => status_clear sh'
        | ForegroundCmd =>
            cstr (strncpy (errMsg sh) [] MAX_ERR_MSG_LENGTH) 0 = []
            /\ exists l,
                RunForeGroundCommand w (sh_tok sh) 0
                  (strncpy (errMsg sh) [] MAX_ERR_MSG_LENGTH) (sh_fds sh)
                = Some (Return (statusNumber sh', errMsg sh', l))
        | ExitCmd => False
        end)
  /\ render_status initial_shell = chars "exit value 0" ++ [NL].
Proof.
  split; [apply process_line_total|]. split; [|vm_compute; reflexivity].
  intros sh' eff H.
  unfold process_line, classify in *.
  destruct (strcmp0 (cstr (userInput sh) 0) ""); [injection H as <- _; by split|].
  destruct (Ascii.eqb (rd (userInput sh) 0) "#"); [injection H as <- _; by split|].
  destruct (strcmp0 (cstr (userInput sh) 0) "exit"); [done|].
  destruct (strcmp0 (cstr (userInput sh) 0) "cd"); [injection H as <- _; by split|].
  destruct (Ascii.eqb (rd (userInput sh) 0) "c" && Ascii.eqb (rd (userInput sh) 1) "d"
            && Ascii.eqb (rd (userInput sh) 2) " ").
  { destruct (ParseUserInputToArgs _ _ _) as [[st argArr]|]; [|done].
    simpl in H. injection H as <- _. by split. }
  destruct (strcmp0 (cstr (userInput sh) 0) "status").
  { injection H as <- <-. split; [done|]. apply clear_status_clear. }
  destruct (negb (ContainsString (cstr (userInput sh) 0) "&" =? 0)).
  - cbn [clear_status sh_tok sh_fds statusNumber errMsg] in H.
    destruct (RunBackGroundCommand _ _ _ _) as [[c|[r l]]|]; [done| |done].
    simpl in H. injection H as <- _. apply (clear_status_clear sh).
  - cbn [clear_status sh_tok sh_fds statusNumber errMsg] in H.
    split; [apply cstr_strncpy_empty|].
    destruct (RunForeGroundCommand _ _ _ _ _) as [[c|[[rs em] l]]|]; [done| |done].
    simpl in H. injection H as <- _. by exists l.
Qed.

Lemma status_lifecycle_witness :
  exists sh' eff,
    process_line (os_runs 4923 (Exited 42)) None (shell_at initial_shell "prog")
      = Some (Return (sh', eff))
    /\ statusNumber sh' = 42.
Proof.
  destruct (process_line (os_runs 4923 (Exited 42)) None (shell_at initial_shell "prog"))
    as [[c|[sh' eff]]|] eqn:E.
  - vm_compute in E. discriminate E.
  - destruct (status_lifecycle (os_runs 4923 (Exited 42)) None
                (shell_at initial_shell "prog")) as (_ & H & _).
    specialize (H _ _ E).
    change (classify (userInput (shell_at initial_shell "prog"))) with ForegroundCmd in H.
    destruct H as (_ & l & Hl).
    exists sh', eff. split; [reflexivity|].
    vm_compute in Hl. injection Hl as H1 _ _. symmetry. exact H1.
  - vm_compute in E. discriminate E.
Defined.

(** C7, as stated, fails: a comment is not a status query, and the status
    of the command before it is still there after it. *)
Lemma status_survives_comment :
  (let sh := Shell 1 (replicate MAX_ERR_MSG_LENGTH NUL)
               (line_buffer "# note") std_fds in
   cstr (userInput sh) 0 <> chars "status"
   /\ process_line (os_no_program 4923) None sh = Some (Return (sh, []))
   /\ statusNumber sh = 1)
  /\ exists eff,
      RunShellLoop (replicate 4 (os_no_program 4923)) None initial_shell
        (Stdin (typed ["badcmd"; "# note"; "status"; "exit"]) false) []
      = Some (LoopExit 0 eff)
      /\ printed eff = chars ": : : exit value 1" ++ [NL] ++ chars ": ".
Proof.
  split.
  - cbv zeta. split; [by vm_compute|]. split; [vm_compute; reflexivity|reflexivity].
  - eexists. split; [vm_compute; reflexivity|]. vm_compute. reflexivity.
Qed.

(** ** Evaluations *)

Example decimal_4923 : decimal 4923 = chars "4923".
Proof. reflexivity. Qed.

Example decimal_0 : decimal 0 = chars "0".
Proof. reflexivity. Qed.

Example space_split_example :
  space_split (chars "  wc  -l < junk ") = [chars "wc"; chars "-l"; chars "<"; chars "junk"].
Proof. vm_compute. reflexivity. Qed.

(** Two calls of [strtok] on a short line: the first space has become a
    terminator. *)
Example strtok_twice :
  let '(t1, st1) := strtok (Some 0%nat) [SP] (TokState (chars "ls -la" ++ [NUL]) 0) in
  let '(t2, st2) := strtok None [SP] st1 in
  t1 = Some 0%nat /\ t2 = Some 3%nat
  /\ mem st2 = chars "ls" ++ [NUL] ++ chars "-la" ++ [NUL]
  /\ cstr (mem st2) 0 = chars "ls".
Proof. vm_compute. repeat split. Qed.

(** A foreground command with a redirection: [GetFileName] has cut the
    line before [ParseUserInputToArgs] reads it, so the program is started
    without its arguments. *)
Example redirect_drops_arguments :
  exists l t,
    RunForeGroundCommand (os_runs 4923 (Exited 0)) (line_buffer "ls -la > out") 0
      (replicate MAX_ERR_MSG_LENGTH NUL) std_fds
    = Some (Return (0, replicate MAX_ERR_MSG_LENGTH NUL, l))
    /\ ch_image (l_child l) = Some ([chars "ls"], t)
    /\ t !! 1 = Some (OpenFile (chars "out") O_WRONLY_TRUNC_CREAT).
Proof.
  eexists _, _. split; [vm_compute; reflexivity|].
  split; [reflexivity|]. vm_compute. reflexivity.
Qed.

(** A child killed by signal 15, then two status queries. *)
Example status_after_signal :
  exists eff,
    RunShellLoop [os_runs 4923 (Signaled 15 false); os_no_fork; os_no_fork; os_no_fork]
      None initial_shell (Stdin (typed ["sleep 100"; "status"; "status"; "exit"]) false) []
    = Some (LoopExit 0 eff)
    /\ printed eff
       = chars ": terminated by signal 15" ++ [NL]
         ++ chars ": terminated by signal 15" ++ [NL]
         ++ chars ": exit value 0" ++ [NL] ++ chars ": ".
Proof. eexists. split; vm_compute; reflexivity. Qed.

(** * Further properties of the code *)

(** ** InitializeArgsArray *)

Lemma init_loop_lookup (n : nat) : forall (s : nat) (argv : args_array) (j : nat),
  foldl (fun a i => <[i := None]> a) argv (seq s n) !! j
  = if decide (s <= j < s + n)%nat then (fun _ => None) <$> argv !! j else argv !! j.
Proof.
  induction n as [|n IH]; intros s argv j.
  - simpl. case_decide; [lia|done].
  - cbn [seq foldl]. rewrite IH.
    destruct (decide (j = s)) as [->|Hne].
    + repeat case_decide; try lia.
      destruct (argv !! s) eqn:E.
      * rewrite list_lookup_insert_eq by by eapply lookup_lt_Some. done.
      * rewrite list_insert_ge by by apply lookup_ge_None. by rewrite E.
    + rewrite list_lookup_insert_ne by done.
      repeat case_decide; try lia; done.
Qed.

(** X1: [InitializeArgsArray] turns an array of [MAX_ARGS] slots, whatever
    it held, into [MAX_ARGS] null pointers. *)
Theorem InitializeArgsArray_all_null (argv : args_array) :
  length argv = MAX_ARGS ->
  InitializeArgsArray argv = replicate MAX_ARGS None.
Proof.
  intros Hl. apply list_eq. intros i. unfold InitializeArgsArray.
  rewrite init_loop_lookup. case_decide as Hi.
  - rewrite lookup_replicate_2 by lia.
    destruct (lookup_lt_is_Some_2 argv i) as [x ->]; [lia|]. done.
  - rewrite lookup_ge_None_2 by lia.
    symmetry. apply lookup_ge_None_2. rewrite length_replicate. lia.
Qed.

Lemma InitializeArgsArray_all_null_witness :
  InitializeArgsArray (replicate MAX_ARGS (Some 7%nat)) = replicate MAX_ARGS None.
Proof. apply InitializeArgsArray_all_null. reflexivity. Defined.

(** ** ContainsString *)

Lemma is_prefix_spec n h : is_prefix n h = true <-> exists post, h = n ++ post.
Proof.
  revert h. induction n as [|c n IH]; intros h; simpl.
  - split; [by exists h|done].
  - destruct h as [|d h]; [split; [done|by intros [? ?]]|].
    rewrite andb_true_iff, IH, Ascii.eqb_eq. split.
    + intros [-> [post ->]]. by exists post.
    + intros [post [= -> ->]]. split; [done|by exists post].
Qed.

Lemma strstr_Some hay needle k :
  strstr hay needle = Some k ->
  exists post, hay = take k hay ++ needle ++ post.
Proof.
  revert k. induction hay as [|c hay IH]; intros k; simpl.
  - destruct (is_prefix needle []) eqn:E; [|done]. intros [= <-].
    apply is_prefix_spec in E as [post ->]. by exists post.
  - destruct (is_prefix needle (c :: hay)) eqn:E.
    + intros [= <-]. apply is_prefix_spec in E as [post E]. exists post.
      by rewrite take_0.
    + destruct (strstr hay needle) as [j|] eqn:Ej; simpl; [|done].
      intros [= <-]. destruct (IH j eq_refl) as [post Hp].
      exists post. simpl. by rewrite <- Hp.
Qed.

Lemma strstr_None hay needle pre post :
  strstr hay needle = None -> hay <> pre ++ needle ++ post.
Proof.
  revert pre. induction hay as [|c hay IH]; intros pre; simpl.
  - destruct (is_prefix needle []) eqn:E; [done|]. intros _ H.
    destruct pre; [|done]. simpl in H.
    assert (is_prefix needle [] = true) by (apply is_prefix_spec; by exists post).
    congruence.
  - destruct (is_prefix needle (c :: hay)) eqn:E; [done|].
    destruct (strstr hay needle) eqn:Ej; simpl; [done|]. intros _ H.
    destruct pre as [|d pre].
    + assert (is_prefix needle (c :: hay) = true)
        by (apply is_prefix_spec; by exists post).
      congruence.
    + injection H as _ H. by eapply IH.
Qed.

(** X2: [ContainsString] answers 1 when the text searched for occurs
    somewhere in the string, and 0 when it occurs nowhere; it gives no
    other answer. *)
Theorem ContainsString_iff (s : list ascii) (n : string) :
  (ContainsString s n = 1 <-> exists pre post, s = pre ++ chars n ++ post)
  /\ (ContainsString s n = 0 <-> ~ exists pre post, s = pre ++ chars n ++ post).
Proof.
  unfold ContainsString. destruct (strstr s (chars n)) as [k|] eqn:E.
  - destruct (strstr_Some _ _ _ E) as [post Hp].
    split; split; try done; [by exists (take k s), post|].
    intros H. destruct H. by exists (take k s), post.
  - assert (~ exists pre post, s = pre ++ chars n ++ post) as Hn.
    { intros (pre & post & H). by eapply strstr_None. }
    split; split; try done.
Qed.

(** ** Words *)

Lemma notsp_true c : notsp c = true <-> c <> SP.
Proof. unfold notsp, is_sp. rewrite negb_true_iff. apply Ascii.eqb_neq. Qed.

Lemma split_fuel_words n : forall s t,
  t ∈ split_fuel n s -> t <> [] /\ Forall (fun c => c <> SP) t.
Proof.
  induction n as [|n IH]; intros s t; simpl; [by intros ?%elem_of_nil|].
  destruct (drop_while is_sp s) as [|c r] eqn:E; [by intros ?%elem_of_nil|].
  pose proof (drop_while_head _ _ _ _ E) as Hc.
  intros [->|Hin]%elem_of_cons; [|by eapply IH].
  split.
  - simpl. unfold notsp at 1. by rewrite Hc.
  - eapply Forall_impl; [by apply (span_len_all notsp)|].
    intros d. apply notsp_true.
Qed.

Lemma take_until_sublist f ts : take_until f ts `sublist_of` ts.
Proof.
  induction ts as [|t ts IH]; simpl; [done|].
  destruct (f t); [apply sublist_nil_l | by apply sublist_skip].
Qed.

Lemma tokenizer_spec_words line t :
  Forall (fun c => c <> NUL) line -> t ∈ tokenizer_spec line -> is_word t.
Proof.
  intros Hn Ht. unfold tokenizer_spec in Ht.
  assert (t ∈ space_split line) as Hs.
  { eapply elem_of_sublist; [exact Ht|].
    etrans; [apply sublist_take | apply take_until_sublist]. }
  destruct (split_fuel_words _ _ _ Hs) as [Hne Hsp].
  destruct (token_fits _ _ Hs Hn) as [_ Hnul].
  split; [done|]. rewrite Forall_forall in *. intros c Hc. split; auto.
Qed.

(** X3: every argument that [ParseUserInputToArgs] stores is a word: it
    is not empty and holds no space and no zero byte. *)
Theorem argv_entries_are_words st userCommand returnArr :
  length returnArr = MAX_ARGS ->
  exists st' argv,
    ParseUserInputToArgs st userCommand returnArr = Some (st', argv)
    /\ Forall is_word (argv_strings (mem st') argv).
Proof.
  intros Hlen.
  destruct (ParseUserInputToArgs_spec st userCommand returnArr Hlen)
    as (st' & argv & E & Hout).
  exists st', argv. split; [exact E|]. rewrite Hout.
  apply Forall_forall. intros t Ht.
  eapply tokenizer_spec_words; [apply cstr_nonnul | exact Ht].
Qed.

Lemma argv_entries_are_words_witness :
  exists st' argv,
    ParseUserInputToArgs (line_buffer "  ls   -la  ") 0 (replicate MAX_ARGS None)
      = Some (st', argv)
    /\ Forall is_word (argv_strings (mem st') argv).
Proof.
  apply (argv_entries_are_words (line_buffer "  ls   -la  ") 0 (replicate MAX_ARGS None)).
  reflexivity.
Defined.

Lemma word_span t r :
  is_word t -> span_len notsp (t ++ SP :: r) = length t /\ span_len notsp t = length t.
Proof.
  intros [_ Hw].
  assert (Forall (fun c => notsp c = true) t) as Hf.
  { eapply Forall_impl; [exact Hw|]. intros c [Hc _]. by apply notsp_true. }
  split; [|by apply span_len_Forall].
  apply span_len_app_stop; [done|]. unfold notsp, is_sp. by rewrite Ascii.eqb_refl.
Qed.

Lemma word_drop_while t r : is_word t -> drop_while is_sp (t ++ r) = t ++ r.
Proof.
  intros [Hne Hw]. destruct t as [|c t]; [done|]. simpl.
  apply Forall_cons in Hw as [[Hc _] _].
  unfold is_sp. apply Ascii.eqb_neq in Hc. by rewrite Hc.
Qed.

Lemma space_split_word t : is_word t -> space_split t = [t].
Proof.
  intros Ht. rewrite space_split_unfold.
  pose proof (word_drop_while t [] Ht) as Hd. rewrite app_nil_r in Hd.
  rewrite Hd. destruct (word_span t [] Ht) as [_ Hs].
  destruct t as [|c t0]; [by destruct Ht|]. cbv zeta.
  rewrite Hs. by rewrite take_ge, drop_ge by lia.
Qed.

Lemma space_split_word_cons t r :
  is_word t -> space_split (t ++ SP :: r) = t :: space_split r.
Proof.
  intros Ht. rewrite space_split_unfold, word_drop_while by done.
  destruct (word_span t r Ht) as [Hs _].
  destruct (t ++ SP :: r) as [|c l] eqn:El; [by destruct t|].
  cbv zeta. rewrite Hs, <- El.
  by rewrite take_app_length, drop_app_length, space_split_sp.
Qed.

Lemma space_split_unwords ts : Forall is_word ts -> space_split (unwords ts) = ts.
Proof.
  induction 1 as [|t ts Ht Hts IH]; [done|].
  destruct ts as [|t' ts].
  - by apply space_split_word.
  - change (unwords (t :: t' :: ts)) with (t ++ SP :: unwords (t' :: ts)).
    by rewrite space_split_word_cons, IH.
Qed.

(** X4: writing words with one space between them and tokenizing the line
    gives the words back, provided none of them is a marker and there are
    at most 512. *)
Theorem tokenizer_round_trip st userCommand returnArr ts :
  length returnArr = MAX_ARGS ->
  Forall is_word ts ->
  Forall (fun t => is_marker t = false) ts ->
  (length ts <= MAX_ARGS - 1)%nat ->
  cstr (mem st) userCommand = unwords ts ->
  exists st' argv,
    ParseUserInputToArgs st userCommand returnArr = Some (st', argv)
    /\ argv_strings (mem st') argv = ts.
Proof.
  intros Hlen Hw Hm Hcap Hline.
  destruct (ParseUserInputToArgs_spec st userCommand returnArr Hlen)
    as (st' & argv & E & Hout).
  exists st', argv. split; [exact E|]. rewrite Hout, Hline.
  unfold tokenizer_spec. rewrite space_split_unwords by done.
  rewrite take_until_none by done. by apply take_ge.
Qed.

Lemma tokenizer_round_trip_witness :
  exists st' argv,
    ParseUserInputToArgs (line_buffer "grep -n main smallsh.c") 0 (replicate MAX_ARGS None)
      = Some (st', argv)
    /\ argv_strings (mem st') argv
       = [chars "grep"; chars "-n"; chars "main"; chars "smallsh.c"].
Proof.
  apply (tokenizer_round_trip (line_buffer "grep -n main smallsh.c") 0
           (replicate MAX_ARGS None)
           [chars "grep"; chars "-n"; chars "main"; chars "smallsh.c"]).
  - reflexivity.
  - repeat constructor; try discriminate.
  - repeat constructor.
  - unfold MAX_ARGS. simpl. lia.
  - vm_compute. reflexivity.
Defined.

(** ** Stripping the newline *)

Lemma cstr0_prefix b : cstr b 0 = take (strlen b 0) b.
Proof. unfold cstr. by rewrite drop_0. Qed.

Lemma RemoveNewLine_last b s c :
  Z.of_nat (length b) <= SIZE_MAX -> cstr b 0 = s ++ [c] ->
  RemoveNewLineAndAddNullTerm b
    = Some (if Ascii.eqb c NL then wr b (length s) NUL else b)
  /\ cstr (wr b (length s) NUL) 0 = s.
Proof.
  intros Hb Hs.
  assert (Hl : strlen b 0 = S (length s)).
  { rewrite <- cstr_length, Hs, length_app. simpl. lia. }
  pose proof (strlen_le b 0) as Hle.
  assert (Hc : b !! length s = Some c).
  { rewrite cstr0_prefix, Hl in Hs.
    assert ((s ++ [c]) !! length s = Some c) as H
      by (rewrite lookup_app_r, Nat.sub_diag by lia; done).
    rewrite <- Hs in H. apply lookup_take_Some in H. tauto. }
  split.
  - unfold RemoveNewLineAndAddNullTerm. rewrite Hl.
    assert (size_t_sub (Z.of_nat (S (length s))) 1 = Z.of_nat (length s)) as ->.
    { unfold size_t_sub. rewrite Z.mod_small; unfold SIZE_MAX in *; lia. }
    unfold array_get.
    destruct (Z.leb_spec 0 (Z.of_nat (length s))); [|lia].
    destruct (Z.ltb_spec (Z.of_nat (length s)) (Z.of_nat (length b))); [|lia].
    cbn [andb]. rewrite Nat2Z.id, Hc. by destruct (Ascii.eqb c NL).
  - unfold wr. rewrite cstr0_insert_cut by lia.
    rewrite cstr0_prefix, Hl in Hs.
    apply (f_equal (take (length s))) in Hs.
    rewrite take_take, take_app_length in Hs.
    by replace (length s `min` S (length s))%nat with (length s) in Hs by lia.
Qed.

(** X5: on a string that is not empty, [RemoveNewLineAndAddNullTerm]
    looks at the last byte only: a newline there is replaced by the
    terminator, so the string loses exactly that byte; any other last byte
    leaves the array as it is, whatever the string holds before it. *)
Theorem RemoveNewLine_strips_last b s c :
  length b = MAX_COMMAND_LENGTH ->
  cstr b 0 = s ++ [c] ->
  exists b',
    RemoveNewLineAndAddNullTerm b = Some b'
    /\ length b' = length b
    /\ cstr b' 0 = (if Ascii.eqb c NL then s else s ++ [c])
    /\ (c <> NL -> b' = b).
Proof.
  intros Hlen Hs.
  assert (Hb : Z.of_nat (length b) <= SIZE_MAX).
  { rewrite Hlen. vm_compute. discriminate. }
  destruct (RemoveNewLine_last b s c Hb Hs) as [-> Hcut].
  eexists. split; [done|].
  destruct (Ascii.eqb c NL) eqn:E.
  - split; [apply length_insert|]. split; [done|].
    intros Hn. by apply Ascii.eqb_neq in Hn; congruence.
  - done.
Qed.

Lemma RemoveNewLine_strips_last_witness :
  exists b',
    RemoveNewLineAndAddNullTerm
      (chars "ls" ++ [NL] ++ replicate (MAX_COMMAND_LENGTH - 3) NUL)
      = Some b'
    /\ cstr b' 0 = chars "ls".
Proof.
  destruct (RemoveNewLine_strips_last
              (chars "ls" ++ [NL] ++ replicate (MAX_COMMAND_LENGTH - 3) NUL)
              (chars "ls") NL)
    as (b' & E & _ & H & _).
  - vm_compute. reflexivity.
  - vm_compute. reflexivity.
  - exists b'. split; [exact E | exact H].
Defined.

(** ** Reading a command *)

Lemma take_line_newline k l rest :
  Forall line_byte l -> (length l < k)%nat ->
  take_line k (l ++ NL :: rest) = (l ++ [NL], rest, false).
Proof.
  revert k. induction l as [|c l IH]; intros k Hl Hk.
  - destruct k as [|k]; [simpl in Hk; lia|]. simpl. done.
  - destruct k as [|k]; [simpl in Hk; lia|].
    apply Forall_cons in Hl as [[_ Hc] Hl]. cbn [take_line app].
    apply Ascii.eqb_neq in Hc. rewrite Hc.
    rewrite IH by (done || simpl in Hk; lia). done.
Qed.

Lemma take_line_full k l rest :
  Forall line_byte l -> length l = k ->
  take_line k (l ++ rest) = (l, rest, false).
Proof.
  revert k. induction l as [|c l IH]; intros k Hl Hk.
  - simpl in Hk. subst k. done.
  - destruct k as [|k]; [simpl in Hk; lia|].
    apply Forall_cons in Hl as [[_ Hc] Hl]. cbn [take_line app].
    apply Ascii.eqb_neq in Hc. rewrite Hc.
    rewrite IH by (done || simpl in Hk; lia). done.
Qed.

Lemma take_line_runs_out k l :
  Forall line_byte l -> (length l < k)%nat ->
  take_line k l = (l, [], true).
Proof.
  revert k. induction l as [|c l IH]; intros k Hl Hk.
  - destruct k as [|k]; [simpl in Hk; lia|]. done.
  - destruct k as [|k]; [simpl in Hk; lia|].
    apply Forall_cons in Hl as [[_ Hc] Hl]. cbn [take_line].
    apply Ascii.eqb_neq in Hc. rewrite Hc.
    rewrite IH by (done || simpl in Hk; lia). done.
Qed.

Lemma cleared_length b :
  length b = MAX_COMMAND_LENGTH ->
  length (strncpy b [] (MAX_COMMAND_LENGTH - 1)) = MAX_COMMAND_LENGTH.
Proof.
  intros H. unfold strncpy. rewrite length_app, length_take, length_drop, H.
  rewrite app_nil_l, length_replicate. unfold MAX_COMMAND_LENGTH. lia.
Qed.

(** What [fgets] leaves in the array when it has read [got]. *)
Lemma fgets_got (s : buffer) got (e : bool) U rest hit :
  U <> [] -> take_line 78 U = (got, rest, hit) ->
  fgets s 79 (Stdin U e) = (got ++ [NUL] ++ drop (length got + 1) s, Stdin rest (e || hit)).
Proof.
  intros HU Ht. unfold fgets. cbn [unread eof_flag].
  destruct U as [|c U]; [done|].
  change (79 - 1)%nat with 78%nat. by rewrite Ht.
Qed.

Lemma got_buffer (s : buffer) got :
  length s = MAX_COMMAND_LENGTH -> (length got <= 78)%nat ->
  Forall (fun c => c <> NUL) got ->
  let b := got ++ [NUL] ++ drop (length got + 1) s in
  length b = MAX_COMMAND_LENGTH /\ cstr b 0 = got
  /\ Z.of_nat (length b) <= SIZE_MAX.
Proof.
  intros Hs Hg Hn b.
  assert (length b = MAX_COMMAND_LENGTH) as Hb.
  { unfold b. rewrite !length_app, length_drop, Hs. simpl.
    unfold MAX_COMMAND_LENGTH. lia. }
  split; [done|]. split; [by apply cstr0_app_NUL|].
  rewrite Hb. vm_compute. discriminate.
Qed.

Lemma line_bytes_nonnul l : Forall line_byte l -> Forall (fun c => c <> NUL) l.
Proof. intros H. eapply Forall_impl; [exact H|]. by intros c [? ?]. Qed.

(** X6: a line of at most 77 bytes that ends with a newline is read
    whole: [userInput] then holds the line without the newline, and the
    input behind the newline is still unread. *)
Theorem read_command_line userInput line rest :
  length userInput = MAX_COMMAND_LENGTH ->
  Forall line_byte line -> (length line <= 77)%nat ->
  exists b,
    read_command userInput (Stdin (line ++ NL :: rest) false)
      = ReadLine b (Stdin rest false)
    /\ cstr b 0 = line /\ length b = MAX_COMMAND_LENGTH.
Proof.
  intros Hlen Hl Hk. unfold read_command.
  set (cleared := strncpy userInput [] (MAX_COMMAND_LENGTH - 1)).
  rewrite (fgets_got cleared (line ++ [NL]) false _ rest false);
    [|by destruct line|by apply take_line_newline; [|lia]].
  destruct (got_buffer cleared (line ++ [NL])) as (Hb & Hc & Hm).
  - by apply cleared_length.
  - rewrite length_app. simpl. lia.
  - apply Forall_app. split; [by apply line_bytes_nonnul|]. by repeat constructor.
  - destruct (RemoveNewLine_last _ line NL Hm Hc) as [-> Hcut].
    rewrite Ascii.eqb_refl. cbn [eof_flag orb].
    eexists. split; [done|]. split; [done|].
    unfold wr. by rewrite length_insert.
Qed.

Lemma read_command_line_witness :
  exists b,
    read_command (replicate MAX_COMMAND_LENGTH NUL)
      (Stdin (typed ["ls -la"; "status"]) false)
    = ReadLine b (Stdin (typed ["status"]) false)
    /\ cstr b 0 = chars "ls -la".
Proof.
  destruct (read_command_line (replicate MAX_COMMAND_LENGTH NUL) (chars "ls -la")
              (typed ["status"]))
    as (b & E & H & _).
  - reflexivity.
  - repeat constructor; discriminate.
  - simpl. lia.
  - exists b. split; [exact E | exact H].
Defined.

(** X7: [fgets] is given room for 78 bytes.  When the input starts with
    78 bytes without a newline, exactly these become the command, and what
    follows them on the same line is left unread, to be taken as the next
    command. *)
Theorem read_command_cuts_long_line userInput chunk rest :
  length userInput = MAX_COMMAND_LENGTH ->
  Forall line_byte chunk -> length chunk = 78%nat ->
  exists b,
    read_command userInput (Stdin (chunk ++ rest) false)
      = ReadLine b (Stdin rest false)
    /\ cstr b 0 = chunk.
Proof.
  intros Hlen Hl Hk. unfold read_command.
  set (cleared := strncpy userInput [] (MAX_COMMAND_LENGTH - 1)).
  rewrite (fgets_got cleared chunk false _ rest false);
    [|by destruct chunk|by apply take_line_full].
  destruct (got_buffer cleared chunk) as (Hb & Hc & Hm).
  - by apply cleared_length.
  - lia.
  - by apply line_bytes_nonnul.
  - destruct (exists_last (l := chunk)) as (s & c & Hsc); [by destruct chunk|].
    assert (c <> NL) as Hne.
    { rewrite Hsc in Hl. apply Forall_app in Hl as [_ Hl].
      apply Forall_cons in Hl as [[_ Hl] _]. done. }
    assert (Hc' := Hc). rewrite Hsc in Hc' at 3.
    destruct (RemoveNewLine_last _ s c Hm Hc') as [-> _].
    apply Ascii.eqb_neq in Hne. rewrite Hne. cbn [eof_flag orb].
    eexists. split; [done|]. exact Hc.
Qed.

Lemma read_command_cuts_long_line_witness :
  exists b,
    read_command (replicate MAX_COMMAND_LENGTH NUL)
      (Stdin (replicate 78 "x"%char ++ chars "yz" ++ [NL]) false)
    = ReadLine b (Stdin (chars "yz" ++ [NL]) false)
    /\ cstr b 0 = replicate 78 "x"%char.
Proof.
  apply (read_command_cuts_long_line (replicate MAX_COMMAND_LENGTH NUL)
           (replicate 78 "x"%char) (chars "yz" ++ [NL])).
  - reflexivity.
  - apply Forall_replicate. split; discriminate.
  - reflexivity.
Defined.

(** X8: when the input ends in a line that has no newline, [fgets] meets
    the end of the input while it reads it, [feof] is true right after, and
    the shell exits with code 0 without running that line. *)
Theorem read_command_drops_last_line userInput line :
  length userInput = MAX_COMMAND_LENGTH ->
  Forall line_byte line -> line <> [] -> (length line <= 77)%nat ->
  read_command userInput (Stdin line false) = ReadExit 0.
Proof.
  intros Hlen Hl Hne Hk. unfold read_command.
  set (cleared := strncpy userInput [] (MAX_COMMAND_LENGTH - 1)).
  rewrite (fgets_got cleared line false _ [] true);
    [|done|by apply take_line_runs_out; [|lia]].
  destruct (got_buffer cleared line) as (Hb & Hc & Hm).
  - by apply cleared_length.
  - lia.
  - by apply line_bytes_nonnul.
  - destruct (RemoveNewLine_nonempty _ Hm) as [b' ->]; [|done].
    rewrite <- cstr_length, Hc. destruct line; [done|simpl; lia].
Qed.

Lemma read_command_drops_last_line_witness :
  read_command (replicate MAX_COMMAND_LENGTH NUL) (Stdin (chars "ls") false) = ReadExit 0.
Proof.
  apply read_command_drops_last_line.
  - reflexivity.
  - repeat constructor; discriminate.
  - discriminate.
  - simpl. lia.
Defined.

(** ** The forms of a line, again *)

Lemma strcmp0_true a b : strcmp0 a b = true <-> a = chars b.
Proof. unfold strcmp0, streq. apply bool_decide_eq_true. Qed.

Lemma launcher_exit_code w st userCommand errMsg fds code :
  RunForeGroundCommand w st userCommand errMsg fds = Some (Exit code)
  \/ RunBackGroundCommand w st userCommand fds = Some (Exit code) ->
  code = 1 /\ os_fork w = None.
Proof.
  destruct (RunForeGroundCommand_shape w st userCommand errMsg fds)
    as (st' & fn & fd & fds' & argv & Hfg).
  destruct (RunBackGroundCommand_shape w st userCommand fds)
    as (st2 & fn2 & fd2 & fds2 & argv2 & Hbg).
  rewrite (Hfg w eq_refl), (Hbg w eq_refl).
  destruct (os_fork w) as [pid|].
  - intros [H|H]; [|done]. unfold foreground_parent in H.
    by destruct (WIFSIGNALED _).
  - intros [[= <-]|[= <-]]; done.
Qed.

Lemma process_line_foreground w home sh :
  classify (userInput sh) = ForegroundCmd ->
  process_line w home sh
  = (r ← RunForeGroundCommand w (sh_tok sh) 0
           (strncpy (errMsg sh) [] MAX_ERR_MSG_LENGTH) (sh_fds sh);
     match r with
     | Exit code => Some (Exit code)
     | Return (returnStatus, errMsg', l) =>
         Some (Return (Shell returnStatus errMsg' (l_tok l) (l_fds l),
                       [Spawned false (l_child l); Printed (l_output l)]))
     end).
Proof.
  unfold process_line, classify.
  destruct (strcmp0 (cstr (userInput sh) 0) ""); [done|].
  destruct (Ascii.eqb (rd (userInput sh) 0) "#"); [done|].
  destruct (strcmp0 (cstr (userInput sh) 0) "exit"); [done|].
  destruct (strcmp0 (cstr (userInput sh) 0) "cd"); [done|].
  destruct (Ascii.eqb (rd (userInput sh) 0) "c" && Ascii.eqb (rd (userInput sh) 1) "d"
            && Ascii.eqb (rd (userInput sh) 2) " "); [done|].
  destruct (strcmp0 (cstr (userInput sh) 0) "status"); [done|].
  destruct (negb (ContainsString (cstr (userInput sh) 0) "&" =? 0)); [done|].
  done.
Qed.

Lemma process_line_background w home sh :
  classify (userInput sh) = BackgroundCmd ->
  process_line w home sh
  = (r ← RunBackGroundCommand w (sh_tok sh) 0 (sh_fds sh);
     match r with
     | Exit code => Some (Exit code)
     | Return (_, l) =>
         Some (Return (Shell 0 (strncpy (errMsg sh) [] MAX_ERR_MSG_LENGTH)
                         (l_tok l) (l_fds l),
                       [Spawned true (l_child l); Printed (l_output l)]))
     end).
Proof.
  unfold process_line, classify.
  destruct (strcmp0 (cstr (userInput sh) 0) ""); [done|].
  destruct (Ascii.eqb (rd (userInput sh) 0) "#"); [done|].
  destruct (strcmp0 (cstr (userInput sh) 0) "exit"); [done|].
  destruct (strcmp0 (cstr (userInput sh) 0) "cd"); [done|].
  destruct (Ascii.eqb (rd (userInput sh) 0) "c" && Ascii.eqb (rd (userInput sh) 1) "d"
            && Ascii.eqb (rd (userInput sh) 2) " "); [done|].
  destruct (strcmp0 (cstr (userInput sh) 0) "status"); [done|].
  destruct (negb (ContainsString (cstr (userInput sh) 0) "&" =? 0)); [|done].
  done.
Qed.

(** X9: the shell ends from inside the processing of a line in two ways
    only: with code 0 when the line is exactly [exit], and with code 1
    when a command was to be launched and [fork] failed. *)
Theorem shell_exit_codes w home sh code :
  process_line w home sh = Some (Exit code) ->
  (code = 0 /\ cstr (userInput sh) 0 = chars "exit")
  \/ (code = 1 /\ os_fork w = None
      /\ (classify (userInput sh) = BackgroundCmd
          \/ classify (userInput sh) = ForegroundCmd)).
Proof.
  intros H.
  destruct (classify (userInput sh)) eqn:Ek.
  1-6: unfold process_line, classify in *.
  1-6: destruct (strcmp0 (cstr (userInput sh) 0) ""); [done|].
  1-6: destruct (Ascii.eqb (rd (userInput sh) 0) "#"); [done|].
  1-6: destruct (strcmp0 (cstr (userInput sh) 0) "exit") eqn:Ex;
         [left; injection H as <-; split; [done|by apply strcmp0_true]|].
  1-6: destruct (strcmp0 (cstr (userInput sh) 0) "cd"); [done|].
  1-6: destruct (Ascii.eqb (rd (userInput sh) 0) "c" && Ascii.eqb (rd (userInput sh) 1) "d"
                 && Ascii.eqb (rd (userInput sh) 2) " ");
         [by destruct (ParseUserInputToArgs _ _ _) as [[? ?]|]|].
  1-6: destruct (strcmp0 (cstr (userInput sh) 0) "status"); [done|].
  1-6: by destruct (negb (ContainsString (cstr (userInput sh) 0) "&" =? 0)).
  - rewrite process_line_background in H by done.
    destruct (RunBackGroundCommand _ _ _ _) as [[c|[r l]]|] eqn:E; [|done|done].
    simpl in H. injection H as <-.
    destruct (launcher_exit_code w (sh_tok sh) 0 [] (sh_fds sh) c (or_intror E)) as [-> Hf].
    right. auto.
  - rewrite process_line_foreground in H by done.
    destruct (RunForeGroundCommand _ _ _ _ _) as [[c|[[rs em] l]]|] eqn:E; [|done|done].
    simpl in H. injection H as <-.
    destruct (launcher_exit_code w _ _ _ _ c (or_introl E)) as [-> Hf].
    right. auto.
Qed.

Lemma shell_exit_codes_witness :
  cstr (userInput (shell_at initial_shell "exit")) 0 = chars "exit".
Proof.
  destruct (shell_exit_codes (os_runs 4923 (Exited 0)) None
              (shell_at initial_shell "exit") 0) as [[_ H]|[H _]].
  - vm_compute. reflexivity.
  - exact H.
  - discriminate H.
Defined.

(** ** cd *)

Lemma cd_prefix b :
  Ascii.eqb (rd b 0) "c" && Ascii.eqb (rd b 1) "d" && Ascii.eqb (rd b 2) " " = true ->
  exists b3, cstr b 0 = chars "cd" ++ SP :: cstr b3 0.
Proof.
  rewrite !andb_true_iff, !Ascii.eqb_eq. intros [[H0 H1] H2].
  destruct b as [|c0 [|c1 [|c2 b3]]]; try discriminate.
  unfold rd in *. simpl in *. subst. exists b3.
  by rewrite !cstr0_cons.
Qed.

Lemma argv_strings_second b (arr : args_array) t0 r :
  argv_strings b arr = t0 :: r ->
  cstr b <$> default None (arr !! 1%nat) = r !! 0%nat.
Proof.
  destruct arr as [|[p|] arr]; [done| |done]. simpl. intros [= _ <-].
  by destruct arr as [|[q|] arr].
Qed.

Lemma classify_CdPath b :
  classify b = CdPath ->
  Ascii.eqb (rd b 0) "c" && Ascii.eqb (rd b 1) "d" && Ascii.eqb (rd b 2) " " = true
  /\ strcmp0 (cstr b 0) "" = false /\ Ascii.eqb (rd b 0) "#" = false
  /\ strcmp0 (cstr b 0) "exit" = false /\ strcmp0 (cstr b 0) "cd" = false.
Proof.
  unfold classify.
  destruct (strcmp0 (cstr b 0) ""); [done|].
  destruct (Ascii.eqb (rd b 0) "#"); [done|].
  destruct (strcmp0 (cstr b 0) "exit"); [done|].
  destruct (strcmp0 (cstr b 0) "cd"); [done|].
  destruct (Ascii.eqb (rd b 0) "c" && Ascii.eqb (rd b 1) "d" && Ascii.eqb (rd b 2) " ");
    [done|].
  destruct (strcmp0 (cstr b 0) "status"); [done|].
  by destruct (negb (ContainsString (cstr b 0) "&" =? 0)).
Qed.

(** X10: a line that starts with [cd] and a space makes the shell call
    [chdir] with the second token of the line, or with a null pointer when
    the line has no second token or has a marker there; the first token is
    [cd]; nothing is launched or printed and the status is left alone. *)
Theorem cd_takes_second_token w home sh :
  classify (userInput sh) = CdPath ->
  exists st,
    process_line w home sh
    = Some (Return (Shell (statusNumber sh) (errMsg sh) st (sh_fds sh),
                    [Chdir (tokenizer_spec (cstr (userInput sh) 0) !! 1%nat)]))
    /\ tokenizer_spec (cstr (userInput sh) 0) !! 0%nat = Some (chars "cd").
Proof.
  intros Hk. destruct (classify_CdPath _ Hk) as (Hcd & E1 & E2 & E3 & E4).
  unfold process_line. rewrite E1, E2, E3, E4, Hcd.
  destruct (ParseUserInputToArgs_spec (sh_tok sh) 0
              (InitializeArgsArray (replicate MAX_ARGS None)) args_array_length)
    as (st & argArr & -> & Hout).
  fold (userInput sh) in Hout.
  destruct (cd_prefix _ Hcd) as [b3 Hline].
  assert (Htok : exists r, tokenizer_spec (cstr (userInput sh) 0) = chars "cd" :: r).
  { unfold tokenizer_spec. rewrite Hline, space_split_word_cons.
    - cbn [take_until]. change (is_marker (chars "cd")) with false. cbv iota.
      change (MAX_ARGS - 1)%nat with (S 511). rewrite firstn_cons. by eexists.
    - split; [done|]. repeat constructor; discriminate. }
  destruct Htok as [r Htok]. rewrite Htok in Hout |- *.
  exists st. cbn [mbind option_bind]. split; [|done].
  by rewrite (argv_strings_second _ _ _ _ Hout).
Qed.

Lemma cd_takes_second_token_witness :
  exists st,
    process_line (os_runs 4923 (Exited 0)) None (shell_at initial_shell "cd /tmp x")
    = Some (Return (Shell 0 (errMsg initial_shell) st std_fds,
                    [Chdir (Some (chars "/tmp"))])).
Proof.
  destruct (cd_takes_second_token (os_runs 4923 (Exited 0)) None
              (shell_at initial_shell "cd /tmp x")) as (st & E & _).
  - vm_compute. reflexivity.
  - exists st. rewrite E. do 5 f_equal.
Defined.

(** ** Status after a command *)

Lemma signal_message_fits sig :
  1 <= sig <= 126 ->
  (length (chars "terminated by signal " ++ decimal sig) < MAX_ERR_MSG_LENGTH)%nat
  /\ Forall (fun c => c <> NUL) (chars "terminated by signal " ++ decimal sig).
Proof.
  intros H. destruct (decimal_small sig) as (Hl & _); [lia|].
  split; [length_lia | nonnul_string].
Qed.

Lemma render_status_message sh m :
  cstr (errMsg sh) 0 = m -> m <> [] -> render_status sh = m ++ [NL].
Proof.
  intros H Hm. unfold render_status. rewrite H.
  assert (strcmp0 m "" = false) as ->; [|done].
  apply not_true_is_false. by rewrite strcmp0_true.
Qed.

Lemma render_status_number sh :
  cstr (errMsg sh) 0 = [] ->
  render_status sh = chars "exit value " ++ decimal (statusNumber sh) ++ [NL].
Proof. intros H. unfold render_status. by rewrite H. Qed.

Lemma RunForeGroundCommand_plain w st userCommand errMsg (fds : fd_table) rs em l :
  let line := cstr (mem st) userCommand in
  ContainsString line ">" = 0 ->
  ContainsString line "<" = 0 ->
  fds !! (-1) = None ->
  RunForeGroundCommand w st userCommand errMsg fds = Some (Return (rs, em, l)) ->
  l_child l = child_exec w (tokenizer_spec line) fds /\ l_fds l = fds.
Proof.
  intros line Ho Hi Hneg.
  unfold RunForeGroundCommand. fold line. rewrite Ho, Hi. cbn [Z.eqb Pos.eqb].
  cbn [mbind option_bind].
  destruct (ParseUserInputToArgs_spec st userCommand
              (InitializeArgsArray (replicate MAX_ARGS None)) args_array_length)
    as (st3 & argv & -> & Hs).
  cbn [mbind option_bind]. fold line in Hs. rewrite Hs.
  destruct (os_fork w) as [pid|]; [|done].
  unfold foreground_child. cbn [Z.eqb negb andb]. unfold close.
  rewrite delete_id by done.
  destruct (WIFSIGNALED _); by intros [= _ _ <-].
Qed.

(** X11: what a status query prints after a line that ran as a foreground
    command, with [fork] succeeding.  The line is launched, and the child
    that became a program ends as that program does; a line without
    redirection starts the program named by its tokens on the descriptors
    of the shell.  When the launcher's [waitpid] reaps the child, a status
    query then prints [exit value C] for an exit with code C and
    [terminated by signal N] for a death by signal N.  When [waitpid]
    fails, as it does when the handler of [main] has reaped the child
    before, a status query prints [exit value 0] however the child ended.
    Once a status query has been answered the next one prints
    [exit value 0]. *)
Theorem status_after_foreground w home sh pid :
  let line := cstr (userInput sh) 0 in
  let argv := tokenizer_spec line in
  classify (userInput sh) = ForegroundCmd ->
  os_fork w = Some pid ->
  exists sh' child out,
    process_line w home sh = Some (Return (sh', [Spawned false child; Printed out]))
    /\ (forall a t, ch_image child = Some (a, t) ->
          os_execvp w (head a) a t = Some (ch_end child))
    /\ (ContainsString line ">" = 0 -> ContainsString line "<" = 0 ->
        sh_fds sh !! (-1) = None ->
        forall e, os_execvp w (head argv) argv (sh_fds sh) = Some e ->
          child = ChildRun [] (Some (argv, sh_fds sh)) e)
    /\ match os_waitpid w with
       | WaitReaped =>
           match ch_end child with
           | Exited code =>
               0 <= code <= 255 ->
               render_status sh' = chars "exit value " ++ decimal code ++ [NL]
           | Signaled sig _ =>
               1 <= sig <= 126 ->
               render_status sh' = chars "terminated by signal " ++ decimal sig ++ [NL]
           end
       | WaitFailed _ => render_status sh' = chars "exit value 0" ++ [NL]
       end
    /\ render_status (clear_status sh') = chars "exit value 0" ++ [NL].
Proof.
  intros line argv Hk Hfork. rewrite process_line_foreground by done.
  destruct (foreground_decode w (sh_tok sh) 0 (strncpy (errMsg sh) [] MAX_ERR_MSG_LENGTH)
              (sh_fds sh) pid Hfork) as (rs & em & l & E & Himg & Hdec).
  rewrite E. cbn [mbind option_bind]. eexists _, _, _. split; [done|].
  split; [exact Himg|]. split; [|split].
  - intros Ho Hi Hneg e He.
    destruct (RunForeGroundCommand_plain _ _ _ _ _ _ _ _ Ho Hi Hneg E) as [-> _].
    unfold child_exec. change (cstr (mem (sh_tok sh)) 0) with line. fold argv.
    by rewrite He.
  - destruct (os_waitpid w) as [|b].
    + destruct (ch_end (l_child l)) as [code|sig core].
      * intros Hc. destruct (Hdec Hc) as (-> & -> & _).
        rewrite render_status_number; [done|]. apply cstr_strncpy_empty.
      * intros Hs. destruct (Hdec Hs) as (_ & Hem).
        destruct (signal_message_fits sig Hs) as [Hl Hn].
        rewrite (render_status_message _ (chars "terminated by signal " ++ decimal sig)).
        -- by rewrite <- app_assoc.
        -- exact Hem.
        -- done.
    + destruct Hdec as (-> & -> & _).
      rewrite render_status_number; [done|]. apply cstr_strncpy_empty.
  - apply render_status_number. apply cstr_strncpy_empty.
Qed.

Lemma status_after_foreground_witness :
  exists sh' out,
    process_line (os_runs_handler_first 4923 (Exited 42)) None
      (shell_at initial_shell "prog")
    = Some (Return (sh', [Spawned false
                            (ChildRun [] (Some ([chars "prog"], std_fds)) (Exited 42));
                          Printed out]))
    /\ render_status sh' = chars "exit value 0" ++ [NL].
Proof.
  destruct (status_after_foreground (os_runs_handler_first 4923 (Exited 42)) None
              (shell_at initial_shell "prog") 4923)
    as (sh' & child & out & E & _ & Hchild & Hst & _).
  - vm_compute. reflexivity.
  - reflexivity.
  - exists sh', out. split; [|exact Hst].
    rewrite E. do 5 f_equal.
    apply Hchild; vm_compute; reflexivity.
Defined.

(** X12: a line that is run as a background command, with [fork]
    returning [pid], makes the shell print [background pid is] and the
    process id and go on at once, with the status reset; what the child
    does has no part in it. *)
Theorem background_launch_notice w home sh pid :
  classify (userInput sh) = BackgroundCmd ->
  os_fork w = Some pid -> 0 < pid < 10 ^ 9 ->
  exists sh' child,
    process_line w home sh
    = Some (Return (sh', [Spawned true child;
                          Printed (chars "background pid is " ++ decimal pid ++ [NL])]))
    /\ status_clear sh'.
Proof.
  intros Hk Hfork Hpid. rewrite process_line_background by done.
  destruct (RunBackGroundCommand_shape w (sh_tok sh) 0 (sh_fds sh))
    as (st' & fn & fd & fds' & argv & Hbg).
  rewrite (Hbg w eq_refl), Hfork. cbn [mbind option_bind l_tok l_fds l_child l_output].
  destruct (decimal_pid pid Hpid) as [_ ->].
  eexists _, _. split; [done|]. split; [done|]. apply cstr_strncpy_empty.
Qed.

Lemma background_launch_notice_witness :
  exists sh' child,
    process_line (os_no_program 4923) None (shell_at initial_shell "sleep 5 &")
    = Some (Return (sh', [Spawned true child;
                          Printed (chars "background pid is 4923" ++ [NL])])).
Proof.
  destruct (background_launch_notice (os_no_program 4923) None
              (shell_at initial_shell "sleep 5 &") 4923) as (sh' & child & E & _).
  - vm_compute. reflexivity.
  - reflexivity.
  - lia.
  - exists sh', child. exact E.
Defined.

(** ** The message arrays are large enough *)

Lemma decimal_nonnul_all n : Forall (fun c => c <> NUL) (decimal n).
Proof.
  unfold decimal. destruct (n <? 0); [|apply digits_nonnul].
  apply Forall_cons. split; [discriminate | apply digits_nonnul].
Qed.

Lemma snprintf_d_nonnul size n : Forall (fun c => c <> NUL) (snprintf_d size n).
Proof. unfold snprintf_d. apply Forall_take, decimal_nonnul_all. Qed.

Lemma snprintf_d_length size n : (length (snprintf_d size n) <= size - 1)%nat.
Proof. unfold snprintf_d. rewrite length_take. lia. Qed.

#[local] Hint Extern 1 (Forall _ (snprintf_d _ _)) => apply snprintf_d_nonnul : nonnul.

(** X13: whatever process id and status word [waitpid] hands to the
    handler, and whatever status word the foreground wait returns, the
    message that is put together is at most 66 bytes long (30 for the
    foreground message): every [strcat] stays inside the 80 bytes of the
    array, and the array holds the whole text followed by zeros. *)
Theorem messages_fit_their_arrays (childPid status : Z) :
  let tail :=
    if WIFSIGNALED status
    then chars "terminated by signal " ++ snprintf_d 10 (WTERMSIG status) ++ [NL]
    else chars "exit value " ++ snprintf_d 5 (WEXITSTATUS status) ++ [NL] in
  let text :=
    (NL :: chars "background pid ") ++ snprintf_d 10 childPid
    ++ chars " is done: " ++ tail in
  let fg := chars "terminated by signal " ++ snprintf_d 10 (WTERMSIG status) in
  childTerminateMsg childPid status = padded MAX_ERR_MSG_LENGTH text
  /\ (length text <= 66)%nat
  /\ terminated_by_signal (WTERMSIG status) = padded MAX_ERR_MSG_LENGTH fg
  /\ (length fg <= 30)%nat.
Proof.
  intros tail text fg.
  pose proof (snprintf_d_length 10 childPid) as Hp.
  pose proof (snprintf_d_length 10 (WTERMSIG status)) as Hs.
  pose proof (snprintf_d_length 5 (WEXITSTATUS status)) as He.
  split; [|split; [|split]].
  - unfold childTerminateMsg, text, tail.
    rewrite strncpy_padded by length_lia.
    rewrite strcat_padded by (nonnul_string || length_lia).
    rewrite strcat_padded by (nonnul_string || length_lia).
    destruct (WIFSIGNALED status).
    + rewrite strcat_padded by (nonnul_string || length_lia).
      rewrite strcat_padded by (nonnul_string || length_lia).
      rewrite strcat_padded by (nonnul_string || length_lia).
      f_equal. by rewrite <- !app_assoc.
    + rewrite strcat_padded by (nonnul_string || length_lia).
      rewrite strcat_padded by (nonnul_string || length_lia).
      rewrite strcat_padded by (nonnul_string || length_lia).
      f_equal. by rewrite <- !app_assoc.
  - unfold text, tail. destruct (WIFSIGNALED status); length_lia.
  - unfold terminated_by_signal, fg.
    rewrite strncpy_padded by length_lia.
    by rewrite strcat_padded by (nonnul_string || length_lia).
  - unfold fg. length_lia.
Qed.

(** ** Descriptors *)

Lemma find_free_spec fuel : forall n (t : fd_table),
  n <= find_free fuel n t
  /\ (forall k, n <= k < find_free fuel n t -> is_Some (t !! k))
  /\ (t !! find_free fuel n t = None \/ find_free fuel n t = n + Z.of_nat fuel).
Proof.
  induction fuel as [|fuel IH]; intros n t; cbn [find_free].
  - split; [lia|]. split; [intros; lia|]. right. lia.
  - destruct (t !! n) as [x|] eqn:E.
    + destruct (IH (n + 1) t) as (H1 & H2 & H3).
      split; [lia|]. split.
      * intros k Hk. destruct (decide (k = n)) as [->|Hne]; [by rewrite E|].
        apply H2. lia.
      * destruct H3 as [H3|H3]; [by left|right; lia].
    + split; [lia|]. split; [intros; lia|]. by left.
Qed.

(** The descriptor [open] picks is not in use. *)
Lemma find_free_fresh (t : fd_table) : t !! find_free (size t) 0 t = None.
Proof.
  destruct (find_free_spec (size t) 0 t) as (H1 & H2 & [H3|H3]); [done|].
  destruct (t !! find_free (size t) 0 t) as [x|] eqn:E; [|done]. exfalso.
  set (ks := seqZ 0 (Z.of_nat (S (size t)))).
  assert (ks ⊆+ elements (dom t)) as Hsub.
  { apply NoDup_submseteq; [apply NoDup_seqZ|].
    intros k Hk. apply elem_of_seqZ in Hk.
    apply elem_of_elements, elem_of_dom.
    destruct (decide (k = find_free (size t) 0 t)) as [->|Hne]; [by rewrite E|].
    apply H2. lia. }
  apply submseteq_length in Hsub.
  unfold ks in Hsub. rewrite length_seqZ in Hsub.
  change (length (elements (dom t))) with (size (dom t)) in Hsub.
  rewrite size_dom in Hsub. lia.
Qed.

Lemma sys_open_spec w (t : fd_table) path flags fd t' :
  sys_open w t path flags = (fd, t') ->
  (os_can_open w path flags = true /\ t !! fd = None
   /\ t' = <[fd := OpenFile path flags]> t)
  \/ (os_can_open w path flags = false /\ fd = -1 /\ t' = t).
Proof.
  unfold sys_open. destruct (os_can_open w path flags).
  - intros [= <- <-]. left. split; [done|]. split; [apply find_free_fresh|done].
  - intros [= <- <-]. by right.
Qed.

(** ** What a scan leaves of the line *)

Lemma span_len_and_le f g s :
  (span_len (fun c => f c && g c) s <= span_len f s)%nat.
Proof.
  induction s as [|c s IH]; cbn [span_len]; [lia|].
  destruct (f c); cbn [andb]; [|lia]. destruct (g c); lia.
Qed.

Lemma span_len_drop f s k :
  (k <= span_len f s)%nat -> span_len f (drop k s) = (span_len f s - k)%nat.
Proof.
  revert k. induction s as [|c s IH]; intros k Hk; cbn [span_len] in *.
  - by rewrite drop_nil.
  - destruct k as [|k]; [by rewrite Nat.sub_0_r|]. cbn [span_len skipn].
    destruct (f c); [|lia]. rewrite IH by lia. lia.
Qed.

Lemma take_plus (s : list ascii) : forall k1 k,
  take (k1 + k) s = take k1 s ++ take k (drop k1 s).
Proof.
  induction s as [|c s IH]; intros k1 k.
  - by rewrite drop_nil, !take_nil.
  - destruct k1 as [|k1]; [done|]. cbn [Nat.add take skipn firstn app]. by rewrite IH.
Qed.

Lemma space_split_spaces_word l t :
  Forall (fun c => c = SP) l -> is_word t -> space_split (l ++ t) = [t].
Proof.
  induction 1 as [|c l -> _ IH]; intros Ht; simpl.
  - by apply space_split_word.
  - rewrite space_split_sp. by apply IH.
Qed.

(** The bytes from the start of the line to the end of its first token:
    spaces, then a word. *)
Lemma first_token_shape s :
  let k1 := strspn s 0 [SP] in
  let k := strcspn (drop k1 s) 0 [SP] in
  rd s k1 <> NUL ->
  (k1 + k <= strlen s 0)%nat
  /\ Forall (fun c => c = SP) (take k1 s)
  /\ is_word (take k (drop k1 s))
  /\ take (k1 + k) s = take k1 s ++ take k (drop k1 s).
Proof.
  intros k1 k Hr.
  assert (Hk1 : (k1 <= strlen s 0)%nat).
  { unfold k1, strspn, strlen. rewrite drop_0. apply span_len_and_le. }
  assert (Hk : (k <= strlen (drop k1 s) 0)%nat) by apply strcspn_le_strlen.
  assert (Hd : strlen (drop k1 s) 0 = (strlen s 0 - k1)%nat).
  { unfold strlen in *. rewrite !drop_0 in *. by apply span_len_drop. }
  split; [lia|]. split; [|split].
  - eapply Forall_impl.
    + apply (span_len_all (fun c => nonnul c && in_delim [SP] c)).
      unfold k1, strspn. by rewrite drop_0.
    + intros c Hc. apply andb_true_iff in Hc as [_ Hc].
      rewrite in_delim_SP in Hc. by apply Ascii.eqb_eq in Hc.
  - assert (Hall : Forall (fun c => nonnul c && negb (in_delim [SP] c) = true)
                     (take k (drop k1 s))).
    { apply span_len_all. unfold k, strcspn. by rewrite drop_0. }
    split.
    + (* the byte the spaces stop at is neither zero nor a space *)
      pose proof (rd_lookup _ _ Hr) as Hl.
      assert (Hstop : (nonnul (rd s k1) && in_delim [SP] (rd s k1)) = false).
      { apply (span_len_stop (fun c => nonnul c && in_delim [SP] c) s).
        unfold k1, strspn in *. rewrite drop_0 in *. by eapply lookup_lt_Some. }
      apply nonnul_true in Hr. rewrite Hr in Hstop. cbn [andb] in Hstop.
      rewrite (drop_S _ _ _ Hl). unfold k, strcspn. rewrite drop_0.
      rewrite (drop_S _ _ _ Hl). cbn [span_len]. rewrite Hr, Hstop. done.
    + eapply Forall_impl; [exact Hall|]. intros c Hc.
      apply andb_true_iff in Hc as [Hn Hs]. split.
      * rewrite in_delim_SP in Hs. apply negb_true_iff in Hs.
        by apply Ascii.eqb_neq in Hs.
      * by apply nonnul_true.
  - apply take_plus.
Qed.

Lemma strtok_None_mem s st st1 :
  strtok s [SP] st = (None, st1) -> mem st1 = mem st.
Proof.
  unfold strtok.
  destruct (Ascii.eqb (rd _ _) NUL); [by intros [= <-]|].
  destruct (Ascii.eqb (rd _ _) NUL); [by intros [= <-]|].
  by destruct (Ascii.eqb (rd _ _) NUL).
Qed.

(** After the first call of [strtok] on a line, the string at the start of
    the line is cut behind its first token. *)
Lemma strtok_first_cut st userCommand q st1 :
  strtok (Some userCommand) [SP] st = (Some q, st1) ->
  space_split (cstr (mem st1) userCommand) = [cstr (mem st1) q]
  /\ (userCommand + strlen (mem st1) userCommand <= save st1)%nat.
Proof.
  unfold strtok. set (b := mem st). set (uc := userCommand).
  destruct (Ascii.eqb (rd b uc) NUL) eqn:E0; [done|].
  set (s := drop uc b).
  assert (Hk1 : strspn b uc [SP] = strspn s 0 [SP]) by apply strspn_drop.
  rewrite Hk1. set (k1 := strspn s 0 [SP]).
  destruct (Ascii.eqb (rd b (uc + k1)) NUL) eqn:E1; [done|].
  assert (Hk : strcspn b (uc + k1) [SP] = strcspn (drop k1 s) 0 [SP]).
  { rewrite strcspn_drop. unfold s. by rewrite drop_drop. }
  rewrite Hk. set (k := strcspn (drop k1 s) 0 [SP]).
  apply Ascii.eqb_neq in E1.
  destruct (first_token_shape s) as (Hle & Hsp & Hw & Htake).
  { unfold s. by rewrite rd_drop. }
  fold k1 in Hle, Hsp, Hw, Htake. fold k in Hle, Hw, Htake.
  assert (Hcut : forall b', cstr b' uc = take (k1 + k) s ->
            cstr b' (uc + k1) = take k (drop k1 s) ->
            space_split (cstr b' uc) = [cstr b' (uc + k1)]
            /\ (uc + strlen b' uc <= uc + k1 + k)%nat).
  { intros b' H1 H2. rewrite H2. split.
    - rewrite H1, Htake. by apply space_split_spaces_word.
    - rewrite <- cstr_length, H1, length_take. lia. }
  destruct (Ascii.eqb (rd b (uc + k1 + k)) NUL) eqn:E2.
  - intros [= <- <-]. cbn [mem save]. fold b.
    apply Ascii.eqb_eq in E2. apply Hcut.
    + rewrite cstr_drop. fold s. apply cstr0_stop; [done|].
      unfold s. rewrite rd_drop. by rewrite Nat.add_assoc.
    + rewrite cstr_drop. unfold s in *. rewrite <- drop_drop.
      apply cstr0_stop; [apply strcspn_le_strlen|].
      rewrite drop_drop, rd_drop. exact E2.
  - intros [= <- <-]. cbn [mem save]. fold b.
    apply Ascii.eqb_neq in E2.
    pose proof (rd_lookup _ _ E2) as Hl. apply lookup_lt_Some in Hl.
    destruct (Hcut (wr b (uc + k1 + k) NUL)) as [H1 H2].
    + rewrite cstr_drop. unfold wr. rewrite drop_insert_ge by lia. fold s.
      replace (uc + k1 + k - uc)%nat with (k1 + k)%nat by lia.
      apply cstr0_insert_cut; [done|]. unfold s. rewrite length_drop. lia.
    + rewrite cstr_drop. unfold wr. rewrite drop_insert_ge by lia.
      replace (uc + k1 + k - (uc + k1))%nat with k by lia.
      unfold s. rewrite <- drop_drop.
      apply cstr0_insert_cut; [apply strcspn_le_strlen|].
      rewrite !length_drop. lia.
    + split; [done|]. lia.
Qed.

Lemma strtok_keeps st cur st1 p :
  strtok None [SP] st = (cur, st1) ->
  (p + strlen (mem st) p <= save st)%nat ->
  cstr (mem st1) p = cstr (mem st) p /\ (p + strlen (mem st1) p <= save st1)%nat.
Proof.
  intros E Hp. pose proof (strtok_spec None st cur st1 E) as (Hsv & Hpres & _).
  simpl in Hsv. specialize (Hpres p Hp). split; [done|].
  rewrite <- cstr_length, Hpres, cstr_length. lia.
Qed.

Lemma GetFileName_loop_keeps fuel : forall st cur n pos arr st' pos' arr' p,
  GetFileName_loop fuel st cur n pos arr = Some (st', pos', arr') ->
  (p + strlen (mem st) p <= save st)%nat ->
  cstr (mem st') p = cstr (mem st) p.
Proof.
  induction fuel as [|fuel IH]; intros st cur n pos arr st' pos' arr' p;
    cbn [GetFileName_loop]; destruct cur as [t|]; try by intros [= <- _ _].
  - destruct (strtok None [SP] st) as [cur1 st1] eqn:E.
    destruct (S n =? MAX_ARGS - 1)%nat; [|done].
    intros [= <- _ _] Hp. by apply (strtok_keeps st cur1 st1 p E).
  - destruct (strtok None [SP] st) as [cur1 st1] eqn:E.
    destruct (S n =? MAX_ARGS - 1)%nat.
    + intros [= <- _ _] Hp. by apply (strtok_keeps st cur1 st1 p E).
    + intros H Hp. destruct (strtok_keeps st cur1 st1 p E Hp) as [H1 H2].
      rewrite <- H1. by eapply IH.
Qed.

(** What the line reads as once [GetFileName] has scanned it: its first
    token, and nothing else. *)
Lemma GetFileName_cuts st userCommand returnValue st' returnValue' :
  let line := cstr (mem st) userCommand in
  ContainsString line "<" = 1 \/ ContainsString line ">" = 1 ->
  GetFileName st userCommand returnValue = Some (st', returnValue') ->
  space_split (cstr (mem st') userCommand) = take 1 (space_split line).
Proof.
  intros line Hc. unfold GetFileName, GetFileName_scan. fold line.
  assert ((ContainsString line "<" =? 0) && (ContainsString line ">" =? 0) = false) as ->.
  { destruct Hc as [-> | ->]; [done|]. by rewrite andb_false_r. }
  destruct (strtok (Some userCommand) [SP] st) as [cur st1] eqn:Etok.
  pose proof (strtok_spec _ _ _ _ Etok) as (_ & _ & Hsplit).
  fold line in Hsplit.
  destruct (GetFileName_loop _ _ _ _ _ _) as [[[st2 pos] arr]|] eqn:El; [|done].
  intros H. assert (st' = st2) as ->
    by (destruct (arr !! (pos + 1)%nat) as [[p|]|]; congruence).
  destruct cur as [q|].
  - destruct (strtok_first_cut _ _ _ _ Etok) as [Hcut Hend].
    destruct Hsplit as [-> _]. cbn [take firstn].
    rewrite (GetFileName_loop_keeps _ _ _ _ _ _ _ _ _ _ El Hend). done.
  - rewrite Hsplit. cbn [GetFileName_loop] in El. injection El as <- _ _.
    rewrite (strtok_None_mem _ _ _ Etok). fold line. by rewrite Hsplit.
Qed.

Lemma GetFileName_none st userCommand returnValue :
  ContainsString (cstr (mem st) userCommand) "<" = 0 ->
  ContainsString (cstr (mem st) userCommand) ">" = 0 ->
  GetFileName st userCommand returnValue = Some (st, returnValue).
Proof.
  intros H1 H2. unfold GetFileName.
  by rewrite (GetFileName_scan_none st userCommand H1 H2).
Qed.

(** On a line that is already cut behind its first token, [GetFileName]
    changes neither the file name nor what the line reads as. *)
Lemma GetFileName_after_cut st userCommand r st' r' :
  (length (space_split (cstr (mem st) userCommand)) <= 1)%nat ->
  GetFileName st userCommand r = Some (st', r') ->
  r' = r
  /\ space_split (cstr (mem st') userCommand) = space_split (cstr (mem st) userCommand).
Proof.
  intros Hlen H.
  set (line := cstr (mem st) userCommand) in *.
  destruct (ContainsString_01 line "<") as [H1|H1];
    destruct (ContainsString_01 line ">") as [H2|H2].
  1:{ rewrite GetFileName_none in H by done. by injection H as <- <-. }
  all: assert (Hc : ContainsString line "<" = 1 \/ ContainsString line ">" = 1) by auto.
  all: pose proof (GetFileName_cuts st userCommand r st' r' Hc H) as Hcut.
  all: destruct (GetFileName_spec st userCommand r Hc) as (st2 & E).
  all: rewrite E in H; injection H as <- <-.
  all: fold line in Hcut |- *.
  all: split; [|by rewrite Hcut, take_ge by lia].
  all: rewrite lookup_ge_None_2; [done|].
  all: rewrite length_take; lia.
Qed.

(** X14: a second invocation of [GetFileName] on the buffer the first one
    has scanned never changes the file name: the line now ends behind its
    first token, so there is no token behind any marker left. *)
Theorem GetFileName_second_call st userCommand returnValue st1 r1 :
  GetFileName st userCommand returnValue = Some (st1, r1) ->
  exists st2, GetFileName st1 userCommand r1 = Some (st2, r1).
Proof.
  intros H.
  destruct (GetFileName_total st1 userCommand r1) as [[st2 r2] E].
  exists st2. rewrite E. do 2 f_equal.
  set (line := cstr (mem st) userCommand) in *.
  destruct (ContainsString_01 line "<") as [H1|H1];
    destruct (ContainsString_01 line ">") as [H2|H2].
  1:{ rewrite GetFileName_none in H by done. injection H as <- <-.
      rewrite GetFileName_none in E by done. by injection E as _ <-. }
  all: assert (Hc : ContainsString line "<" = 1 \/ ContainsString line ">" = 1) by auto.
  all: pose proof (GetFileName_cuts st userCommand returnValue st1 r1 Hc H) as Hcut.
  all: eapply GetFileName_after_cut; [|exact E].
  all: rewrite Hcut, length_take; lia.
Qed.

Lemma GetFileName_second_call_witness :
  exists st1 r1 st2,
    GetFileName (line_buffer "wc < junk > junk2") 0 (replicate MAX_COMMAND_LENGTH NUL)
      = Some (st1, r1)
    /\ GetFileName st1 0 r1 = Some (st2, r1)
    /\ cstr r1 0 = chars "junk2".
Proof.
  destruct (GetFileName (line_buffer "wc < junk > junk2") 0
              (replicate MAX_COMMAND_LENGTH NUL)) as [[st1 r1]|] eqn:E.
  - destruct (GetFileName_second_call _ _ _ _ _ E) as [st2 E2].
    exists st1, r1, st2. split; [reflexivity|]. split; [exact E2|].
    vm_compute in E. injection E as _ <-. vm_compute. reflexivity.
  - vm_compute in E. discriminate E.
Defined.

(** ** The launchers, step by step *)

Lemma cstr_zeros n : cstr (replicate n NUL) 0 = [].
Proof. apply cstr_nil_iff. unfold rd. by destruct n. Qed.

(** What the first effective call of [GetFileName] in a launcher leaves:
    the name in the zeroed array and the line cut behind its first token. *)
Lemma GetFileName_name st userCommand st' r' :
  let line := cstr (mem st) userCommand in
  (length line < MAX_COMMAND_LENGTH)%nat ->
  ContainsString line "<" = 1 \/ ContainsString line ">" = 1 ->
  GetFileName st userCommand (replicate MAX_COMMAND_LENGTH NUL) = Some (st', r') ->
  cstr r' 0 = redirect_name line
  /\ space_split (cstr (mem st') userCommand) = take 1 (space_split line).
Proof.
  intros line Hlen Hc H. split; [|by eapply GetFileName_cuts].
  destruct (GetFileName_spec st userCommand (replicate MAX_COMMAND_LENGTH NUL) Hc)
    as (st2 & E).
  fold line in E.
  set (seen := take (MAX_ARGS - 1) (space_split line)) in E.
  set (pos := default 0%nat (last_redir seen)) in E.
  change (redirect_name line) with (default [] (seen !! (pos + 1)%nat)).
  assert (r' = match seen !! (pos + 1)%nat with
               | Some f => strncpy (replicate MAX_COMMAND_LENGTH NUL) f MAX_COMMAND_LENGTH
               | None => replicate MAX_COMMAND_LENGTH NUL
               end) as -> by congruence.
  destruct (seen !! (pos + 1)%nat) as [f|] eqn:Ef.
  - change (default [] (Some f)) with f.
    apply list_elem_of_lookup_2 in Ef.
    assert (f ∈ space_split line) as Ef' by (eapply elem_of_sublist; [exact Ef|apply sublist_take]).
    clear Ef. rename Ef' into Ef.
    destruct (token_fits line f Ef (cstr_nonnul _ _)) as [Hl Hn].
    apply cstr_strncpy; [lia|done].
  - apply cstr_zeros.
Qed.

(** The two conditional calls of [GetFileName] that both launchers make. *)
Lemma redirect_chain st userCommand st1 fn1 st2 fn2 :
  let line := cstr (mem st) userCommand in
  let hasOut := ContainsString line ">" in
  let hasIn := ContainsString line "<" in
  let fn0 := replicate MAX_COMMAND_LENGTH NUL in
  (length line < MAX_COMMAND_LENGTH)%nat ->
  (if hasOut =? 1 then GetFileName st userCommand fn0 else Some (st, fn0)) = Some (st1, fn1) ->
  (if hasIn =? 1 then GetFileName st1 userCommand fn1 else Some (st1, fn1)) = Some (st2, fn2) ->
  (hasOut = 1 -> cstr fn1 0 = redirect_name line)
  /\ (hasOut = 1 \/ hasIn = 1 ->
      cstr fn2 0 = redirect_name line
      /\ space_split (cstr (mem st2) userCommand) = take 1 (space_split line))
  /\ (hasOut = 0 -> hasIn = 0 -> st2 = st /\ fn2 = fn0).
Proof.
  intros line hasOut hasIn fn0 Hlen G1 G2.
  destruct (ContainsString_01 line ">") as [Ho|Ho]; fold hasOut in Ho;
    rewrite Ho in G1 |- *; cbn [Z.eqb Pos.eqb] in G1.
  - injection G1 as <- <-.
    destruct (ContainsString_01 line "<") as [Hi|Hi]; fold hasIn in Hi;
      rewrite Hi in G2 |- *; cbn [Z.eqb Pos.eqb] in G2.
    + injection G2 as <- <-. split; [done|]. split; [|done]. by intros [?|?].
    + split; [done|]. split; [|done]. intros _.
      eapply GetFileName_name; [done| |exact G2]. by left.
  - destruct (GetFileName_name st userCommand st1 fn1 Hlen (or_intror Ho) G1)
      as [Hn1 Hcut1].
    split; [done|]. split; [|done]. intros _.
    destruct (hasIn =? 1).
    + destruct (GetFileName_after_cut st1 userCommand fn1 st2 fn2) as [-> Hcut2];
        [by rewrite Hcut1, length_take; lia | done |].
      split; [done|]. by rewrite Hcut2.
    + by injection G2 as <- <-.
Qed.

(** The arguments [ParseUserInputToArgs] finds behind the two calls. *)
Lemma redirect_chain_argv st userCommand st1 fn1 st2 fn2 :
  let line := cstr (mem st) userCommand in
  let hasOut := ContainsString line ">" in
  let hasIn := ContainsString line "<" in
  let fn0 := replicate MAX_COMMAND_LENGTH NUL in
  (if hasOut =? 1 then GetFileName st userCommand fn0 else Some (st, fn0)) = Some (st1, fn1) ->
  (if hasIn =? 1 then GetFileName st1 userCommand fn1 else Some (st1, fn1)) = Some (st2, fn2) ->
  tokenizer_spec (cstr (mem st2) userCommand)
  = if (hasOut =? 1) || (hasIn =? 1)
    then take_until is_marker (take 1 (space_split line))
    else tokenizer_spec line.
Proof.
  intros line hasOut hasIn fn0 G1 G2.
  assert (Hone : forall ts : list (list ascii),
             take (MAX_ARGS - 1) (take_until is_marker (take 1 ts))
             = take_until is_marker (take 1 ts)).
  { intros ts. apply take_ge.
    pose proof (sublist_length _ _ (take_until_sublist is_marker (take 1 ts))) as Hl.
    rewrite length_take in Hl. unfold MAX_ARGS. lia. }
  destruct (hasOut =? 1) eqn:Eo; cbn [orb].
  - assert (Hcut1 : space_split (cstr (mem st1) userCommand) = take 1 (space_split line)).
    { eapply GetFileName_cuts; [|exact G1]. right. by apply Z.eqb_eq. }
    assert (Hcut2 : space_split (cstr (mem st2) userCommand) = take 1 (space_split line)).
    { destruct (hasIn =? 1).
      - destruct (GetFileName_after_cut st1 userCommand fn1 st2 fn2) as [_ Hcut2];
          [by rewrite Hcut1, length_take; lia | done |].
        by rewrite Hcut2.
      - by injection G2 as <- <-. }
    unfold tokenizer_spec. rewrite Hcut2. apply Hone.
  - injection G1 as <- <-. destruct (hasIn =? 1) eqn:Ei.
    + unfold tokenizer_spec at 1.
      rewrite (GetFileName_cuts st userCommand fn0 st2 fn2); [apply Hone| |exact G2].
      left. by apply Z.eqb_eq.
    + by injection G2 as <- <-.
Qed.

Lemma open_redirect_inv w st userCommand fn fds flags st' fn' fd' fds' :
  open_redirect w st userCommand fn fds flags = Some (st', fn', fd', fds') ->
  GetFileName st userCommand fn = Some (st', fn')
  /\ sys_open w fds (cstr fn' 0) flags = (fd', fds').
Proof.
  unfold open_redirect.
  destruct (GetFileName st userCommand fn) as [[s f]|]; cbn; [|done].
  destruct (sys_open w fds (cstr f 0) flags) as [d t] eqn:E. by intros [= <- <- <- <-].
Qed.

Lemma RunForeGroundCommand_steps w st userCommand errMsg fds :
  let line := cstr (mem st) userCommand in
  let hasOut := ContainsString line ">" in
  let hasIn := ContainsString line "<" in
  let fn0 := replicate MAX_COMMAND_LENGTH NUL in
  exists st1 fn1 fd1 fds1 st2 fn2 fd2 fds2 st3 argv,
    (if hasOut =? 1 then GetFileName st userCommand fn0 else Some (st, fn0)) = Some (st1, fn1)
    /\ (if hasOut =? 1 then sys_open w fds (cstr fn1 0) O_WRONLY_TRUNC_CREAT else (-1, fds))
       = (fd1, fds1)
    /\ (if hasIn =? 1 then GetFileName st1 userCommand fn1 else Some (st1, fn1))
       = Some (st2, fn2)
    /\ (if hasIn =? 1 then sys_open w fds1 (cstr fn2 0) O_RDONLY else (fd1, fds1))
       = (fd2, fds2)
    /\ argv = tokenizer_spec (cstr (mem st2) userCommand)
    /\ RunForeGroundCommand w st userCommand errMsg fds
       = match os_fork w with
         | None => Some (Exit 1)
         | Some spawnPid =>
             Some (foreground_parent (os_waitpid w) spawnPid errMsg st3 fn2 fd2 fds2
                     (foreground_child w hasOut hasIn fd2 fn2 argv fds2))
         end.
Proof.
  intros line hasOut hasIn fn0. unfold RunForeGroundCommand.
  fold line. fold hasOut. fold hasIn. fold fn0.
  destruct (if hasOut =? 1 then open_redirect _ _ _ _ _ _ else _)
    as [[[[st1 fn1] fd1] fds1]|] eqn:E1; cycle 1.
  { destruct (hasOut =? 1); [|done].
    by destruct (open_redirect_total w st userCommand fn0 fds O_WRONLY_TRUNC_CREAT)
      as [? E]; rewrite E in E1. }
  cbn [mbind option_bind].
  destruct (if hasIn =? 1 then open_redirect _ _ _ _ _ _ else _)
    as [[[[st2 fn2] fd2] fds2]|] eqn:E2; cycle 1.
  { destruct (hasIn =? 1); [|done].
    by destruct (open_redirect_total w st1 userCommand fn1 fds1 O_RDONLY)
      as [? E]; rewrite E in E2. }
  cbn [mbind option_bind].
  destruct (ParseUserInputToArgs_spec st2 userCommand
              (InitializeArgsArray (replicate MAX_ARGS None)) args_array_length)
    as (st3 & argv & -> & Hargv).
  cbn [mbind option_bind].
  exists st1, fn1, fd1, fds1, st2, fn2, fd2, fds2, st3, (argv_strings (mem st3) argv).
  assert (G1 : (if hasOut =? 1 then GetFileName st userCommand fn0 else Some (st, fn0))
               = Some (st1, fn1)
               /\ (if hasOut =? 1 then sys_open w fds (cstr fn1 0) O_WRONLY_TRUNC_CREAT
                   else (-1, fds)) = (fd1, fds1)).
  { destruct (hasOut =? 1).
    - by apply open_redirect_inv in E1.
    - by injection E1 as <- <- <- <-. }
  assert (G2 : (if hasIn =? 1 then GetFileName st1 userCommand fn1 else Some (st1, fn1))
               = Some (st2, fn2)
               /\ (if hasIn =? 1 then sys_open w fds1 (cstr fn2 0) O_RDONLY
                   else (fd1, fds1)) = (fd2, fds2)).
  { destruct (hasIn =? 1).
    - by apply open_redirect_inv in E2.
    - by injection E2 as <- <- <- <-. }
  destruct G1 as [G1 O1], G2 as [G2 O2].
  repeat (split; [done|]).
  destruct (os_fork w); [|done]. unfold foreground_parent.
  by destruct (WIFSIGNALED _).
Qed.

Lemma RunBackGroundCommand_steps w st userCommand fds :
  let line := cstr (mem st) userCommand in
  let hasOut := ContainsString line ">" in
  let hasIn := ContainsString line "<" in
  let fn0 := replicate MAX_COMMAND_LENGTH NUL in
  exists st1 fn1 fd1 fds1 st2 fn2 fd2 fds2 st3 argv,
    (if hasOut =? 1 then GetFileName st userCommand fn0 else Some (st, fn0)) = Some (st1, fn1)
    /\ (if hasOut =? 1 then sys_open w fds (cstr fn1 0) O_WRONLY_TRUNC_CREAT else (-1, fds))
       = (fd1, fds1)
    /\ (if hasIn =? 1 then GetFileName st1 userCommand fn1 else Some (st1, fn1))
       = Some (st2, fn2)
    /\ (if hasIn =? 1 then sys_open w fds1 (cstr fn2 0) O_RDONLY
        else sys_open w fds1 (chars "/dev/null") O_RDONLY)
       = (fd2, fds2)
    /\ argv = tokenizer_spec (cstr (mem st2) userCommand)
    /\ RunBackGroundCommand w st userCommand fds
       = match os_fork w with
         | None => Some (Exit 1)
         | Some spawnPid =>
             Some (Return (0,
                     Launched (chars "background pid is " ++ snprintf_d 10 spawnPid ++ [NL])
                       st3 (close fds2 fd2) fn2
                       (background_child w hasOut fd2 fn2 argv fds2)))
         end.
Proof.
  intros line hasOut hasIn fn0. unfold RunBackGroundCommand.
  fold line. fold hasOut. fold hasIn. fold fn0.
  destruct (if hasOut =? 1 then open_redirect _ _ _ _ _ _ else _)
    as [[[[st1 fn1] fd1] fds1]|] eqn:E1; cycle 1.
  { destruct (hasOut =? 1); [|done].
    by destruct (open_redirect_total w st userCommand fn0 fds O_WRONLY_TRUNC_CREAT)
      as [? E]; rewrite E in E1. }
  cbn [mbind option_bind].
  destruct (if hasIn =? 1 then open_redirect _ _ _ _ _ _ else _)
    as [[[[st2 fn2] fd2] fds2]|] eqn:E2; cycle 1.
  { destruct (hasIn =? 1).
    - by destruct (open_redirect_total w st1 userCommand fn1 fds1 O_RDONLY)
        as [? E]; rewrite E in E2.
    - by destruct (sys_open w fds1 (chars "/dev/null") O_RDONLY). }
  cbn [mbind option_bind].
  destruct (ParseUserInputToArgs_spec st2 userCommand
              (InitializeArgsArray (replicate MAX_ARGS None)) args_array_length)
    as (st3 & argv & -> & Hargv).
  cbn [mbind option_bind].
  exists st1, fn1, fd1, fds1, st2, fn2, fd2, fds2, st3, (argv_strings (mem st3) argv).
  assert (G1 : (if hasOut =? 1 then GetFileName st userCommand fn0 else Some (st, fn0))
               = Some (st1, fn1)
               /\ (if hasOut =? 1 then sys_open w fds (cstr fn1 0) O_WRONLY_TRUNC_CREAT
                   else (-1, fds)) = (fd1, fds1)).
  { destruct (hasOut =? 1).
    - by apply open_redirect_inv in E1.
    - by injection E1 as <- <- <- <-. }
  assert (G2 : (if hasIn =? 1 then GetFileName st1 userCommand fn1 else Some (st1, fn1))
               = Some (st2, fn2)
               /\ (if hasIn =? 1 then sys_open w fds1 (cstr fn2 0) O_RDONLY
                   else sys_open w fds1 (chars "/dev/null") O_RDONLY) = (fd2, fds2)).
  { destruct (hasIn =? 1).
    - by apply open_redirect_inv in E2.
    - destruct (sys_open w fds1 (chars "/dev/null") O_RDONLY) as [d t].
      by injection E2 as <- <- <- <-. }
  destruct G1 as [G1 O1], G2 as [G2 O2].
  repeat (split; [done|]).
  by destruct (os_fork w).
Qed.

Lemma foreground_parent_launch r pid errMsg st fn fd fds child :
  exists rs em out,
    foreground_parent r pid errMsg st fn fd fds child
    = Return (rs, em, Launched out st (close fds fd) fn child).
Proof. unfold foreground_parent. destruct (WIFSIGNALED _); by eexists _, _, _. Qed.

Lemma child_exec_image_eq w argv fds a t :
  ch_image (child_exec w argv fds) = Some (a, t) -> a = argv /\ t = fds.
Proof.
  unfold child_exec. destruct (os_execvp _ _ _ _); cbn [ch_image child_exit]; [|done].
  by intros [= <- <-].
Qed.

Lemma foreground_child_argv w ho hi fd fn argv fds a t :
  ch_image (foreground_child w ho hi fd fn argv fds) = Some (a, t) -> a = argv.
Proof.
  unfold foreground_child.
  destruct (if ho =? 0 then _ else _) as [r1 fds1].
  destruct (negb (ho =? 0) && (r1 <? 0)); [done|].
  destruct (if hi =? 0 then _ else _) as [r2 fds2].
  destruct (negb (hi =? 0) && (r2 <? 0)); [done|].
  intros H. by apply child_exec_image_eq in H as [-> _].
Qed.

Lemma background_child_argv w ho fd fn argv fds a t :
  ch_image (background_child w ho fd fn argv fds) = Some (a, t) -> a = argv.
Proof.
  unfold background_child.
  destruct (if ho =? 0 then _ else _) as [r1 fds1].
  destruct (negb (ho =? 0) && (r1 <? 0)); [done|].
  destruct (dup2 fds1 fd 0) as [r2 fds2].
  destruct (r2 <? 0); [done|].
  intros H. by apply child_exec_image_eq in H as [-> _].
Qed.

(** X15: when the line holds [<] or [>] anywhere, both launchers run
    [GetFileName] before [ParseUserInputToArgs], and the program they start
    is given the first token of the line at most: every argument behind it
    is lost.  With [fork] succeeding, both launchers return. *)
Theorem launchers_drop_arguments w st userCommand errMsg fds pid :
  let line := cstr (mem st) userCommand in
  os_fork w = Some pid ->
  ContainsString line "<" = 1 \/ ContainsString line ">" = 1 ->
  exists returnStatus errMsg' l r l',
    RunForeGroundCommand w st userCommand errMsg fds
      = Some (Return (returnStatus, errMsg', l))
    /\ RunBackGroundCommand w st userCommand fds = Some (Return (r, l'))
    /\ (forall a t, ch_image (l_child l) = Some (a, t) ->
          a = take_until is_marker (take 1 (space_split line)))
    /\ (forall a t, ch_image (l_child l') = Some (a, t) ->
          a = take_until is_marker (take 1 (space_split line))).
Proof.
  intros line Hfork Hc.
  assert (Hb : (ContainsString line ">" =? 1) || (ContainsString line "<" =? 1) = true).
  { apply orb_true_iff. destruct Hc as [->| ->]; auto. }
  destruct (RunForeGroundCommand_steps w st userCommand errMsg fds)
    as (st1 & fn1 & fd1 & fds1 & st2 & fn2 & fd2 & fds2 & st3 & argv
        & G1 & _ & G2 & _ & Hargv & E).
  destruct (RunBackGroundCommand_steps w st userCommand fds)
    as (st1' & fn1' & fd1' & fds1' & st2' & fn2' & fd2' & fds2' & st3' & argv'
        & G1' & _ & G2' & _ & Hargv' & E').
  rewrite (redirect_chain_argv st userCommand st1 fn1 st2 fn2 G1 G2) in Hargv.
  rewrite (redirect_chain_argv st userCommand st1' fn1' st2' fn2' G1' G2') in Hargv'.
  fold line in Hargv, Hargv'. rewrite Hb in Hargv, Hargv'.
  rewrite E, E', Hfork.
  destruct (foreground_parent_launch (os_waitpid w) pid errMsg st3 fn2 fd2 fds2
              (foreground_child w (ContainsString (cstr (mem st) userCommand) ">")
                 (ContainsString (cstr (mem st) userCommand) "<") fd2 fn2 argv fds2))
    as (rs & em & out & ->).
  eexists rs, em, _, 0, _. split; [done|]. split; [done|].
  cbn [l_child]. split; intros a t Him.
  - apply foreground_child_argv in Him. congruence.
  - apply background_child_argv in Him. congruence.
Qed.

Lemma launchers_drop_arguments_witness :
  exists returnStatus errMsg' l r l',
    RunForeGroundCommand (os_runs 4923 (Exited 0)) (line_buffer "wc -l < junk") 0
        (replicate MAX_ERR_MSG_LENGTH NUL) std_fds
      = Some (Return (returnStatus, errMsg', l))
    /\ RunBackGroundCommand (os_runs 4923 (Exited 0)) (line_buffer "wc -l < junk") 0 std_fds
       = Some (Return (r, l'))
    /\ (forall a t, ch_image (l_child l) = Some (a, t) ->
          a = take_until is_marker
                (take 1 (space_split (cstr (mem (line_buffer "wc -l < junk")) 0))))
    /\ (forall a t, ch_image (l_child l') = Some (a, t) ->
          a = take_until is_marker
                (take 1 (space_split (cstr (mem (line_buffer "wc -l < junk")) 0)))).
Proof.
  apply (launchers_drop_arguments (os_runs 4923 (Exited 0)) (line_buffer "wc -l < junk") 0
           (replicate MAX_ERR_MSG_LENGTH NUL) std_fds 4923).
  - reflexivity.
  - left. vm_compute. reflexivity.
Defined.

(** X16: a foreground command whose line holds neither [<] nor [>] is
    started with the tokens of the line up to the first [&] token and on
    the descriptors of the shell, and the shell's descriptors are the same
    afterwards. *)
Theorem foreground_plain_command w st userCommand errMsg (fds : fd_table) pid :
  let line := cstr (mem st) userCommand in
  ContainsString line ">" = 0 ->
  ContainsString line "<" = 0 ->
  fds !! (-1) = None ->
  os_fork w = Some pid ->
  exists returnStatus errMsg' l,
    RunForeGroundCommand w st userCommand errMsg fds
      = Some (Return (returnStatus, errMsg', l))
    /\ l_fds l = fds
    /\ (forall a t, ch_image (l_child l) = Some (a, t) ->
          a = tokenizer_spec line /\ t = fds).
Proof.
  intros line Ho Hi Hneg Hfork.
  destruct (RunForeGroundCommand_steps w st userCommand errMsg fds)
    as (st1 & fn1 & fd1 & fds1 & st2 & fn2 & fd2 & fds2 & st3 & argv
        & G1 & O1 & G2 & O2 & Hargv & E).
  fold line in G1, O1, G2, O2, E.
  rewrite Ho in G1, O1, E. rewrite Hi in G2, O2, E.
  cbn [Z.eqb Pos.eqb] in G1, O1, G2, O2.
  unpair G1. unpair O1. unpair G2. unpair O2.
  fold line in Hargv. subst argv.
  rewrite E, Hfork.
  destruct (foreground_parent_launch (os_waitpid w) pid errMsg st3 (replicate MAX_COMMAND_LENGTH NUL) (-1) fds
              (foreground_child w 0 0 (-1) (replicate MAX_COMMAND_LENGTH NUL)
                 (tokenizer_spec line) fds))
    as (rs & em & out & ->).
  eexists rs, em, _. split; [done|]. cbn [l_fds l_child].
  unfold close. rewrite delete_id by done. split; [done|].
  unfold foreground_child. cbn [Z.eqb negb andb]. unfold close.
  rewrite delete_id by done.
  intros a t Him. by apply child_exec_image_eq in Him.
Qed.

Lemma foreground_plain_command_witness :
  exists returnStatus errMsg' l,
    RunForeGroundCommand (os_runs 4923 (Exited 0)) (line_buffer "ls -l src") 0
        (replicate MAX_ERR_MSG_LENGTH NUL) std_fds
      = Some (Return (returnStatus, errMsg', l))
    /\ l_fds l = std_fds
    /\ ch_image (l_child l) = Some ([chars "ls"; chars "-l"; chars "src"], std_fds).
Proof.
  destruct (foreground_plain_command (os_runs 4923 (Exited 0)) (line_buffer "ls -l src") 0
              (replicate MAX_ERR_MSG_LENGTH NUL) std_fds 4923)
    as (rs & em & l & E & Hf & Him).
  - vm_compute. reflexivity.
  - vm_compute. reflexivity.
  - vm_compute. reflexivity.
  - reflexivity.
  - exists rs, em, l. split; [exact E|]. split; [exact Hf|].
    vm_compute in E. injection E as _ _ <-. vm_compute. reflexivity.
Defined.

(** ** Redirection in the launchers *)

Lemma RunForeGroundCommand_launch w st userCommand errMsg fds pid :
  let line := cstr (mem st) userCommand in
  let hasOut := ContainsString line ">" in
  let hasIn := ContainsString line "<" in
  let fn0 := replicate MAX_COMMAND_LENGTH NUL in
  os_fork w = Some pid ->
  exists st1 fn1 fd1 fds1 st2 fn2 fd2 fds2 st3 argv rs em out,
    (if hasOut =? 1 then GetFileName st userCommand fn0 else Some (st, fn0)) = Some (st1, fn1)
    /\ (if hasOut =? 1 then sys_open w fds (cstr fn1 0) O_WRONLY_TRUNC_CREAT else (-1, fds))
       = (fd1, fds1)
    /\ (if hasIn =? 1 then GetFileName st1 userCommand fn1 else Some (st1, fn1))
       = Some (st2, fn2)
    /\ (if hasIn =? 1 then sys_open w fds1 (cstr fn2 0) O_RDONLY else (fd1, fds1))
       = (fd2, fds2)
    /\ argv = tokenizer_spec (cstr (mem st2) userCommand)
    /\ RunForeGroundCommand w st userCommand errMsg fds
       = Some (Return (rs, em,
                 Launched out st3 (close fds2 fd2) fn2
                   (foreground_child w hasOut hasIn fd2 fn2 argv fds2))).
Proof.
  intros line hasOut hasIn fn0 Hfork.
  destruct (RunForeGroundCommand_steps w st userCommand errMsg fds)
    as (st1 & fn1 & fd1 & fds1 & st2 & fn2 & fd2 & fds2 & st3 & argv
        & G1 & O1 & G2 & O2 & Hargv & E).
  rewrite Hfork in E.
  destruct (foreground_parent_launch (os_waitpid w) pid errMsg st3 fn2 fd2 fds2
              (foreground_child w hasOut hasIn fd2 fn2 argv fds2))
    as (rs & em & out & Ep).
  fold line in E. fold hasOut in E. fold hasIn in E. rewrite Ep in E.
  by exists st1, fn1, fd1, fds1, st2, fn2, fd2, fds2, st3, argv, rs, em, out.
Qed.

Lemma foreground_child_dup_out w fd fn argv (fds : fd_table) f :
  fds !! fd = Some f ->
  foreground_child w 1 0 fd fn argv fds = child_exec w argv (close (<[1 := f]> fds) fd).
Proof. intros H. unfold foreground_child, dup2. cbn [Z.eqb Pos.eqb]. by rewrite H. Qed.

Lemma foreground_child_dup_in w fd fn argv (fds : fd_table) f :
  fds !! fd = Some f ->
  foreground_child w 0 1 fd fn argv fds = child_exec w argv (close (<[0 := f]> fds) fd).
Proof. intros H. unfold foreground_child, dup2. cbn [Z.eqb Pos.eqb]. by rewrite H. Qed.

Lemma foreground_child_dup_both w fd fn argv (fds : fd_table) f :
  fds !! fd = Some f ->
  foreground_child w 1 1 fd fn argv fds
  = child_exec w argv (close (<[0 := f]> (<[1 := f]> fds)) fd).
Proof.
  intros H. unfold foreground_child, dup2. cbn [Z.eqb Pos.eqb]. rewrite H.
  cbn [negb andb]. change (1 <? 0) with false. cbv iota.
  assert ((<[1 := f]> fds : fd_table) !! fd = Some f) as ->; [|done].
  destruct (decide (fd = 1)) as [->|Hne].
  - by rewrite lookup_insert_eq.
  - by rewrite lookup_insert_ne.
Qed.

Lemma foreground_child_fail_in w fd fn argv (fds : fd_table) :
  fds !! fd = None ->
  foreground_child w 0 1 fd fn argv fds
  = child_exit (chars "smallsh: cannot open " ++ cstr fn 0 ++ chars " for input" ++ [NL]) 1.
Proof. intros H. unfold foreground_child, dup2. cbn [Z.eqb Pos.eqb]. by rewrite H. Qed.

Lemma foreground_child_fail_out w hi fd fn argv (fds : fd_table) :
  fds !! fd = None ->
  foreground_child w 1 hi fd fn argv fds = child_exit [] 1.
Proof. intros H. unfold foreground_child, dup2. cbn [Z.eqb Pos.eqb]. by rewrite H. Qed.

Lemma background_child_dup_in w fd fn argv (fds : fd_table) f :
  fds !! fd = Some f ->
  background_child w 0 fd fn argv fds = child_exec w argv (close (<[0 := f]> fds) fd).
Proof. intros H. unfold background_child, dup2. cbn [Z.eqb Pos.eqb]. by rewrite H. Qed.

(** The table of a child that made a fresh descriptor [fd] its stream
    [n] and closed [fd]. *)
Lemma redirected_table (fds : fd_table) fd f n :
  fds !! fd = None -> is_Some (fds !! n) ->
  close (<[n := f]> (<[fd := f]> fds)) fd !! n = Some f
  /\ forall k, k <> n -> close (<[n := f]> (<[fd := f]> fds)) fd !! k = fds !! k.
Proof.
  intros Hfree [x Hn]. assert (fd <> n) as Hne by congruence. unfold close. split.
  - rewrite lookup_delete_ne by done. by rewrite lookup_insert_eq.
  - intros k Hk. destruct (decide (k = fd)) as [->|Hkf].
    + by rewrite lookup_delete_eq.
    + rewrite lookup_delete_ne by done. by rewrite !lookup_insert_ne by done.
Qed.

(** X17: a foreground command whose line holds [>] and no [<], when the
    file can be opened and the shell has a standard output: the program
    runs with the file named behind the last marker, opened for writing and
    truncated, as standard output and with every other descriptor as in
    the shell; the shell's own descriptors are the same afterwards. *)
Theorem foreground_output_redirect w st userCommand errMsg (fds : fd_table) pid :
  let line := cstr (mem st) userCommand in
  let out := OpenFile (redirect_name line) O_WRONLY_TRUNC_CREAT in
  (length line < MAX_COMMAND_LENGTH)%nat ->
  ContainsString line ">" = 1 ->
  ContainsString line "<" = 0 ->
  os_can_open w (redirect_name line) O_WRONLY_TRUNC_CREAT = true ->
  is_Some (fds !! 1) ->
  os_fork w = Some pid ->
  exists returnStatus errMsg' l,
    RunForeGroundCommand w st userCommand errMsg fds
      = Some (Return (returnStatus, errMsg', l))
    /\ l_fds l = fds
    /\ (forall a t, ch_image (l_child l) = Some (a, t) ->
          t !! 1 = Some out /\ forall k, k <> 1 -> t !! k = fds !! k).
Proof.
  intros line out Hlen Ho Hi Hopen H1 Hfork.
  destruct (RunForeGroundCommand_launch w st userCommand errMsg fds pid Hfork)
    as (st1 & fn1 & fd1 & fds1 & st2 & fn2 & fd2 & fds2 & st3 & argv & rs & em & o
        & G1 & O1 & G2 & O2 & Hargv & E).
  destruct (redirect_chain st userCommand st1 fn1 st2 fn2 Hlen G1 G2) as (N1 & _ & _).
  fold line in G1, O1, G2, O2, E, N1.
  rewrite Ho in G1, O1, E, N1. rewrite Hi in G2, O2, E.
  cbn [Z.eqb Pos.eqb] in G1, O1, G2, O2.
  unpair G2. unpair O2. rewrite (N1 eq_refl) in O1.
  apply sys_open_spec in O1 as [(_ & Hfree & ->)|(Hc & _)]; [|congruence].
  fold out in E. rewrite E. eexists rs, em, _. split; [done|]. cbn [l_fds l_child]. split.
  - unfold close. by apply delete_insert_id.
  - intros a t Him.
    rewrite (foreground_child_dup_out _ _ _ _ _ out) in Him by apply lookup_insert_eq.
    apply child_exec_image_eq in Him as [_ ->]. by apply redirected_table.
Qed.

Lemma foreground_output_redirect_witness :
  exists returnStatus errMsg' l,
    RunForeGroundCommand (os_runs 4923 (Exited 0)) (line_buffer "ls > junk") 0
        (replicate MAX_ERR_MSG_LENGTH NUL) std_fds
      = Some (Return (returnStatus, errMsg', l))
    /\ l_fds l = std_fds
    /\ ch_image (l_child l)
       = Some ([chars "ls"],
               <[1 := OpenFile (chars "junk") O_WRONLY_TRUNC_CREAT]> std_fds).
Proof.
  destruct (foreground_output_redirect (os_runs 4923 (Exited 0)) (line_buffer "ls > junk") 0
              (replicate MAX_ERR_MSG_LENGTH NUL) std_fds 4923)
    as (rs & em & l & E & Hf & _).
  - vm_compute. lia.
  - vm_compute. reflexivity.
  - vm_compute. reflexivity.
  - reflexivity.
  - vm_compute. eauto.
  - reflexivity.
  - exists rs, em, l. split; [exact E|]. split; [exact Hf|].
    vm_compute in E. injection E as _ _ <-. vm_compute. reflexivity.
Defined.

(** X18: a foreground command whose line holds [<] and no [>], when the
    file can be opened and the shell has a standard input: the program runs
    with the file named behind the last marker, opened for reading, as
    standard input and with every other descriptor as in the shell; the
    shell's own descriptors are the same afterwards. *)
Theorem foreground_input_redirect w st userCommand errMsg (fds : fd_table) pid :
  let line := cstr (mem st) userCommand in
  let inp := OpenFile (redirect_name line) O_RDONLY in
  (length line < MAX_COMMAND_LENGTH)%nat ->
  ContainsString line ">" = 0 ->
  ContainsString line "<" = 1 ->
  os_can_open w (redirect_name line) O_RDONLY = true ->
  is_Some (fds !! 0) ->
  os_fork w = Some pid ->
  exists returnStatus errMsg' l,
    RunForeGroundCommand w st userCommand errMsg fds
      = Some (Return (returnStatus, errMsg', l))
    /\ l_fds l = fds
    /\ (forall a t, ch_image (l_child l) = Some (a, t) ->
          t !! 0 = Some inp /\ forall k, k <> 0 -> t !! k = fds !! k).
Proof.
  intros line inp Hlen Ho Hi Hopen H0 Hfork.
  destruct (RunForeGroundCommand_launch w st userCommand errMsg fds pid Hfork)
    as (st1 & fn1 & fd1 & fds1 & st2 & fn2 & fd2 & fds2 & st3 & argv & rs & em & o
        & G1 & O1 & G2 & O2 & Hargv & E).
  destruct (redirect_chain st userCommand st1 fn1 st2 fn2 Hlen G1 G2) as (_ & N2 & _).
  fold line in G1, O1, G2, O2, E, N2.
  rewrite Ho in G1, O1, E, N2. rewrite Hi in G2, O2, E, N2.
  cbn [Z.eqb Pos.eqb] in G1, O1, G2, O2.
  unpair G1. unpair O1. destruct (N2 (or_intror eq_refl)) as [Hname _].
  rewrite Hname in O2.
  apply sys_open_spec in O2 as [(_ & Hfree & ->)|(Hc & _)]; [|congruence].
  fold inp in E. rewrite E. eexists rs, em, _. split; [done|]. cbn [l_fds l_child]. split.
  - unfold close. by apply delete_insert_id.
  - intros a t Him.
    rewrite (foreground_child_dup_in _ _ _ _ _ inp) in Him by apply lookup_insert_eq.
    apply child_exec_image_eq in Him as [_ ->]. by apply redirected_table.
Qed.

Lemma foreground_input_redirect_witness :
  exists returnStatus errMsg' l,
    RunForeGroundCommand (os_runs 4923 (Exited 0)) (line_buffer "wc < junk") 0
        (replicate MAX_ERR_MSG_LENGTH NUL) std_fds
      = Some (Return (returnStatus, errMsg', l))
    /\ l_fds l = std_fds
    /\ ch_image (l_child l)
       = Some ([chars "wc"], <[0 := OpenFile (chars "junk") O_RDONLY]> std_fds).
Proof.
  destruct (foreground_input_redirect (os_runs 4923 (Exited 0)) (line_buffer "wc < junk") 0
              (replicate MAX_ERR_MSG_LENGTH NUL) std_fds 4923)
    as (rs & em & l & E & Hf & _).
  - vm_compute. lia.
  - vm_compute. reflexivity.
  - vm_compute. reflexivity.
  - reflexivity.
  - vm_compute. eauto.
  - reflexivity.
  - exists rs, em, l. split; [exact E|]. split; [exact Hf|].
    vm_compute in E. injection E as _ _ <-. vm_compute. reflexivity.
Defined.

(** X19: a foreground command whose line holds both [<] and [>], when the
    file named behind the last marker can be opened both ways: the launcher
    opens that one file twice and keeps the second descriptor only, so the
    program runs with the file, opened for reading, as standard input and
    as standard output, and the descriptor opened for writing stays open in
    the shell after the command. *)
Theorem foreground_both_redirects w st userCommand errMsg (fds : fd_table) pid :
  let line := cstr (mem st) userCommand in
  let inp := OpenFile (redirect_name line) O_RDONLY in
  let out := OpenFile (redirect_name line) O_WRONLY_TRUNC_CREAT in
  (length line < MAX_COMMAND_LENGTH)%nat ->
  ContainsString line ">" = 1 ->
  ContainsString line "<" = 1 ->
  os_can_open w (redirect_name line) O_WRONLY_TRUNC_CREAT = true ->
  os_can_open w (redirect_name line) O_RDONLY = true ->
  is_Some (fds !! 0) ->
  is_Some (fds !! 1) ->
  os_fork w = Some pid ->
  exists returnStatus errMsg' l fd,
    RunForeGroundCommand w st userCommand errMsg fds
      = Some (Return (returnStatus, errMsg', l))
    /\ fds !! fd = None
    /\ l_fds l = <[fd := out]> fds
    /\ (forall a t, ch_image (l_child l) = Some (a, t) ->
          t !! 0 = Some inp /\ t !! 1 = Some inp /\ t !! fd = Some out).
Proof.
  intros line inp out Hlen Ho Hi Hopen_w Hopen_r H0 H1 Hfork.
  destruct (RunForeGroundCommand_launch w st userCommand errMsg fds pid Hfork)
    as (st1 & fn1 & fd1 & fds1 & st2 & fn2 & fd2 & fds2 & st3 & argv & rs & em & o
        & G1 & O1 & G2 & O2 & Hargv & E).
  destruct (redirect_chain st userCommand st1 fn1 st2 fn2 Hlen G1 G2) as (N1 & N2 & _).
  fold line in G1, O1, G2, O2, E, N1, N2.
  rewrite Ho in G1, O1, E, N1, N2. rewrite Hi in G2, O2, E, N2.
  cbn [Z.eqb Pos.eqb] in G1, O1, G2, O2.
  destruct (N2 (or_introl eq_refl)) as [Hname _].
  rewrite (N1 eq_refl) in O1. rewrite Hname in O2.
  apply sys_open_spec in O1 as [(_ & Hfree1 & ->)|(Hc & _)]; [|congruence].
  apply sys_open_spec in O2 as [(_ & Hfree2 & ->)|(Hc & _)]; [|congruence].
  fold out in E, Hfree2. fold inp in E.
  assert (fd2 <> fd1) as Hne by (intros ->; by rewrite lookup_insert_eq in Hfree2).
  assert (fd1 <> 0 /\ fd1 <> 1) as [Hn10 Hn11].
  { destruct H0 as [x0 H0], H1 as [x1 H1]. split; congruence. }
  assert (fd2 <> 0 /\ fd2 <> 1) as [Hn20 Hn21].
  { rewrite lookup_insert_ne in Hfree2 by done.
    destruct H0 as [x0 H0], H1 as [x1 H1]. split; congruence. }
  rewrite E. eexists rs, em, _, fd1. split; [done|]. cbn [l_fds l_child].
  split; [done|]. split.
  - unfold close. by apply delete_insert_id.
  - intros a t Him.
    rewrite (foreground_child_dup_both _ _ _ _ _ inp) in Him by apply lookup_insert_eq.
    apply child_exec_image_eq in Him as [_ ->]. unfold close.
    rewrite !lookup_delete_ne by done. rewrite lookup_insert_eq.
    rewrite (lookup_insert_ne _ 0 1) by done. rewrite lookup_insert_eq.
    rewrite !lookup_insert_ne by done. by rewrite lookup_insert_eq.
Qed.

Lemma foreground_both_redirects_witness :
  exists returnStatus errMsg' l,
    RunForeGroundCommand (os_runs 4923 (Exited 0)) (line_buffer "wc < junk > junk2") 0
        (replicate MAX_ERR_MSG_LENGTH NUL) std_fds
      = Some (Return (returnStatus, errMsg', l))
    /\ l_fds l = <[3 := OpenFile (chars "junk2") O_WRONLY_TRUNC_CREAT]> std_fds
    /\ ch_image (l_child l)
       = Some ([chars "wc"],
               <[0 := OpenFile (chars "junk2") O_RDONLY]>
                 (<[1 := OpenFile (chars "junk2") O_RDONLY]>
                    (<[3 := OpenFile (chars "junk2") O_WRONLY_TRUNC_CREAT]> std_fds))).
Proof.
  destruct (foreground_both_redirects (os_runs 4923 (Exited 0))
              (line_buffer "wc < junk > junk2") 0
              (replicate MAX_ERR_MSG_LENGTH NUL) std_fds 4923)
    as (rs & em & l & fd & E & _).
  - vm_compute. lia.
  - vm_compute. reflexivity.
  - vm_compute. reflexivity.
  - reflexivity.
  - reflexivity.
  - vm_compute. eauto.
  - vm_compute. eauto.
  - reflexivity.
  - exists rs, em, l. split; [exact E|].
    vm_compute in E. injection E as _ _ <-. split; vm_compute; reflexivity.
Defined.

(** X20: a foreground command whose line holds [<] and no [>], when the
    file cannot be opened: the program is not run; the child prints
    [smallsh: cannot open F for input] with the file named behind the last
    marker and exits with 1.  The launcher prints nothing itself and keeps
    [errMsg] and the descriptors of the shell; it returns 1 when its
    [waitpid] reaps the child, and 0 when [waitpid] fails, as it does when
    the handler of [main] has reaped the child before and has written its
    notice for it. *)
Theorem foreground_input_open_fails w st userCommand errMsg (fds : fd_table) pid :
  let line := cstr (mem st) userCommand in
  (length line < MAX_COMMAND_LENGTH)%nat ->
  ContainsString line ">" = 0 ->
  ContainsString line "<" = 1 ->
  os_can_open w (redirect_name line) O_RDONLY = false ->
  fds !! (-1) = None ->
  os_fork w = Some pid ->
  exists l,
    RunForeGroundCommand w st userCommand errMsg fds
      = Some (Return (match os_waitpid w with WaitReaped => 1 | WaitFailed _ => 0 end,
                      errMsg, l))
    /\ l_output l = handler_notice (os_waitpid w) pid (Exited 1)
    /\ l_fds l = fds
    /\ l_child l
       = child_exit (chars "smallsh: cannot open " ++ redirect_name line
                     ++ chars " for input" ++ [NL]) 1.
Proof.
  intros line Hlen Ho Hi Hopen Hneg Hfork.
  destruct (RunForeGroundCommand_steps w st userCommand errMsg fds)
    as (st1 & fn1 & fd1 & fds1 & st2 & fn2 & fd2 & fds2 & st3 & argv
        & G1 & O1 & G2 & O2 & Hargv & E).
  destruct (redirect_chain st userCommand st1 fn1 st2 fn2 Hlen G1 G2) as (_ & N2 & _).
  fold line in G1, O1, G2, O2, E, N2.
  rewrite Ho in G1, O1, E, N2. rewrite Hi in G2, O2, E, N2.
  cbn [Z.eqb Pos.eqb] in G1, O1, G2, O2.
  unpair G1. unpair O1. destruct (N2 (or_intror eq_refl)) as [Hname _].
  rewrite Hname in O2.
  apply sys_open_spec in O2 as [(Hc & _)|(_ & -> & ->)]; [congruence|].
  rewrite E, Hfork. rewrite foreground_child_fail_in by done. rewrite Hname.
  destruct (os_waitpid w) as [|b].
  - rewrite (foreground_parent_exited _ _ _ _ _ _ _ 1) by (done || lia).
    eexists. split; [done|]. cbn [l_output l_fds l_child]. split; [done|].
    split; [|done]. unfold close. by apply delete_id.
  - rewrite foreground_parent_failed.
    eexists. split; [done|]. cbn [l_output l_fds l_child]. split; [done|].
    split; [|done]. unfold close. by apply delete_id.
Qed.

Lemma foreground_input_open_fails_witness :
  exists l,
    RunForeGroundCommand
        (OS (fun _ _ => false) (Some 4923) (fun _ _ _ => Some (Exited 0)) WaitReaped)
        (line_buffer "wc < junk") 0 (replicate MAX_ERR_MSG_LENGTH NUL) std_fds
      = Some (Return (1, replicate MAX_ERR_MSG_LENGTH NUL, l))
    /\ ch_output (l_child l) = chars "smallsh: cannot open junk for input" ++ [NL]
    /\ ch_image (l_child l) = None.
Proof.
  destruct (foreground_input_open_fails
              (OS (fun _ _ => false) (Some 4923) (fun _ _ _ => Some (Exited 0)) WaitReaped)
              (line_buffer "wc < junk") 0 (replicate MAX_ERR_MSG_LENGTH NUL) std_fds 4923)
    as (l & E & _ & _ & Hch).
  - vm_compute. lia.
  - vm_compute. reflexivity.
  - vm_compute. reflexivity.
  - reflexivity.
  - reflexivity.
  - reflexivity.
  - exists l. split; [exact E|]. rewrite Hch. split; vm_compute; reflexivity.
Defined.

(** X21: a foreground command whose line holds [>] and no [<], when the
    file cannot be opened for writing: the program is not run; the child
    prints nothing and exits with 1.  The launcher prints nothing itself
    and keeps [errMsg] and the descriptors of the shell; it returns 1 when
    its [waitpid] reaps the child, and 0 when [waitpid] fails, as it does
    when the handler of [main] has reaped the child before and has written
    its notice for it. *)
Theorem foreground_output_open_fails w st userCommand errMsg (fds : fd_table) pid :
  let line := cstr (mem st) userCommand in
  (length line < MAX_COMMAND_LENGTH)%nat ->
  ContainsString line ">" = 1 ->
  ContainsString line "<" = 0 ->
  os_can_open w (redirect_name line) O_WRONLY_TRUNC_CREAT = false ->
  fds !! (-1) = None ->
  os_fork w = Some pid ->
  exists l,
    RunForeGroundCommand w st userCommand errMsg fds
      = Some (Return (match os_waitpid w with WaitReaped => 1 | WaitFailed _ => 0 end,
                      errMsg, l))
    /\ l_output l = handler_notice (os_waitpid w) pid (Exited 1)
    /\ l_fds l = fds
    /\ l_child l = child_exit [] 1.
Proof.
  intros line Hlen Ho Hi Hopen Hneg Hfork.
  destruct (RunForeGroundCommand_steps w st userCommand errMsg fds)
    as (st1 & fn1 & fd1 & fds1 & st2 & fn2 & fd2 & fds2 & st3 & argv
        & G1 & O1 & G2 & O2 & Hargv & E).
  destruct (redirect_chain st userCommand st1 fn1 st2 fn2 Hlen G1 G2) as (N1 & _ & _).
  fold line in G1, O1, G2, O2, E, N1.
  rewrite Ho in G1, O1, E, N1. rewrite Hi in G2, O2, E.
  cbn [Z.eqb Pos.eqb] in G1, O1, G2, O2.
  unpair G2. unpair O2. rewrite (N1 eq_refl) in O1.
  apply sys_open_spec in O1 as [(Hc & _)|(_ & -> & ->)]; [congruence|].
  rewrite E, Hfork. rewrite foreground_child_fail_out by done.
  destruct (os_waitpid w) as [|b].
  - rewrite (foreground_parent_exited _ _ _ _ _ _ _ 1) by (done || lia).
    eexists. split; [done|]. cbn [l_output l_fds l_child]. split; [done|].
    split; [|done]. unfold close. by apply delete_id.
  - rewrite foreground_parent_failed.
    eexists. split; [done|]. cbn [l_output l_fds l_child]. split; [done|].
    split; [|done]. unfold close. by apply delete_id.
Qed.

Lemma foreground_output_open_fails_witness :
  exists l,
    RunForeGroundCommand
        (OS (fun _ _ => false) (Some 4923) (fun _ _ _ => Some (Exited 0)) (WaitFailed true))
        (line_buffer "ls > junk") 0 (replicate MAX_ERR_MSG_LENGTH NUL) std_fds
      = Some (Return (0, replicate MAX_ERR_MSG_LENGTH NUL, l))
    /\ ch_output (l_child l) = []
    /\ ch_image (l_child l) = None
    /\ cstr (l_output l) 0
       = NL :: chars "background pid 4923 is done: exit value 1" ++ [NL].
Proof.
  destruct (foreground_output_open_fails
              (OS (fun _ _ => false) (Some 4923) (fun _ _ _ => Some (Exited 0))
                 (WaitFailed true))
              (line_buffer "ls > junk") 0 (replicate MAX_ERR_MSG_LENGTH NUL) std_fds 4923)
    as (l & E & Hout & _ & Hch).
  - vm_compute. lia.
  - vm_compute. reflexivity.
  - vm_compute. reflexivity.
  - reflexivity.
  - reflexivity.
  - reflexivity.
  - exists l. split; [exact E|]. rewrite Hch, Hout.
    repeat split; vm_compute; reflexivity.
Defined.

(** X22: a background command whose line holds no [>], when the shell has
    a standard input and the file for the child's standard input can be
    opened (the file named behind the last [<], or [/dev/null] when the
    line holds no [<]): the program runs with that file, opened for
    reading, as standard input and with every other descriptor as in the
    shell; the launcher returns 0 and the shell's own descriptors are the
    same afterwards. *)
Theorem background_standard_input w st userCommand (fds : fd_table) pid :
  let line := cstr (mem st) userCommand in
  let path := if ContainsString line "<" =? 1 then redirect_name line
              else chars "/dev/null" in
  (length line < MAX_COMMAND_LENGTH)%nat ->
  ContainsString line ">" = 0 ->
  os_can_open w path O_RDONLY = true ->
  is_Some (fds !! 0) ->
  os_fork w = Some pid ->
  exists l,
    RunBackGroundCommand w st userCommand fds = Some (Return (0, l))
    /\ l_fds l = fds
    /\ (forall a t, ch_image (l_child l) = Some (a, t) ->
          t !! 0 = Some (OpenFile path O_RDONLY)
          /\ forall k, k <> 0 -> t !! k = fds !! k).
Proof.
  intros line path Hlen Ho Hopen H0 Hfork.
  destruct (RunBackGroundCommand_steps w st userCommand fds)
    as (st1 & fn1 & fd1 & fds1 & st2 & fn2 & fd2 & fds2 & st3 & argv
        & G1 & O1 & G2 & O2 & Hargv & E).
  destruct (redirect_chain st userCommand st1 fn1 st2 fn2 Hlen G1 G2) as (_ & N2 & _).
  fold line in G1, O1, G2, O2, E, N2.
  rewrite Ho in G1, O1, E, N2. cbn [Z.eqb Pos.eqb] in G1, O1.
  unpair G1. unpair O1.
  assert (O2' : sys_open w fds path O_RDONLY = (fd2, fds2)).
  { unfold path. destruct (ContainsString_01 line "<") as [Hi|Hi];
      rewrite Hi in O2, N2 |- *; cbn [Z.eqb Pos.eqb] in O2 |- *; [done|].
    destruct (N2 (or_intror eq_refl)) as [Hname _]. by rewrite Hname in O2. }
  clear O2. apply sys_open_spec in O2' as [(_ & Hfree & ->)|(Hc & _)]; [|congruence].
  rewrite E, Hfork. eexists. split; [done|]. cbn [l_fds l_child]. split.
  - unfold close. by apply delete_insert_id.
  - intros a t Him.
    rewrite (background_child_dup_in _ _ _ _ _ (OpenFile path O_RDONLY)) in Him
      by apply lookup_insert_eq.
    apply child_exec_image_eq in Him as [_ ->]. by apply redirected_table.
Qed.

Lemma background_standard_input_witness :
  exists l,
    RunBackGroundCommand (os_runs 4923 (Exited 0)) (line_buffer "sleep 5 &") 0 std_fds
      = Some (Return (0, l))
    /\ l_fds l = std_fds
    /\ ch_image (l_child l)
       = Some ([chars "sleep"; chars "5"],
               <[0 := OpenFile (chars "/dev/null") O_RDONLY]> std_fds).
Proof.
  destruct (background_standard_input (os_runs 4923 (Exited 0)) (line_buffer "sleep 5 &") 0
              std_fds 4923)
    as (l & E & Hf & _).
  - vm_compute. lia.
  - vm_compute. reflexivity.
  - reflexivity.
  - vm_compute. eauto.
  - reflexivity.
  - exists l. split; [exact E|]. split; [exact Hf|].
    vm_compute in E. injection E as <-. vm_compute. reflexivity.
Defined.

(** ** Turns of the loop that run nothing *)

Lemma read_command_reads userInput line rest :
  length userInput = MAX_COMMAND_LENGTH ->
  Forall line_byte line -> (length line <= 77)%nat ->
  exists b,
    read_command userInput (Stdin (line ++ NL :: rest) false)
      = ReadLine b (Stdin rest false)
    /\ cstr b 0 = line /\ length b = MAX_COMMAND_LENGTH.
Proof.
  intros Hlen Hl Hk. unfold read_command.
  set (cleared := strncpy userInput [] (MAX_COMMAND_LENGTH - 1)).
  rewrite (fgets_got cleared (line ++ [NL]) false _ rest false);
    [|by destruct line|by apply take_line_newline; [|lia]].
  destruct (got_buffer cleared (line ++ [NL])) as (Hb & Hc & Hm).
  - by apply cleared_length.
  - rewrite length_app. simpl. lia.
  - apply Forall_app. split; [by apply line_bytes_nonnul|]. by repeat constructor.
  - destruct (RemoveNewLine_last _ line NL Hm Hc) as [-> Hcut].
    rewrite Ascii.eqb_refl. cbn [eof_flag orb].
    eexists. split; [done|]. split; [done|].
    unfold wr. by rewrite length_insert.
Qed.

Lemma cstr_head b c : head (cstr b 0) = Some c -> rd b 0 = c.
Proof.
  destruct b as [|a b]; [done|]. rewrite cstr0_cons. unfold rd.
  destruct (nonnul a); [|done]. cbn. congruence.
Qed.

Lemma process_line_skips w home sh :
  skipped_line (cstr (userInput sh) 0) ->
  process_line w home sh = Some (Return (sh, [])).
Proof.
  intros [H|H]; unfold process_line.
  - by assert (strcmp0 (cstr (userInput sh) 0) "" = true) as -> by (by apply strcmp0_true).
  - destruct (strcmp0 (cstr (userInput sh) 0) ""); [done|].
    by rewrite (cstr_head _ _ H).
Qed.

(** X23: the loop sends blank lines and lines that start with [#] back to
    the prompt.  On input that starts with such lines, each of at most 77
    bytes, the loop takes one turn per line, prints the prompt [: ] once per
    turn and nothing else, starts no child whatever the operating system
    would do, and keeps the saved status, its message and the descriptors
    of the shell; the input behind these lines is still unread. *)
Theorem shell_skips_blank_and_comment home : forall lines ws sh rest effects,
  length (userInput sh) = MAX_COMMAND_LENGTH ->
  Forall (fun l => Forall line_byte l /\ (length l <= 77)%nat /\ skipped_line l) lines ->
  length ws = length lines ->
  exists sh',
    RunShellLoop ws home sh (Stdin (typed_bytes lines ++ rest) false) effects
      = Some (LoopRunning sh' (Stdin rest false)
                (effects ++ replicate (length lines) (Printed (chars ": "))))
    /\ statusNumber sh' = statusNumber sh
    /\ errMsg sh' = errMsg sh
    /\ sh_fds sh' = sh_fds sh
    /\ length (userInput sh') = MAX_COMMAND_LENGTH.
Proof.
  induction lines as [|l lines IH]; intros ws sh rest effects Hlen Hl Hws.
  - destruct ws; [|done]. exists sh. cbn [RunShellLoop length replicate].
    by rewrite app_nil_r.
  - destruct ws as [|w ws]; [done|].
    apply Forall_cons in Hl as [(Hb & Hk & Hskip) Hl].
    change (typed_bytes (l :: lines) ++ rest)
      with (((l ++ [NL]) ++ typed_bytes lines) ++ rest).
    rewrite <- !app_assoc. cbn [app].
    destruct (read_command_reads (userInput sh) l (typed_bytes lines ++ rest) Hlen Hb Hk)
      as (b & Er & Hc & Hbl).
    cbn [RunShellLoop]. unfold shell_turn. rewrite Er.
    rewrite process_line_skips by (unfold userInput; cbn [sh_tok mem]; by rewrite Hc).
    cbn [mbind option_bind].
    destruct (IH ws (Shell (statusNumber sh) (errMsg sh) (TokState b (save (sh_tok sh)))
                       (sh_fds sh))
                rest ((effects ++ [Printed (chars ": ")]) ++ []))
      as (sh' & E & H1 & H2 & H3 & H4); [done|done|by injection Hws|].
    exists sh'. rewrite E. split; [|done].
    rewrite app_nil_r, <- app_assoc. done.
Qed.

Lemma shell_skips_blank_and_comment_witness :
  exists sh',
    RunShellLoop [os_no_fork; os_no_fork; os_no_fork] None initial_shell
      (Stdin (typed ["# a comment"; ""; "#ls > junk"] ++ typed ["status"]) false) []
    = Some (LoopRunning sh' (Stdin (typed ["status"]) false)
              (replicate 3 (Printed (chars ": "))))
    /\ statusNumber sh' = 0.
Proof.
  destruct (shell_skips_blank_and_comment None
              [chars "# a comment"; []; chars "#ls > junk"]
              [os_no_fork; os_no_fork; os_no_fork] initial_shell (typed ["status"]) [])
    as (sh' & E & H & _).
  - reflexivity.
  - repeat constructor; try discriminate; simpl; lia.
  - reflexivity.
  - exists sh'. split; [exact E | exact H].
Defined.

(** ** Output redirection in the background *)

Lemma background_child_dup_both w fd fn argv (fds : fd_table) f :
  fds !! fd = Some f ->
  background_child w 1 fd fn argv fds
  = child_exec w argv (close (<[0 := f]> (<[1 := f]> fds)) fd).
Proof.
  intros H. unfold background_child, dup2. cbn [Z.eqb Pos.eqb]. rewrite H.
  cbn [negb andb]. change (1 <? 0) with false. cbv iota.
  assert ((<[1 := f]> fds : fd_table) !! fd = Some f) as ->; [|done].
  destruct (decide (fd = 1)) as [->|Hne].
  - by rewrite lookup_insert_eq.
  - by rewrite lookup_insert_ne.
Qed.

(** X24: a background command whose line holds [>] and no [<], when the
    file named behind the last marker and [/dev/null] can both be opened:
    the launcher opens the file for writing and then [/dev/null] for reading
    into the same variable, so the program runs with [/dev/null], opened
    for reading, as standard output and as standard input; the file is
    created and truncated but never written through standard output, and
    its descriptor stays open in the shell after the command. *)
Theorem background_output_goes_to_null w st userCommand (fds : fd_table) pid :
  let line := cstr (mem st) userCommand in
  let null := OpenFile (chars "/dev/null") O_RDONLY in
  let out := OpenFile (redirect_name line) O_WRONLY_TRUNC_CREAT in
  (length line < MAX_COMMAND_LENGTH)%nat ->
  ContainsString line ">" = 1 ->
  ContainsString line "<" = 0 ->
  os_can_open w (redirect_name line) O_WRONLY_TRUNC_CREAT = true ->
  os_can_open w (chars "/dev/null") O_RDONLY = true ->
  is_Some (fds !! 0) ->
  is_Some (fds !! 1) ->
  os_fork w = Some pid ->
  exists l fd,
    RunBackGroundCommand w st userCommand fds = Some (Return (0, l))
    /\ fds !! fd = None
    /\ l_fds l = <[fd := out]> fds
    /\ (forall a t, ch_image (l_child l) = Some (a, t) ->
          t !! 0 = Some null /\ t !! 1 = Some null /\ t !! fd = Some out).
Proof.
  intros line null out Hlen Ho Hi Hopen_w Hopen_r H0 H1 Hfork.
  destruct (RunBackGroundCommand_steps w st userCommand fds)
    as (st1 & fn1 & fd1 & fds1 & st2 & fn2 & fd2 & fds2 & st3 & argv
        & G1 & O1 & G2 & O2 & Hargv & E).
  destruct (redirect_chain st userCommand st1 fn1 st2 fn2 Hlen G1 G2) as (N1 & _ & _).
  fold line in G1, O1, G2, O2, E, N1.
  rewrite Ho in G1, O1, E, N1. rewrite Hi in G2, O2.
  cbn [Z.eqb Pos.eqb] in G1, O1, G2, O2.
  unpair G2. rewrite (N1 eq_refl) in O1.
  apply sys_open_spec in O1 as [(_ & Hfree1 & ->)|(Hc & _)]; [|congruence].
  apply sys_open_spec in O2 as [(_ & Hfree2 & ->)|(Hc & _)]; [|congruence].
  fold out in E, Hfree2. fold null in E.
  assert (fd2 <> fd1) as Hne by (intros ->; by rewrite lookup_insert_eq in Hfree2).
  assert (fd1 <> 0 /\ fd1 <> 1) as [Hn10 Hn11].
  { destruct H0 as [x0 H0], H1 as [x1 H1]. split; congruence. }
  assert (fd2 <> 0 /\ fd2 <> 1) as [Hn20 Hn21].
  { rewrite lookup_insert_ne in Hfree2 by done.
    destruct H0 as [x0 H0], H1 as [x1 H1]. split; congruence. }
  rewrite E, Hfork. eexists _, fd1. split; [done|]. cbn [l_fds l_child].
  split; [done|]. split.
  - unfold close. by apply delete_insert_id.
  - intros a t Him.
    rewrite (background_child_dup_both _ _ _ _ _ null) in Him by apply lookup_insert_eq.
    apply child_exec_image_eq in Him as [_ ->]. unfold close.
    rewrite !lookup_delete_ne by done. rewrite lookup_insert_eq.
    rewrite (lookup_insert_ne _ 0 1) by done. rewrite lookup_insert_eq.
    rewrite !lookup_insert_ne by done. by rewrite lookup_insert_eq.
Qed.

Lemma background_output_goes_to_null_witness :
  exists l,
    RunBackGroundCommand (os_runs 4923 (Exited 0)) (line_buffer "date > junk &") 0 std_fds
      = Some (Return (0, l))
    /\ l_fds l = <[3 := OpenFile (chars "junk") O_WRONLY_TRUNC_CREAT]> std_fds
    /\ ch_image (l_child l)
       = Some ([chars "date"],
               <[0 := OpenFile (chars "/dev/null") O_RDONLY]>
                 (<[1 := OpenFile (chars "/dev/null") O_RDONLY]>
                    (<[3 := OpenFile (chars "junk") O_WRONLY_TRUNC_CREAT]> std_fds))).
Proof.
  destruct (background_output_goes_to_null (os_runs 4923 (Exited 0))
              (line_buffer "date > junk &") 0 std_fds 4923)
    as (l & fd & E & _).
  - vm_compute. lia.
  - vm_compute. reflexivity.
  - vm_compute. reflexivity.
  - reflexivity.
  - reflexivity.
  - vm_compute. eauto.
  - vm_compute. eauto.
  - reflexivity.
  - exists l. split; [exact E|].
    vm_compute in E. injection E as <-. split; vm_compute; reflexivity.
Defined.
